(** * PowerGym front end: reward eligibility and subscription renewal

    A shallow embedding of the client-side reward and renewal logic
    (features/rewards/utils/rewardHelpers.ts, the RewardProgress
    component, RenewSubscriptionModal.tsx and the cache handlers of
    hooks/useSubscriptions.ts), followed by the properties the
    specification states about it.

    Conventions of the embedding:
    - a JavaScript [number] that carries a price or a percentage is an
      IEEE 754 binary64 value ([float]); attendance counts and the
      attendance threshold are integer valued and are kept in [Z];
    - a [Date] is its time value in milliseconds, [None] standing for an
      invalid date (time value NaN);
    - [undefined] and [null] are [None];
    - built-ins of the host that parse text ([parseFloat], [new Date(s)])
      and repository code that is not among the sources are parameters,
      gathered in type classes. *)

From Stdlib Require Import ZArith List String Bool Lia Floats.
Import ListNotations.

Local Open Scope string_scope.
Local Open Scope Z_scope.

(* ================================================================= *)
(** ** JavaScript values used by the sources *)

Module JS.

Definition number : Type := float.

(** [isNaN(x)] for an [x] that already is a number. *)
Definition isNaN (x : number) : bool := PrimFloat.is_nan x.

(** [a === b] on numbers: IEEE equality, so NaN differs from itself and
    the two zeros are equal. *)
Definition strict_eq (a b : number) : bool := PrimFloat.eqb a b.

(** [Number.isFinite]. *)
Definition isFinite (x : number) : bool := PrimFloat.is_finite x.

(** The number denoted by an integer, rounded to nearest-even. *)
Definition number_of_Z (z : Z) : number :=
  SF2Prim (binary_normalize prec emax z 0 false).

(** [Math.min(a, b)]: NaN if either argument is, and -0 below +0. *)
Definition Math_min (a b : number) : number :=
  if PrimFloat.is_nan a || PrimFloat.is_nan b then PrimFloat.nan
  else if PrimFloat.ltb a b then a
  else if PrimFloat.ltb b a then b
  else if PrimFloat.get_sign a then a else b.

(** A value of type [number | string]. *)
Inductive NumberOrString : Type :=
| Num (n : number)
| Str (s : string).

(** Time value of a [Date]; [None] is an invalid date. *)
Definition Date : Type := option Z.

(** Relational operators on dates compare the time values, and every
    comparison with an invalid date is false. *)
Definition Date_lt (a b : Date) : bool :=
  match a, b with
  | Some x, Some y => x <? y
  | _, _ => false
  end.

Definition Date_le (a b : Date) : bool :=
  match a, b with
  | Some x, Some y => x <=? y
  | _, _ => false
  end.

Definition Date_ge (a b : Date) : bool := Date_le b a.

(** Truthiness of an optional string: [undefined], [null] and the empty
    string are falsy. *)
Definition truthy (s : option string) : option string :=
  match s with
  | Some v => if String.eqb v "" then None else Some v
  | None => None
  end.

(** [xs.includes(x)] on an array of strings. *)
Definition includes (xs : list string) (x : string) : bool :=
  existsb (String.eqb x) xs.

(** Built-ins that read text. *)
Class Host : Type := {
  parseFloat : string -> number;
  Date_new : string -> Date;
  Number_toString : number -> string
}.

(** Template interpolation of a [number | string]. *)
Definition interpolate {host : Host} (v : NumberOrString) : string :=
  match v with
  | Num n => Number_toString n
  | Str s => s
  end.

End JS.

Import JS.

(** The exact value of a finite binary64 number, counted in units of
    2^-1074, the smallest positive binary64 number: every finite number
    is a whole number of these. NaN and the infinities have none. *)
Module Exact.

Definition SFunits (x : spec_float) : option Z :=
  match x with
  | S754_zero _ => Some 0
  | S754_finite s m e => Some (cond_Zopp s (Zpos m * 2 ^ (e + 1074)))
  | _ => None
  end.

Definition units (x : number) : option Z := SFunits (Prim2SF x).

End Exact.

(* ================================================================= *)
(** ** Data model *)

(** Modelled from the spec: the reward types of features/rewards/types,
    which are not among the sources.  A reward is [pending], [applied] or
    [expired]; the fields are the ones the helpers read. *)
Module RewardStatus.
Inductive t : Type := PENDING | APPLIED | EXPIRED.

Definition eqb (a b : t) : bool :=
  match a, b with
  | PENDING, PENDING | APPLIED, APPLIED | EXPIRED, EXPIRED => true
  | _, _ => false
  end.
End RewardStatus.

Module Reward.
Record t : Type := mk {
  id : string;
  status : RewardStatus.t;
  expires_at : option string;
  discount_percentage : NumberOrString
}.
End Reward.

Module RewardEligibilityResponse.
Record t : Type := mk {
  eligible : bool;
  attendance_count : Z
}.
End RewardEligibilityResponse.

(** [RewardConfig] of api/rewardsApi, with the fields of
    DEFAULT_REWARD_CONFIG. *)
Module RewardConfig.
Record t : Type := mk {
  attendance_threshold : Z;
  discount_percentage : number;
  expiration_days : Z;
  eligible_plan_units : list string
}.
End RewardConfig.

Module SubscriptionStatus.
Inductive t : Type := ACTIVE | EXPIRED | PENDING_PAYMENT | CANCELED | SCHEDULED.
End SubscriptionStatus.

Module Subscription.
Record t : Type := mk {
  id : string;
  client_id : string;
  plan_id : string;
  start_date : string;
  end_date : string;
  status : SubscriptionStatus.t;
  final_price : option number
}.
End Subscription.

Module Attendance.
Record t : Type := mk { check_in : string }.
End Attendance.

(* ================================================================= *)
(** ** features/rewards/constants/rewardConstants.ts *)

Module REWARD_RULES.
Definition ATTENDANCE_THRESHOLD : Z := 20.
Definition DISCOUNT_PERCENTAGE : number := 20%float.
Definition EXPIRATION_DAYS : Z := 7.
End REWARD_RULES.

Definition ELIGIBLE_PLAN_UNITS : list string := ["month"].

(** features/rewards/hooks/useRewardConfig.ts *)
Definition DEFAULT_REWARD_CONFIG : RewardConfig.t :=
  {| RewardConfig.attendance_threshold := REWARD_RULES.ATTENDANCE_THRESHOLD;
     RewardConfig.discount_percentage := REWARD_RULES.DISCOUNT_PERCENTAGE;
     RewardConfig.expiration_days := REWARD_RULES.EXPIRATION_DAYS;
     RewardConfig.eligible_plan_units := ELIGIBLE_PLAN_UNITS |}.

(** [getRewardConfigData]: the fetched configuration, or the defaults. *)
Definition getRewardConfigData (data : option RewardConfig.t) : RewardConfig.t :=
  match data with
  | Some config => config
  | None => DEFAULT_REWARD_CONFIG
  end.

(* ================================================================= *)
(** ** features/rewards/utils/rewardHelpers.ts *)

Module RewardHelpers.
Section WithHost.
Context {host : Host}.

(** The [SubscriptionInfo] interface of the helpers. *)
Record Plan : Type := { duration_unit : option string }.

Record SubscriptionInfo : Type := {
  start_date : string;
  end_date : string;
  plan : option Plan
}.

(** [isRewardExpired]; [now] is the time value of [new Date()]. *)
Definition isRewardExpired (now : Z) (reward : Reward.t) : bool :=
  match truthy (Reward.expires_at reward) with
  | None => false
  | Some expires_at => Date_lt (Date_new expires_at) (Some now)
  end.

Definition isRewardAvailable (now : Z) (reward : Reward.t) : bool :=
  RewardStatus.eqb (Reward.status reward) RewardStatus.PENDING
  && negb (isRewardExpired now reward).

Definition toNumber (value : NumberOrString) : number :=
  match value with
  | Num n => if isNaN n then 0%float else n
  | Str s => let parsed := parseFloat s in
             if isNaN parsed then 0%float else parsed
  end.

(** A discount that [toNumber] does not read as a number: NaN, or text
    that [parseFloat] maps to NaN. *)
Definition notANumber (d : NumberOrString) : bool :=
  match d with
  | Num n => isNaN n
  | Str s => isNaN (parseFloat s)
  end.

Definition calculateDiscountedPrice
  (originalPrice : number) (discountPercentage : NumberOrString) : number :=
  let discount := toNumber discountPercentage in
  (originalPrice * (1 - discount / 100))%float.

Definition calculateDiscountAmount
  (originalPrice : number) (discountPercentage : NumberOrString) : number :=
  let discount := toNumber discountPercentage in
  (originalPrice - calculateDiscountedPrice originalPrice (Num discount))%float.

Definition filterAvailableRewards (now : Z) (rewards : list Reward.t)
  : list Reward.t :=
  filter (isRewardAvailable now) rewards.

(** [config?.eligible_plan_units ?? ELIGIBLE_PLAN_UNITS]. *)
Definition isPlanEligibleForRewards
  (planDurationUnit : string) (config : option RewardConfig.t) : bool :=
  let eligibleUnits :=
    match config with
    | Some c => RewardConfig.eligible_plan_units c
    | None => ELIGIBLE_PLAN_UNITS
    end in
  includes eligibleUnits planDurationUnit.

Definition canCalculateRewardForRenewal
  (subscription : option SubscriptionInfo) (attendanceCount : Z)
  (config : option RewardConfig.t) : bool :=
  match subscription with
  | None => false
  | Some subscription =>
    let threshold :=
      match config with
      | Some c => RewardConfig.attendance_threshold c
      | None => REWARD_RULES.ATTENDANCE_THRESHOLD
      end in
    let isEligiblePlan :=
      match plan subscription with
      | Some p =>
        match truthy (duration_unit p) with
        | Some unit => isPlanEligibleForRewards unit config
        | None => false
        end
      | None => false
      end in
    isEligiblePlan && (attendanceCount >=? threshold)
  end.

(** The predicate of the [filter] in [calculateCycleAttendances]. *)
Definition inCycle (start end_ : Date) (att : Attendance.t) : bool :=
  let checkIn := Date_new (Attendance.check_in att) in
  Date_ge checkIn start && Date_le checkIn end_.

Definition calculateCycleAttendances
  (attendances : option (list Attendance.t)) (startDate endDate : string) : Z :=
  match attendances with
  | None => 0
  | Some atts =>
    if Nat.eqb (List.length atts) 0 then 0
    else
      let start := Date_new startDate in
      let end_ := Date_new endDate in
      Z.of_nat (List.length (filter (inCycle start end_) atts))
  end.

End WithHost.
End RewardHelpers.

Import RewardHelpers.

(* ================================================================= *)
(** ** The RewardProgress component (read-only progress card) *)

Module RewardProgress.
Section WithHost.
Context {host : Host}.

Record ActiveSubscription : Type := {
  id : string;
  start_date : string;
  end_date : string;
  plan_id : string
}.

Record SubscriptionPlan : Type := { duration_unit : string }.

(** The object the [progress] memo returns. *)
Record Progress : Type := {
  cycleAttendances : Z;
  threshold : Z;
  progressPercentage : number;
  remaining : Z;
  isComplete : bool;
  discountPercentage : number
}.

(** The [progress] memo; [None] is its [null], for which the component
    renders nothing. *)
Definition progress
  (config : RewardConfig.t)
  (activeSubscription : option ActiveSubscription)
  (subscriptionPlan : option SubscriptionPlan)
  (attendances : option (list Attendance.t)) : option Progress :=
  match activeSubscription, subscriptionPlan, attendances with
  | Some activeSubscription, Some subscriptionPlan, Some atts =>
    if Nat.eqb (List.length atts) 0 then None
    else
      let isEligible :=
        isPlanEligibleForRewards (duration_unit subscriptionPlan) (Some config) in
      if negb isEligible then None
      else
        let cycleAttendances :=
          calculateCycleAttendances attendances
            (start_date activeSubscription) (end_date activeSubscription) in
        let threshold := RewardConfig.attendance_threshold config in
        let progressPercentage :=
          Math_min
            (number_of_Z cycleAttendances / number_of_Z threshold * 100)%float
            100%float in
        let remaining := Z.max 0 (threshold - cycleAttendances) in
        let isComplete := cycleAttendances >=? threshold in
        Some {| cycleAttendances := cycleAttendances;
                threshold := threshold;
                progressPercentage := progressPercentage;
                remaining := remaining;
                isComplete := isComplete;
                discountPercentage := RewardConfig.discount_percentage config |}
  | _, _, _ => None
  end.

End WithHost.
End RewardProgress.

(* ================================================================= *)
(** ** features/subscriptions/components/RenewSubscriptionModal.tsx *)

Module RenewModal.

(** What the reward panel of the dialog shows: the [type] tag of the
    [rewardStatus] memo with the data that goes with it. *)
Inductive RewardStatusView : Type :=
| loading
| error_
| calculated (reward : Reward.t) (message : string)
| applied (message : string)
| not_eligible (attendanceCount : Z)
| not_calculated.

(** The states of the reward lifecycle the specification names. *)
Inductive RewardState : Type :=
| Calculated
| Applied
| NotEligible
| NotCalculated.

(** The lifecycle state a view stands for; a view that is still loading
    or failed stands for none. *)
Definition stateOfView (v : RewardStatusView) : option RewardState :=
  match v with
  | loading => None
  | error_ => None
  | calculated _ _ => Some Calculated
  | applied _ => Some Applied
  | not_eligible _ => Some NotEligible
  | not_calculated => Some NotCalculated
  end.

(** Result of the renewal-eligibility check. *)
Record RenewalCheck : Type := {
  canRenew : bool;
  daysRemaining : Z;
  message : option string
}.

(** utils/subscriptionFilters is not among the sources: the
    days-remaining policy is a parameter. *)
Class SubscriptionFilters : Type := {
  canRenewByDaysRemaining : Subscription.t -> RenewalCheck
}.

(** State of the dialog ([useState] cells). *)
Record State : Type := {
  isSubmitting : bool;
  error : option string;
  selectedReward : option Reward.t;
  hasCalculatedReward : bool
}.

(** A value caught by [catch]: an [Error] with its message, or anything
    else. *)
Inductive Thrown : Type :=
| ErrorInstance (message : string)
| OtherValue.

(** Settlement of an awaited promise. *)
Inductive Settled (A : Type) : Type :=
| Resolved (value : A)
| Rejected (reason : Thrown).
Arguments Resolved {A} value.
Arguments Rejected {A} reason.

(** Synchronous effects of the handlers: state setters, the [onClose]
    prop and the logger. *)
Inductive Effect : Type :=
| setError (e : option string)
| setIsSubmitting (b : bool)
| setSelectedReward (r : option Reward.t)
| onClose
| logger_error (label detail : string).

(** An asynchronous handler: a sequence of effects in which the two
    awaited calls suspend the handler until the promise settles; what
    follows an [await] is a function of the settlement. *)
Inductive Prog : Type :=
| Return
| Do (e : Effect) (k : Prog)
| AwaitOnConfirm (discountPercentage : option number)
                 (k : Settled (option string) -> Prog)
| AwaitApplyReward (rewardId subscription_id : string)
                   (discount_percentage : number)
                   (k : Settled unit -> Prog).

Section Component.
Context {host : Host} {filters : SubscriptionFilters}.

(** The [rewardStatus] memo of RewardCalculationStatus. *)
Definition rewardStatus
  (now : Z) (isLoading : bool) (error : bool)
  (rewards : option (list Reward.t))
  (lastCalculationResult : option RewardEligibilityResponse.t)
  : RewardStatusView :=
  if isLoading then loading
  else if error then error_
  else
    let availableRewards :=
      match rewards with
      | Some rs => filterAvailableRewards now rs
      | None => []
      end in
    let appliedRewards :=
      match rewards with
      | Some rs =>
        filter (fun r => RewardStatus.eqb (Reward.status r) RewardStatus.APPLIED) rs
      | None => []
      end in
    match availableRewards with
    | reward :: _ =>
      calculated reward
        ("¡Recompensa obtenida! "
           ++ interpolate (Reward.discount_percentage reward)
           ++ "% de descuento")
    | [] =>
      match appliedRewards with
      | _ :: _ => applied "La recompensa ya fue aplicada"
      | [] =>
        match lastCalculationResult with
        | Some result =>
          if negb (RewardEligibilityResponse.eligible result)
          then not_eligible (RewardEligibilityResponse.attendance_count result)
          else not_calculated
        | None => not_calculated
        end
      end
    end.

(** A reward is past its [expires_at] when that field holds a date and
    the date lies before the present instant. Written from the words of
    the specification, without the helpers of the code. *)
Definition pastExpiresAt (now : Z) (reward : Reward.t) : bool :=
  match Reward.expires_at reward with
  | Some text =>
    match Date_new text with
    | Some expiry => expiry <? now
    | None => false
    end
  | None => false
  end.

(** The derivation rule of the reward lifecycle as the specification
    words it, to be compared with [rewardStatus]: Calculated if some
    reward has status pending and is not past its [expires_at], else
    Applied if some reward has status applied, else NotEligible if the
    last local calculation returned [eligible = false], else
    NotCalculated. *)
Definition deriveRewardState
  (now : Z) (rewards : list Reward.t)
  (lastLocalResult : option RewardEligibilityResponse.t) : RewardState :=
  if existsb (fun r =>
       match Reward.status r with
       | RewardStatus.PENDING => negb (pastExpiresAt now r)
       | _ => false
       end) rewards
  then Calculated
  else if existsb (fun r =>
       match Reward.status r with
       | RewardStatus.APPLIED => true
       | _ => false
       end) rewards
  then Applied
  else
    match lastLocalResult with
    | Some result =>
      if RewardEligibilityResponse.eligible result then NotCalculated
      else NotEligible
    | None => NotCalculated
    end.

(** The [renewalCheck] memo. *)
Definition renewalCheck (subscription : option Subscription.t) : RenewalCheck :=
  match subscription with
  | None => {| canRenew := false; daysRemaining := 0; message := None |}
  | Some subscription =>
    match Subscription.status subscription with
    | SubscriptionStatus.EXPIRED =>
      {| canRenew := true; daysRemaining := 0; message := None |}
    | SubscriptionStatus.ACTIVE => canRenewByDaysRemaining subscription
    | _ => {| canRenew := false; daysRemaining := 0; message := None |}
    end
  end.

(** [handleClose], followed by [k]. *)
Definition handleClose (k : Prog) : Prog :=
  Do (setError None)
    (Do (setIsSubmitting false)
      (Do (setSelectedReward None)
        (Do onClose k))).

(** The discount resolved from the selected reward at the start of
    [handleConfirm]. *)
Definition resolveDiscount (selectedReward : option Reward.t) : option number :=
  match selectedReward with
  | Some reward =>
    let discount :=
      match Reward.discount_percentage reward with
      | Str s => parseFloat s
      | Num n => n
      end in
    if isNaN discount then None else Some discount
  | None => None
  end.

(** The warning [handleConfirm] sets when apply-reward fails after a
    renewal that succeeded. *)
Definition rewardNotMarkedWarning : string :=
  "La suscripción se renovó pero hubo un problema al marcar la recompensa como aplicada".

(** [handleConfirm], as the closure of a render with state [st]. The
    [finally] block is the tail [Do (setIsSubmitting false) Return] of
    every path through the [try]. *)
Definition handleConfirm (subscription : option Subscription.t) (st : State) : Prog :=
  match subscription with
  | None => Return
  | Some _ =>
    let finally := Do (setIsSubmitting false) Return in
    Do (setError None)
      (Do (setIsSubmitting true)
        (let discountPercentage := resolveDiscount (selectedReward st) in
         AwaitOnConfirm discountPercentage (fun renewal =>
           match renewal with
           | Rejected err =>
             Do (setError (Some
                   match err with
                   | ErrorInstance m => m
                   | OtherValue => "Error al renovar la suscripción"
                   end))
                finally
           | Resolved newSubscriptionId =>
             match selectedReward st, truthy newSubscriptionId, discountPercentage with
             | Some reward, Some newId, Some discount =>
               AwaitApplyReward (Reward.id reward) newId discount (fun applied_ =>
                 match applied_ with
                 | Resolved _ => handleClose finally
                 | Rejected rewardError =>
                   let errorMessage :=
                     match rewardError with
                     | ErrorInstance m => m
                     | OtherValue => "Error desconocido"
                     end in
                   Do (logger_error "Error applying reward:" errorMessage)
                     (Do (setError (Some rewardNotMarkedWarning))
                       (handleClose finally))
                 end)
             | _, _, _ => handleClose finally
             end
           end)))
  end.

(** The [disabled] attribute of the confirm button. *)
Definition confirmDisabled (st : State) (isLoading : bool) (check : RenewalCheck) : bool :=
  isSubmitting st || isLoading || negb (canRenew check).

(** Modelled from the spec: the Button of components/ui is not among the
    sources; a disabled control does not run its click handler. *)
Definition Button_onClick (disabled : bool) (handler : Prog) : Prog :=
  if disabled then Return else handler.

(** A click on the confirm button in a render with state [st]. *)
Definition clickConfirm
  (subscription : option Subscription.t) (st : State) (isLoading : bool) : Prog :=
  Button_onClick (confirmDisabled st isLoading (renewalCheck subscription))
                 (handleConfirm subscription st).

End Component.

(** *** Running a handler *)

(** The collaborators of the dialog: how the [onConfirm] prop and the
    apply-reward mutation settle. *)
Record World : Type := {
  onConfirm : option number -> Settled (option string);
  applyReward : string -> string -> number -> Settled unit
}.

(** What an observer of a run sees, in order. *)
Inductive Event : Type :=
| EvEffect (e : Effect)
| EvRenew (discountPercentage : option number)
| EvApply (rewardId subscription_id : string) (discount_percentage : number).

Fixpoint run (w : World) (p : Prog) : list Event :=
  match p with
  | Return => []
  | Do e k => EvEffect e :: run w k
  | AwaitOnConfirm d k => EvRenew d :: run w (k (onConfirm w d))
  | AwaitApplyReward r s d k => EvApply r s d :: run w (k (applyReward w r s d))
  end.

(** State updates are applied in the order the setters were called. *)
Definition applyEffect (st : State) (e : Effect) : State :=
  match e with
  | setError v =>
    {| isSubmitting := isSubmitting st; error := v;
       selectedReward := selectedReward st;
       hasCalculatedReward := hasCalculatedReward st |}
  | setIsSubmitting b =>
    {| isSubmitting := b; error := error st;
       selectedReward := selectedReward st;
       hasCalculatedReward := hasCalculatedReward st |}
  | setSelectedReward r =>
    {| isSubmitting := isSubmitting st; error := error st;
       selectedReward := r;
       hasCalculatedReward := hasCalculatedReward st |}
  | onClose => st
  | logger_error _ _ => st
  end.

Definition applyEvent (st : State) (ev : Event) : State :=
  match ev with
  | EvEffect e => applyEffect st e
  | _ => st
  end.

(** State of the dialog once the handler has run to its end. *)
Definition finalState (st : State) (trace : list Event) : State :=
  fold_left applyEvent trace st.

(** The error card of the dialog: [{error && <Card>...}]. *)
Definition errorShown (st : State) : option string := truthy (error st).

Definition isRenew (ev : Event) : bool :=
  match ev with EvRenew _ => true | _ => false end.

Definition isApply (ev : Event) : bool :=
  match ev with EvApply _ _ _ => true | _ => false end.

Definition isClose (ev : Event) : bool :=
  match ev with EvEffect onClose => true | _ => false end.

(** Number of renewal calls issued in a run. *)
Definition renewCalls (trace : list Event) : nat :=
  List.length (filter isRenew trace).

Definition applyCalls (trace : list Event) : nat :=
  List.length (filter isApply trace).

(** A handler that starts apply-reward without having awaited the
    renewal first. *)
Fixpoint appliesBeforeRenewal (p : Prog) : Prop :=
  match p with
  | Return => False
  | Do _ k => appliesBeforeRenewal k
  | AwaitOnConfirm _ _ => False
  | AwaitApplyReward _ _ _ _ => True
  end.

End RenewModal.

(* ================================================================= *)
(** ** The renewal dialog between events *)

(** The handlers of the dialog run on the event loop: a handler runs
    until it returns or reaches an [await], and is resumed when the
    awaited call settles; other events of the dialog are handled in
    between. *)
Module RenewSession.
Import RenewModal.

(** A handler suspended at an [await], with what follows the await. *)
Inductive Suspended : Type :=
| AwaitingRenewal (k : Settled (option string) -> Prog)
| AwaitingApplyReward (k : Settled unit -> Prog).

(** The dialog between two events: its state cells, the handlers
    suspended at an await (the oldest first) and what has been observed
    so far. *)
Record Session : Type := {
  state : State;
  suspended : list Suspended;
  observed : list Event
}.

(** Runs a handler until it returns or reaches an await: the state
    after the setters it called, what it did, and where it is suspended. *)
Fixpoint advance (st : State) (p : Prog) : State * list Event * option Suspended :=
  match p with
  | Return => (st, [], None)
  | Do e k =>
    let '(st', events, s) := advance (applyEffect st e) k in
    (st', EvEffect e :: events, s)
  | AwaitOnConfirm d k => (st, [EvRenew d], Some (AwaitingRenewal k))
  | AwaitApplyReward r sub d k =>
    (st, [EvApply r sub d], Some (AwaitingApplyReward k))
  end.

(** What can happen to the dialog. *)
Inductive Action : Type :=
| ClickConfirm (isLoading : bool)
| ClickCancel (isLoading : bool)
| ModalClose
| Reopen (hasExistingReward : bool)
| RenewalSettled (n : nat) (outcome : Settled (option string))
| ApplyRewardSettled (n : nat) (outcome : Settled unit).

(** The session after a handler has been started or resumed. *)
Definition after (s : Session) (others : list Suspended) (p : Prog) : Session :=
  let '(st', events, next) := advance (state s) p in
  {| state := st';
     suspended :=
       (others ++ match next with Some x => [x] | None => [] end)%list;
     observed := (observed s ++ events)%list |}.

(** The list without its [n]-th element. *)
Fixpoint removeNth {A : Type} (n : nat) (l : list A) : list A :=
  match n, l with
  | _, [] => []
  | O, _ :: rest => rest
  | S n', x :: rest => x :: removeNth n' rest
  end.

Section Dialog.
Context {host : Host} {filters : SubscriptionFilters}.
Variable subscription : option Subscription.t.

(** One event of the dialog.
    - A click on the confirm button runs [handleConfirm] unless the
      button is disabled.
    - A click on the cancel button, which is disabled by
      [isSubmitting || isLoading], runs [handleClose].
    - The Modal calls its [onClose], which is [handleClose].
    - The parent closes and opens the dialog again: the two effects on
      [isOpen] reset the error, the selected reward and
      [hasCalculatedReward]; the submitting flag is not theirs.
    - An awaited call settles and its handler is resumed. *)
Definition step (s : Session) (a : Action) : Session :=
  match a with
  | ClickConfirm isLoading =>
    after s (suspended s) (clickConfirm subscription (state s) isLoading)
  | ClickCancel isLoading =>
    after s (suspended s)
      (Button_onClick (isSubmitting (state s) || isLoading) (handleClose Return))
  | ModalClose => after s (suspended s) (handleClose Return)
  | Reopen hasExistingReward =>
    match subscription with
    | Some _ =>
      {| state := {| isSubmitting := isSubmitting (state s);
                     error := None;
                     selectedReward := None;
                     hasCalculatedReward := hasExistingReward |};
         suspended := suspended s;
         observed := observed s |}
    | None =>
      {| state := {| isSubmitting := isSubmitting (state s);
                     error := None;
                     selectedReward := None;
                     hasCalculatedReward := false |};
         suspended := suspended s;
         observed := observed s |}
    end
  | RenewalSettled n outcome =>
    match nth_error (suspended s) n with
    | Some (AwaitingRenewal k) =>
      after s (removeNth n (suspended s)) (k outcome)
    | _ => s
    end
  | ApplyRewardSettled n outcome =>
    match nth_error (suspended s) n with
    | Some (AwaitingApplyReward k) =>
      after s (removeNth n (suspended s)) (k outcome)
    | _ => s
    end
  end.

Definition steps (s : Session) (actions : list Action) : Session :=
  fold_left step actions s.

End Dialog.

(** A dialog at rest in state [st]. *)
Definition atRest (st : State) : Session :=
  {| state := st; suspended := []; observed := [] |}.

(** The renewals that have been sent and have not settled. *)
Definition renewalsInFlight (s : Session) : nat :=
  List.length
    (filter (fun x => match x with AwaitingRenewal _ => true | _ => false end)
       (suspended s)).

Definition isModalClose (a : Action) : bool :=
  match a with ModalClose => true | _ => false end.

(** The submitting flag after an effect. *)
Definition flagAfter (flag : bool) (e : Effect) : bool :=
  match e with
  | setIsSubmitting b => b
  | _ => flag
  end.

(** A handler that, started with the flag at [flag], has the flag set
    at each of its awaits and lowered when it returns. *)
Inductive HoldsFlag : bool -> Prog -> Prop :=
| holds_return : HoldsFlag false Return
| holds_do (flag : bool) (e : Effect) (k : Prog) :
    HoldsFlag (flagAfter flag e) k -> HoldsFlag flag (Do e k)
| holds_renewal (d : option number) (k : Settled (option string) -> Prog) :
    (forall outcome, HoldsFlag true (k outcome)) ->
    HoldsFlag true (AwaitOnConfirm d k)
| holds_apply (r sub : string) (d : number) (k : Settled unit -> Prog) :
    (forall outcome, HoldsFlag true (k outcome)) ->
    HoldsFlag true (AwaitApplyReward r sub d k).

(** What follows the await of a suspended handler holds the flag. *)
Definition resumesHolding (x : Suspended) : Prop :=
  match x with
  | AwaitingRenewal k => forall outcome, HoldsFlag true (k outcome)
  | AwaitingApplyReward k => forall outcome, HoldsFlag true (k outcome)
  end.

(** At most one handler is suspended, and the flag is set while one is. *)
Definition guarded (s : Session) : Prop :=
  suspended s = []
  \/ exists x, suspended s = [x]
               /\ isSubmitting (state s) = true
               /\ resumesHolding x.

End RenewSession.

(* ================================================================= *)
(** ** features/subscriptions: query keys and the cancel mutation *)

Module SubscriptionCache.

Definition QueryKey : Type := list string.

(** The query-key factory of api/types. *)
Module subscriptionKeys.
Definition all : QueryKey := ["subscriptions"].
Definition lists : QueryKey := (all ++ ["list"])%list.
Definition list (clientId : string) : QueryKey := (lists ++ [clientId])%list.
Definition details : QueryKey := (all ++ ["detail"])%list.
Definition detail (id : string) : QueryKey := (details ++ [id])%list.
Definition active (clientId : string) : QueryKey :=
  (list clientId ++ ["active"])%list.
Definition payments (subscriptionId : string) : QueryKey := ["payments"; subscriptionId].
Definition paymentStats (subscriptionId : string) : QueryKey :=
  ["paymentStats"; subscriptionId].
End subscriptionKeys.

(** The calls a handler makes on the query client. *)
Inductive QueryClientCall : Type :=
| setQueryData (queryKey : QueryKey) (data : Subscription.t)
| setQueryDataWith (queryKey : QueryKey)
    (updater : option (list Subscription.t) -> list Subscription.t)
| invalidateQueries (queryKey : QueryKey).

(** Variables of the cancel mutation. *)
Record CancelVariables : Type := {
  clientId : string;
  subscriptionId : string
}.

(** The optimistic updater of the list cache:
    [(old = []) => old.map(s => s.id === subscriptionId ? data : s)]. *)
Definition replaceById (subscriptionId : string) (data : Subscription.t)
  (old : option (list Subscription.t)) : list Subscription.t :=
  let old := match old with Some l => l | None => [] end in
  map (fun s => if String.eqb (Subscription.id s) subscriptionId then data else s) old.

(** [onSuccess] of [useCancelSubscription]. *)
Definition cancel_onSuccess (data : Subscription.t) (variables : CancelVariables)
  : list QueryClientCall :=
  [ setQueryData (subscriptionKeys.detail (subscriptionId variables)) data;
    invalidateQueries (subscriptionKeys.list (clientId variables));
    invalidateQueries (subscriptionKeys.active (clientId variables));
    setQueryDataWith (subscriptionKeys.list (clientId variables))
      (replaceById (subscriptionId variables) data);
    invalidateQueries ["paymentStats"; subscriptionId variables] ].

End SubscriptionCache.

(* ================================================================= *)
(** ** A concrete host *)

(** A host in which a date string is its time value written in decimal
    digits and [parseFloat] reads non-negative integers; every other
    string is an invalid date and parses to NaN. It instantiates the
    parameters wherever a statement is evaluated on concrete data. *)
Module DigitsHost.

Fixpoint digitsValue (acc : Z) (s : string) : option Z :=
  match s with
  | EmptyString => Some acc
  | String c rest =>
    let d := Z.of_nat (Ascii.nat_of_ascii c) - 48 in
    if (0 <=? d) && (d <=? 9) then digitsValue (10 * acc + d) rest else None
  end.

Definition readDigits (s : string) : option Z :=
  match s with
  | EmptyString => None
  | _ => digitsValue 0 s
  end.

Definition host : Host :=
  {| parseFloat := fun s =>
       match readDigits s with
       | Some z => number_of_Z z
       | None => PrimFloat.nan
       end;
     Date_new := readDigits;
     Number_toString := fun _ => "#" |}.

(** A days-remaining policy: an active subscription is renewable in its
    last seven days; [plan_id] stands in for the days that remain. *)
Definition filters : RenewModal.SubscriptionFilters :=
  {| RenewModal.canRenewByDaysRemaining := fun s =>
       let days := match readDigits (Subscription.plan_id s) with
                   | Some d => d
                   | None => 0
                   end in
       {| RenewModal.canRenew := days <=? 7;
          RenewModal.daysRemaining := days;
          RenewModal.message := None |} |}.

End DigitsHost.

(* ================================================================= *)
(** ** Concrete scenarios *)

Module Scenario.
Import RenewModal.

(** An active subscription in its last five days (see
    [DigitsHost.filters]). *)
Definition subscription : Subscription.t :=
  {| Subscription.id := "sub-1";
     Subscription.client_id := "client-1";
     Subscription.plan_id := "5";
     Subscription.start_date := "1000";
     Subscription.end_date := "2000";
     Subscription.status := SubscriptionStatus.ACTIVE;
     Subscription.final_price := None |}.

(** A pending reward of 20 percent, sent by the server as text. *)
Definition reward : Reward.t :=
  {| Reward.id := "reward-1";
     Reward.status := RewardStatus.PENDING;
     Reward.expires_at := Some "3000";
     Reward.discount_percentage := Str "20" |}.

Definition appliedReward : Reward.t :=
  {| Reward.id := "reward-0";
     Reward.status := RewardStatus.APPLIED;
     Reward.expires_at := None;
     Reward.discount_percentage := Num 20%float |}.

(** The dialog at rest with [reward] selected. *)
Definition rewardSelected : State :=
  {| isSubmitting := false;
     error := None;
     selectedReward := Some reward;
     hasCalculatedReward := true |}.

(** The dialog while the renewal it sent is in flight. *)
Definition inFlight : State :=
  {| isSubmitting := true;
     error := None;
     selectedReward := Some reward;
     hasCalculatedReward := true |}.

(** The renewal succeeds and returns the new id; marking the reward as
    applied fails. *)
Definition rewardMarkingFails : World :=
  {| onConfirm := fun _ => Resolved (Some "sub-2");
     applyReward := fun _ _ _ => Rejected (ErrorInstance "Request failed") |}.

(** Both calls succeed. *)
Definition allSucceeds : World :=
  {| onConfirm := fun _ => Resolved (Some "sub-2");
     applyReward := fun _ _ _ => Resolved tt |}.

(** A cycle from time 1000 to time 2000 and check-ins around it. *)
Definition atStart : Attendance.t := {| Attendance.check_in := "1000" |}.
Definition atEnd : Attendance.t := {| Attendance.check_in := "2000" |}.
Definition before : Attendance.t := {| Attendance.check_in := "999" |}.
Definition after : Attendance.t := {| Attendance.check_in := "2001" |}.

Definition monthlyInfo : SubscriptionInfo :=
  {| start_date := "1000";
     end_date := "2000";
     plan := Some {| duration_unit := Some "month" |} |}.

Definition activeSubscription : RewardProgress.ActiveSubscription :=
  {| RewardProgress.id := "sub-1";
     RewardProgress.start_date := "1000";
     RewardProgress.end_date := "2000";
     RewardProgress.plan_id := "plan-1" |}.

Definition monthlyPlan : RewardProgress.SubscriptionPlan :=
  {| RewardProgress.duration_unit := "month" |}.

End Scenario.

(* ================================================================= *)
(** * Further code of the repository *)

(* ================================================================= *)
(** ** hooks/useSubscriptions.ts: the other mutations *)

Module SubscriptionMutations.
Import SubscriptionCache.

(** How the query client matches a filter against the key of a cached
    query: the filter matches the keys it is a prefix of. The sources
    rely on it (Dashboard.tsx: "Using subscriptionKeys.all() invalidates
    all subscription queries"). *)
Fixpoint keyMatches (filter key : QueryKey) : bool :=
  match filter, key with
  | [], _ => true
  | f :: filter', k :: key' => String.eqb f k && keyMatches filter' key'
  | _ :: _, [] => false
  end.

(** [subscriptionKeys.allSubscriptions]; the filters object stands in
    the key as its serialisation. *)
Definition allSubscriptions (filters : string) : QueryKey :=
  (subscriptionKeys.all ++ ["all"; filters])%list.

(** The keys the factory makes for subscription queries. *)
Inductive SubscriptionKey : QueryKey -> Prop :=
| key_all : SubscriptionKey subscriptionKeys.all
| key_lists : SubscriptionKey subscriptionKeys.lists
| key_list (clientId : string) : SubscriptionKey (subscriptionKeys.list clientId)
| key_allSubscriptions (filters : string) :
    SubscriptionKey (allSubscriptions filters)
| key_details : SubscriptionKey subscriptionKeys.details
| key_detail (id : string) : SubscriptionKey (subscriptionKeys.detail id)
| key_active (clientId : string) :
    SubscriptionKey (subscriptionKeys.active clientId).

(** The keys the factory makes for payment queries. *)
Inductive PaymentKey : QueryKey -> Prop :=
| key_payments (subscriptionId : string) :
    PaymentKey (subscriptionKeys.payments subscriptionId)
| key_paymentStats (subscriptionId : string) :
    PaymentKey (subscriptionKeys.paymentStats subscriptionId).

(** The optimistic updater of [useCreateSubscription]:
    [(old = []) => old.some(s => s.id === data.id) ? old : [data, ...old]]. *)
Definition prependNew (data : Subscription.t)
  (old : option (list Subscription.t)) : list Subscription.t :=
  let old := match old with Some l => l | None => [] end in
  if existsb (fun s => String.eqb (Subscription.id s) (Subscription.id data)) old
  then old
  else data :: old.

(** [onSuccess] of [useCreateSubscription]. *)
Definition create_onSuccess (data : Subscription.t) (clientId : string)
  : list QueryClientCall :=
  [ invalidateQueries (subscriptionKeys.list clientId);
    invalidateQueries (subscriptionKeys.active clientId);
    setQueryData (subscriptionKeys.detail (Subscription.id data)) data;
    setQueryDataWith (subscriptionKeys.list clientId) (prependNew data) ].

(** [onSuccess] of [useRenewSubscription]; its variables have the shape
    of the cancel mutation's. *)
Definition renew_onSuccess (data : Subscription.t) (variables : CancelVariables)
  : list QueryClientCall :=
  [ setQueryData (subscriptionKeys.detail (subscriptionId variables)) data;
    invalidateQueries (subscriptionKeys.list (clientId variables));
    invalidateQueries (subscriptionKeys.active (clientId variables));
    setQueryDataWith (subscriptionKeys.list (clientId variables))
      (replaceById (subscriptionId variables) data) ].

(** Variables of the update and delete mutations: the client id is
    optional. *)
Module ById.
Record Variables : Type := {
  subscriptionId : string;
  clientId : option string
}.
End ById.

(** The invalidations shared by update and delete: the client's list
    and active subscription when the client id is given (and not empty),
    every list otherwise. *)
Definition invalidateForClient (clientId : option string) : list QueryKey :=
  match truthy clientId with
  | Some c => [subscriptionKeys.list c; subscriptionKeys.active c]
  | None => [subscriptionKeys.lists]
  end.

(** [onSuccess] of [useUpdateSubscription]. *)
Definition update_onSuccess (data : Subscription.t) (variables : ById.Variables)
  : list QueryClientCall :=
  setQueryData (subscriptionKeys.detail (ById.subscriptionId variables)) data
  :: map invalidateQueries (invalidateForClient (ById.clientId variables)).

(** The calls of a handler that also removes queries. *)
Inductive QueryClientOp : Type :=
| call (c : QueryClientCall)
| removeQueries (queryKey : QueryKey).

(** [onSuccess] of [useDeleteSubscription]. *)
Definition delete_onSuccess (variables : ById.Variables) : list QueryClientOp :=
  removeQueries (subscriptionKeys.detail (ById.subscriptionId variables))
  :: map (fun k => call (invalidateQueries k))
       (invalidateForClient (ById.clientId variables)).

(** [onSuccess] of [useExpireSubscriptions] and of
    [useActivateSubscriptions]. *)
Definition bulk_onSuccess : list QueryClientCall :=
  [ invalidateQueries subscriptionKeys.all ].

(** The filters a list of calls invalidates, in order. *)
Definition invalidated (calls : list QueryClientCall) : list QueryKey :=
  flat_map (fun c =>
    match c with
    | invalidateQueries k => [k]
    | _ => []
    end) calls.

(** The keys a list of calls writes data under. *)
Definition written (calls : list QueryClientCall) : list QueryKey :=
  flat_map (fun c =>
    match c with
    | setQueryData k _ => [k]
    | setQueryDataWith k _ => [k]
    | invalidateQueries _ => []
    end) calls.

(** A key is covered by a list of filters when one of them matches it. *)
Definition covered (filters : list QueryKey) (key : QueryKey) : bool :=
  existsb (fun f => keyMatches f key) filters.

(** pages/Dashboard.tsx, [getRefreshQueriesForTab] of the client detail
    page. The key factories of the attendance and client features are
    not among the sources: their keys are parameters. *)
Definition getRefreshQueriesForTab
  (attendanceClientKey clientDetailKey clientDashboardKey : QueryKey)
  (tab : string) : list QueryKey :=
  if String.eqb tab "subscriptions" then
    [ subscriptionKeys.all; ["payments"]; ["paymentStats"] ]
  else if String.eqb tab "attendance" then
    [ attendanceClientKey ]
  else
    [ clientDetailKey; clientDashboardKey ].

End SubscriptionMutations.

(* ================================================================= *)
(** ** The query cache the handlers act on *)

(** The part of the state of the query client (TanStack Query) that the
    handlers change: for each cached query its data and its
    [isInvalidated] mark. *)
Module QueryCache.
Import SubscriptionCache SubscriptionMutations.

(** What the queries hold: one subscription under a detail key, an array
    of subscriptions under a list key, something else under the keys of
    other queries. *)
Inductive QueryData : Type :=
| OneSubscription (s : Subscription.t)
| Subscriptions (l : list Subscription.t)
| OtherData (tag : string).

Record Query : Type := {
  data : option QueryData;
  isInvalidated : bool
}.

(** The cache: the query stored under each key, if there is one. *)
Definition Cache : Type := QueryKey -> option Query.

Fixpoint keyEqb (a b : QueryKey) : bool :=
  match a, b with
  | [], [] => true
  | x :: a', y :: b' => String.eqb x y && keyEqb a' b'
  | _, _ => false
  end.

(** [queryClient.getQueryData(key)]. *)
Definition getQueryData (c : Cache) (key : QueryKey) : option QueryData :=
  match c key with
  | Some q => data q
  | None => None
  end.

(** The data of a list query as the updaters of the handlers receive
    it: the array, or [undefined] when nothing is cached. *)
Definition asList (d : option QueryData) : option (list Subscription.t) :=
  match d with
  | Some (Subscriptions l) => Some l
  | _ => None
  end.


(** Writing data under a key: the query under exactly that key, created
    when there is none, holds the data and is no longer marked invalid
    (the client dispatches a success, which sets [isInvalidated] to
    false). *)
Definition write (key : QueryKey) (value : QueryData) (c : Cache) : Cache :=
  fun k =>
    if keyEqb key k
    then Some {| data := Some value; isInvalidated := false |}
    else c k.

(** Invalidating with a filter: every cached query whose key the filter
    matches is marked invalid; its data stays. *)
Definition invalidate (filter : QueryKey) (c : Cache) : Cache :=
  fun k =>
    match c k with
    | Some q =>
      if keyMatches filter k
      then Some {| data := data q; isInvalidated := true |}
      else Some q
    | None => None
    end.

(** The effect of one call of a handler on the cache. An updater
    receives the data cached under the key it writes. *)
Definition applyCall (c : Cache) (call : QueryClientCall) : Cache :=
  match call with
  | setQueryData key value => write key (OneSubscription value) c
  | setQueryDataWith key updater =>
    write key (Subscriptions (updater (asList (getQueryData c key)))) c
  | invalidateQueries filter => invalidate filter c
  end.

(** The calls of a handler, made in order. *)
Definition applyCalls (calls : list QueryClientCall) (c : Cache) : Cache :=
  fold_left applyCall calls c.


(** A cache that holds the list of one client and nothing else. *)
Definition onlyList (clientId : string) (l : list Subscription.t) : Cache :=
  fun k =>
    if keyEqb (subscriptionKeys.list clientId) k
    then Some {| data := Some (Subscriptions l); isInvalidated := false |}
    else None.

End QueryCache.

(* ================================================================= *)
(** ** RenewSubscriptionModal.tsx and CalculateRewardButton: the rest *)

Module RewardCalculation.
Import RenewModal.

Inductive ToastType : Type := success | error | info.

(** Settlement of a request whose rejection is an API error. *)
Inductive Settled (A E : Type) : Type :=
| Fulfilled (value : A)
| Failed (reason : E).
Arguments Fulfilled {A E} value.
Arguments Failed {A E} reason.

Record Toast : Type := {
  title : string;
  message : string;
  type : ToastType
}.

(** What the reward panel and its button do, as seen from outside. *)
Inductive Effect : Type :=
| mutateAsync (subscriptionId : string)
| showToast (toast : Toast)
| setLastCalculationResult (result : RewardEligibilityResponse.t)
| refetch
| onCalculationSuccess.

(** A rejection as the [catch] of [handleCalculate] reads it:
    [error?.response?.data?.detail] and [error?.message]. *)
Record ApiError : Type := {
  detail : option string;
  errorMessage : option string
}.

Section WithHost.
Context {host : Host}.

(** The [hasExistingReward] memo of the dialog. *)
Definition hasExistingReward (now : Z)
  (rewardsBySubscription : option (list Reward.t)) : bool :=
  match rewardsBySubscription with
  | None => false
  | Some rewards =>
    let available := filterAvailableRewards now rewards in
    (0 <? List.length available)%nat
    || existsb (fun r => RewardStatus.eqb (Reward.status r) RewardStatus.APPLIED)
         rewards
  end.

(** [a || b || c] on optional strings, [c] being a constant. *)
Definition firstTruthy (a b : option string) (c : string) : string :=
  match truthy a with
  | Some v => v
  | None =>
    match truthy b with
    | Some v => v
    | None => c
    end
  end.

(** An integer in a template literal. *)
Definition showZ (z : Z) : string := Number_toString (number_of_Z z).

Definition asistencias (n : Z) : string :=
  if n =? 1 then "asistencia" else "asistencias".

(** The message of the toast for a result that is not eligible. *)
Definition notEligibleMessage (config : RewardConfig.t) (attendance_count : Z)
  : string :=
  let remaining := RewardConfig.attendance_threshold config - attendance_count in
  let head :=
    "El cliente tiene " ++ showZ attendance_count ++ " "
    ++ asistencias attendance_count ++ " en este ciclo. Se requieren "
    ++ showZ (RewardConfig.attendance_threshold config)
    ++ " para obtener la recompensa." in
  if 0 <? remaining
  then head ++ " Faltan " ++ showZ remaining ++ " " ++ asistencias remaining ++ "."
  else head.

(** [handleCalculate] of CalculateRewardButton, as the effects it has
    given how the eligibility request settles; an optional callback prop
    is the effects it has, when it is given. *)
Definition handleCalculate
  (config : RewardConfig.t) (subscriptionId : string)
  (onSuccess : option (list Effect))
  (onCalculationResult : option (RewardEligibilityResponse.t -> list Effect))
  (settled : Settled RewardEligibilityResponse.t ApiError) : list Effect :=
  if String.eqb subscriptionId "" then []
  else
    mutateAsync subscriptionId ::
    match settled with
    | Fulfilled result =>
      (match onCalculationResult with
       | Some f => f result
       | None => []
       end
       ++
       if RewardEligibilityResponse.eligible result then
         showToast
           {| title := "¡Recompensa Obtenida!";
              message :=
                "Has ganado un "
                ++ Number_toString (RewardConfig.discount_percentage config)
                ++ "% de descuento. La recompensa está disponible para aplicar.";
              type := success |}
         :: match onSuccess with
            | Some effects => effects
            | None => []
            end
       else
         [ showToast
             {| title := "No Elegible para Recompensa";
                message :=
                  notEligibleMessage config
                    (RewardEligibilityResponse.attendance_count result);
                type := info |} ])%list
    | Failed err =>
      [ showToast
          {| title := "Error al Calcular";
             message :=
               firstTruthy (detail err) (errorMessage err)
                 "Error al calcular la recompensa";
             type := error |} ]
    end.

(** [handleCalculationResult] of RewardCalculationStatus;
    [notifyParent] tells whether the [onCalculationSuccess] prop is
    given. *)
Definition handleCalculationResult (notifyParent : bool)
  (result : RewardEligibilityResponse.t) : list Effect :=
  setLastCalculationResult result ::
  if RewardEligibilityResponse.eligible result
  then refetch :: (if notifyParent then [onCalculationSuccess] else [])
  else [].

(** A click on the calculate button as RewardCalculationStatus renders
    it: [onSuccess] refetches and notifies the parent, and
    [onCalculationResult] is [handleCalculationResult]. *)
Definition panelCalculate
  (config : RewardConfig.t) (subscriptionId : string) (notifyParent : bool)
  (settled : Settled RewardEligibilityResponse.t ApiError) : list Effect :=
  handleCalculate config subscriptionId
    (Some (refetch :: (if notifyParent then [onCalculationSuccess] else [])))
    (Some (handleCalculationResult notifyParent))
    settled.

End WithHost.

Definition isToast (e : Effect) : bool :=
  match e with showToast _ => true | _ => false end.

Definition isRefetch (e : Effect) : bool :=
  match e with refetch => true | _ => false end.

Definition isNotify (e : Effect) : bool :=
  match e with onCalculationSuccess => true | _ => false end.

Definition isRequest (e : Effect) : bool :=
  match e with mutateAsync _ => true | _ => false end.

Definition count (p : Effect -> bool) (trace : list Effect) : nat :=
  List.length (filter p trace).

(** The toasts of a run, in order. *)
Definition toasts (trace : list Effect) : list Toast :=
  flat_map (fun e => match e with showToast t => [t] | _ => [] end) trace.

(** The results stored by a run, in order. *)
Definition storedResults (trace : list Effect) : list RewardEligibilityResponse.t :=
  flat_map (fun e => match e with setLastCalculationResult r => [r] | _ => [] end)
    trace.

End RewardCalculation.

(* ================================================================= *)
(** ** rewardHelpers.ts: validation and prices *)

Module RewardValidation.

(** The discount bounds of [REWARD_RULES]: 0.01 (the double nearest to
    it, which the quotient is) and 100. *)
Definition MIN_DISCOUNT : number := (1 / 100)%float.
Definition MAX_DISCOUNT : number := 100%float.

(** [String.prototype.trim] is a parameter. *)
Class Text : Type := { trim : string -> string }.

(** The [data] argument of [validateRewardApplyInput]. *)
Record RewardApplyInput : Type := {
  subscription_id : option string;
  discount_percentage : option number
}.

Section WithHost.
Context {host : Host} {text : Text}.

Definition isValidDiscountPercentage (percentage : NumberOrString) : bool :=
  let num := toNumber percentage in
  PrimFloat.leb MIN_DISCOUNT num && PrimFloat.leb num MAX_DISCOUNT.

(** [validateRewardApplyInput]: [None] when it returns, the message of
    the error it throws otherwise. *)
Definition validateRewardApplyInput
  (rewardId : string) (data : option RewardApplyInput) : option string :=
  if String.eqb rewardId "" || String.eqb (trim rewardId) "" then
    Some "ID de recompensa es requerido"
  else
    match data with
    | None => Some "Datos de recompensa son requeridos"
    | Some data =>
      match truthy (subscription_id data) with
      | None => Some "ID de suscripción es requerido"
      | Some sid =>
        if String.eqb (trim sid) "" then Some "ID de suscripción es requerido"
        else
          match discount_percentage data with
          | None => Some "Porcentaje de descuento debe ser un número válido"
          | Some d =>
            if isNaN d then
              Some "Porcentaje de descuento debe ser un número válido"
            else if PrimFloat.ltb d 0 || PrimFloat.ltb 100 d then
              Some "Porcentaje de descuento debe estar entre 0 y 100"
            else None
          end
      end
    end.

(** [getSubscriptionPrice]: the final price of the subscription when it
    has one, the price of the plan otherwise. *)
Definition getSubscriptionPrice
  (subscription : option Subscription.t) (planPrice : option NumberOrString)
  : number :=
  match
    match subscription with
    | Some s => Subscription.final_price s
    | None => None
    end
  with
  | Some final_price => final_price
  | None =>
    match planPrice with
    | Some (Str s) =>
      let parsed := parseFloat s in
      if isNaN parsed then 0%float else parsed
    | Some (Num n) => n
    | None => 0%float
    end
  end.

End WithHost.
End RewardValidation.

(* ================================================================= *)
(** ** SubscriptionsTable.tsx: pagination and filters *)

Module SubscriptionsTable.

(** [SubscriptionFilters] of api/types. Limits, offsets and pages are
    integers, for which [Math.floor(a / b)] is the integer quotient. *)
Record Filters : Type := {
  status : option SubscriptionStatus.t;
  client_id : option string;
  limit : option Z;
  offset : option Z;
  sort_by : option string;
  sort_order : option string;
  end_date_from : option string;
  end_date_to : option string
}.

(** [n || d] on an optional number: [undefined] and 0 give [d]. *)
Definition orElse (n : option Z) (d : Z) : Z :=
  match n with
  | Some v => if v =? 0 then d else v
  | None => d
  end.

(** [const limit = filters.limit || 20]. *)
Definition pageLimit (filters : Filters) : Z := orElse (limit filters) 20.

(** The [currentPage] memo. *)
Definition currentPage (filters : Filters) : Z :=
  orElse (offset filters) 0 / pageLimit filters + 1.

Definition isLastPage (subscriptions : list Subscription.t) (filters : Filters)
  : bool :=
  Z.of_nat (List.length subscriptions) <? pageLimit filters.

Definition totalPages (subscriptions : list Subscription.t) (filters : Filters)
  : option Z :=
  if isLastPage subscriptions filters then Some (currentPage filters) else None.




End SubscriptionsTable.

(* ================================================================= *)
(** ** useMembershipReminder.ts and the reminder of pages/Dashboard.tsx *)

Module MembershipReminder.

Definition STORAGE_KEY : string := "membership_reminder_shown".

(** [sessionStorage]: the text stored under each key. *)
Definition Storage : Type := string -> option string.

Definition getItem (storage : Storage) (key : string) : option string :=
  storage key.

Definition setItem (storage : Storage) (key value : string) : Storage :=
  fun k => if String.eqb k key then Some value else storage k.

Definition removeItem (storage : Storage) (key : string) : Storage :=
  fun k => if String.eqb k key then None else storage k.

(** [sessionStorage.getItem(STORAGE_KEY) === 'true'], false where there
    is no [window]. *)
Definition storedFlag (window : bool) (storage : Storage) : bool :=
  if window then
    match getItem storage STORAGE_KEY with
    | Some v => String.eqb v "true"
    | None => false
    end
  else false.

(** The hook: the session storage it works on and its state cell. *)
Record Hook : Type := {
  storage : Storage;
  hasShownReminder : bool
}.

(** State of the hook when a component that uses it mounts (the
    initialiser of [useState], confirmed by the mount effect). *)
Definition mount (window : bool) (storage : Storage) : Hook :=
  {| storage := storage; hasShownReminder := storedFlag window storage |}.

Definition markAsShown (window : bool) (h : Hook) : Hook :=
  if window then
    {| storage := setItem (storage h) STORAGE_KEY "true";
       hasShownReminder := true |}
  else h.

Definition clearReminderState (window : bool) (h : Hook) : Hook :=
  if window then
    {| storage := removeItem (storage h) STORAGE_KEY;
       hasShownReminder := false |}
  else h.

(** The part of the dashboard page that decides on the reminder. *)
Record Dashboard : Type := {
  hook : Hook;
  hasAttemptedToShowReminder : bool;
  isReminderModalOpen : bool
}.

(** What the reminder effect reads of the dashboard query. *)
Record Load : Type := {
  isDashboardLoading : bool;
  isDashboardRefetching : bool;
  hasDashboardData : bool
}.

Definition shouldShowReminder (window : bool) (load : Load) (d : Dashboard)
  : bool :=
  negb (isDashboardLoading load)
  && negb (isDashboardRefetching load)
  && hasDashboardData load
  && negb (storedFlag window (storage (hook d)))
  && negb (hasShownReminder (hook d))
  && negb (hasAttemptedToShowReminder d).

(** The reminder effect of the dashboard page. *)
Definition reminderEffect (window : bool) (load : Load) (d : Dashboard)
  : Dashboard :=
  if shouldShowReminder window load d then
    {| hook := markAsShown window (hook d);
       hasAttemptedToShowReminder := true;
       isReminderModalOpen := true |}
  else d.

Definition handleCloseReminder (d : Dashboard) : Dashboard :=
  {| hook := hook d;
     hasAttemptedToShowReminder := hasAttemptedToShowReminder d;
     isReminderModalOpen := false |}.

(** The page mounted anew in the same session: the storage is kept, the
    state cells and the ref start over. *)
Definition remount (window : bool) (d : Dashboard) : Dashboard :=
  {| hook := mount window (storage (hook d));
     hasAttemptedToShowReminder := false;
     isReminderModalOpen := false |}.

(** What happens to the page during a session. *)
Inductive Step : Type :=
| Render (load : Load)
| CloseReminder
| Remount.

Definition step (window : bool) (d : Dashboard) (s : Step) : Dashboard :=
  match s with
  | Render load => reminderEffect window load d
  | CloseReminder => handleCloseReminder d
  | Remount => remount window d
  end.

(** Number of times the reminder is opened along a session. *)
Fixpoint timesShown (window : bool) (d : Dashboard) (steps : list Step) : nat :=
  match steps with
  | [] => 0
  | s :: rest =>
    (match s with
     | Render load => if shouldShowReminder window load d then 1 else 0
     | _ => 0
     end + timesShown window (step window d s) rest)%nat
  end.

End MembershipReminder.

(* ================================================================= *)
(** ** features/subscriptions/utils/paymentHelpers.ts *)

Module PaymentHelpers.

(** [Math.max(a, b)]: NaN if either argument is, and +0 above -0. *)
Definition Math_max (a b : number) : number :=
  if PrimFloat.is_nan a || PrimFloat.is_nan b then PrimFloat.nan
  else if PrimFloat.ltb a b then b
  else if PrimFloat.ltb b a then a
  else if PrimFloat.get_sign a then b else a.

(** [Number.isInteger]. *)
Definition Number_isInteger (x : number) : bool :=
  match Prim2SF x with
  | S754_zero _ => true
  | S754_finite _ m e => (0 <=? e) || (Zpos m mod 2 ^ (- e) =? 0)
  | _ => false
  end.

(** Two results a caller cannot tell apart with [===] and [isNaN]: equal
    numbers (the two zeros are equal), or NaN both. *)
Definition sameNumber (x y : number) : bool :=
  PrimFloat.eqb x y || (PrimFloat.is_nan x && PrimFloat.is_nan y).

(** Two running totals are alike when they are the same number or are
    both a zero. *)
Definition alike (x y : number) : Prop :=
  x = y \/ exists s s', Prim2SF x = S754_zero s /\ Prim2SF y = S754_zero s'.

(** The value of a member of [SubscriptionStatus]. *)
Definition statusText (s : SubscriptionStatus.t) : string :=
  match s with
  | SubscriptionStatus.ACTIVE => "active"
  | SubscriptionStatus.EXPIRED => "expired"
  | SubscriptionStatus.PENDING_PAYMENT => "pending_payment"
  | SubscriptionStatus.CANCELED => "canceled"
  | SubscriptionStatus.SCHEDULED => "scheduled"
  end.

(** [Payment] and [PaymentStats] of api/types, with the fields the
    helpers read. *)
Record Payment : Type := {
  amount : string;
  payment_date : string
}.

Record PaymentStats : Type := {
  total_payments : Z;
  total_amount_paid : string;
  remaining_debt : string
}.

Record PayCheck : Type := {
  canPay : bool;
  reason : option string
}.

Record AmountCheck : Type := {
  isValid : bool;
  error : option string
}.

(** [Intl.NumberFormat(...).format] is a parameter. *)
Class Currency : Type := { Intl_format : number -> string }.

Section WithHost.
Context {host : Host} {text : RewardValidation.Text} {currency : Currency}.

Definition formatCurrency (amount : NumberOrString) : string :=
  let numericAmount :=
    match amount with
    | Str s => parseFloat s
    | Num n => n
    end in
  if isNaN numericAmount then "Monto inválido" else Intl_format numericAmount.

Definition calculateTotalPayments (payments : list Payment) : number :=
  fold_left (fun total payment =>
    let a := parseFloat (amount payment) in
    (total + (if isNaN a then 0 else a))%float) payments 0%float.

Definition calculateRemainingDebt (subscriptionPrice totalPaid : number) : number :=
  Math_max 0%float (subscriptionPrice - totalPaid)%float.

Definition isSubscriptionFullyPaid (paymentStats : option PaymentStats) : bool :=
  match paymentStats with
  | None => false
  | Some stats =>
    let text :=
      if String.eqb (remaining_debt stats) "" then "0" else remaining_debt stats in
    PrimFloat.leb (parseFloat text) 0
  end.

Definition canMakePayment
  (subscription : Subscription.t) (paymentStats : option PaymentStats) : PayCheck :=
  match Subscription.status subscription with
  | SubscriptionStatus.CANCELED =>
    {| canPay := false;
       reason := Some "No se pueden registrar pagos en suscripciones canceladas" |}
  | st =>
    if isSubscriptionFullyPaid paymentStats then
      {| canPay := false;
         reason := Some "La suscripción ya está completamente pagada" |}
    else
      match st with
      | SubscriptionStatus.ACTIVE
      | SubscriptionStatus.PENDING_PAYMENT
      | SubscriptionStatus.EXPIRED => {| canPay := true; reason := None |}
      | _ =>
        {| canPay := false;
           reason := Some ("No se pueden registrar pagos en suscripciones con estado: "
                           ++ statusText st) |}
      end
  end.

(** [remainingDebt !== undefined ? remainingDebt : (maxAmount || Infinity)]. *)
Definition maxAllowed (maxAmount remainingDebt : option number) : number :=
  match remainingDebt with
  | Some debt => debt
  | None =>
    match maxAmount with
    | Some m => if PrimFloat.is_nan m || PrimFloat.is_zero m then infinity else m
    | None => infinity
    end
  end.

Definition validatePaymentAmount
  (amount : string) (maxAmount remainingDebt : option number) : AmountCheck :=
  if String.eqb amount "" || String.eqb (RewardValidation.trim amount) "" then
    {| isValid := false; error := Some "Debe ingresar un monto" |}
  else
    let numericAmount := parseFloat amount in
    if isNaN numericAmount then
      {| isValid := false; error := Some "El monto debe ser un número válido" |}
    else if negb (Number_isInteger numericAmount) then
      {| isValid := false;
         error := Some "El monto debe ser un número entero (sin decimales)" |}
    else if PrimFloat.leb numericAmount 0 then
      {| isValid := false; error := Some "El monto debe ser mayor a 0" |}
    else
      let cap := maxAllowed maxAmount remainingDebt in
      if PrimFloat.ltb cap numericAmount then
        {| isValid := false;
           error := Some ("El monto no puede exceder " ++ formatCurrency (Num cap)) |}
      else {| isValid := true; error := None |}.

End WithHost.
End PaymentHelpers.

(* ================================================================= *)
(** ** features/clients: activating and deactivating a client *)

Module ClientStatus.
Import RenewModal.

(** The fields of [Client] the status actions read. *)
Record Client : Type := {
  id : string;
  first_name : string;
  last_name : string
}.

(** What the handlers do, as seen from outside. *)
Inductive Effect : Type :=
| logger_info (message : string)
| logger_error (label : string)
| mutateAsync (id : string) (isActive : bool)
| showToast (toast : RewardCalculation.Toast)
| setIsActivateModalOpen (open : bool)
| setClientToActivate (client : option Client)
| setIsDeleteModalOpen (open : bool)
| setClientToDelete (client : option Client).

Section WithText.
Context {text : RewardValidation.Text}.

(** [`${client.first_name} ${client.last_name}`.trim()]. *)
Definition clientName (client : Client) : string :=
  RewardValidation.trim (first_name client ++ " " ++ last_name client).

(** utils/clientStatusActions.ts *)
Definition getActivationSuccessMessage (client : Client) : string :=
  clientName client ++ " ha sido activado correctamente".

Definition getDeactivationSuccessMessage (client : Client) : string :=
  clientName client ++ " ha sido inactivado correctamente".

Definition errorText (err : Thrown) (fallback : string) : string :=
  match err with
  | ErrorInstance m => m
  | OtherValue => fallback
  end.

(** [handleActivate] of useClientStatusToggle: its effects, and the
    error it rethrows, given how the mutation settles. *)
Definition handleActivate (client : Client) (settled : Settled unit)
  : list Effect * option Thrown :=
  let start :=
    [ logger_info ("Attempting to activate client: " ++ id client);
      mutateAsync (id client) true ] in
  match settled with
  | Resolved _ =>
    ((start ++
      [ showToast
          {| RewardCalculation.title := "Éxito";
             RewardCalculation.message := getActivationSuccessMessage client;
             RewardCalculation.type := RewardCalculation.success |};
        logger_info ("Client activated successfully: " ++ id client) ])%list,
     None)
  | Rejected err =>
    ((start ++
      [ logger_error "Error activating client:";
        showToast
          {| RewardCalculation.title := "Error";
             RewardCalculation.message := errorText err "Error al activar cliente";
             RewardCalculation.type := RewardCalculation.error |} ])%list,
     Some err)
  end.

(** [handleDeactivate] of useClientStatusToggle. *)
Definition handleDeactivate (client : Client) (settled : Settled unit)
  : list Effect * option Thrown :=
  let start :=
    [ logger_info ("Attempting to deactivate client: " ++ id client);
      mutateAsync (id client) false ] in
  match settled with
  | Resolved _ =>
    ((start ++
      [ showToast
          {| RewardCalculation.title := "Éxito";
             RewardCalculation.message := getDeactivationSuccessMessage client;
             RewardCalculation.type := RewardCalculation.success |};
        logger_info ("Client deactivated successfully: " ++ id client) ])%list,
     None)
  | Rejected err =>
    ((start ++
      [ logger_error "Error deactivating client:";
        showToast
          {| RewardCalculation.title := "Error";
             RewardCalculation.message := errorText err "Error al inactivar cliente";
             RewardCalculation.type := RewardCalculation.error |} ])%list,
     Some err)
  end.

(** [handleActivateConfirm] of the client list (ClientCard.tsx). *)
Definition handleActivateConfirm
  (clientToActivate : option Client) (settled : Settled unit) : list Effect :=
  match clientToActivate with
  | None => []
  | Some client =>
    let '(effects, thrown) := handleActivate client settled in
    (effects ++
     match thrown with
     | None => [ setIsActivateModalOpen false; setClientToActivate None ]
     | Some _ => [ logger_error "Error in activate confirmation:" ]
     end)%list
  end.

(** [handleDeleteConfirm] of the client list. *)
Definition handleDeleteConfirm
  (clientToDelete : option Client) (settled : Settled unit) : list Effect :=
  match clientToDelete with
  | None => []
  | Some client =>
    let '(effects, thrown) := handleDeactivate client settled in
    (effects ++
     match thrown with
     | None => [ setIsDeleteModalOpen false; setClientToDelete None ]
     | Some _ => [ logger_error "Error in delete confirmation:" ]
     end)%list
  end.

(** [handleActivateModalClose] and [handleDeleteModalClose]. *)
Definition handleActivateModalClose (isToggling : bool) : list Effect :=
  if isToggling then []
  else [ setIsActivateModalOpen false; setClientToActivate None ].

Definition handleDeleteModalClose (isToggling : bool) : list Effect :=
  if isToggling then []
  else [ setIsDeleteModalOpen false; setClientToDelete None ].

End WithText.

(** The mutation calls of a run, in order. *)
Definition mutations (trace : list Effect) : list (string * bool) :=
  flat_map (fun e => match e with mutateAsync i a => [(i, a)] | _ => [] end) trace.

Definition toastTypes (trace : list Effect) : list RewardCalculation.ToastType :=
  flat_map (fun e =>
    match e with showToast t => [RewardCalculation.type t] | _ => [] end) trace.

(** Whether a run closes a dialog. *)
Definition closesDialog (trace : list Effect) : bool :=
  existsb (fun e =>
    match e with
    | setIsActivateModalOpen false => true
    | setIsDeleteModalOpen false => true
    | _ => false
    end) trace.

End ClientStatus.

(* ================================================================= *)
(** ** Concrete data for the further code *)

Module MoreScenario.

(** A [trim] that removes blanks, tabs and line breaks at both ends. *)
Definition isBlank (c : Ascii.ascii) : bool :=
  let n := Ascii.nat_of_ascii c in
  Nat.eqb n 32 || Nat.eqb n 9 || Nat.eqb n 10 || Nat.eqb n 13.

Fixpoint trimStart (s : string) : string :=
  match s with
  | String c rest => if isBlank c then trimStart rest else s
  | EmptyString => EmptyString
  end.

Fixpoint trimEnd (s : string) : string :=
  match s with
  | String c rest =>
    match trimEnd rest with
    | EmptyString => if isBlank c then EmptyString else String c EmptyString
    | kept => String c kept
    end
  | EmptyString => EmptyString
  end.

Definition text : RewardValidation.Text :=
  {| RewardValidation.trim := fun s => trimEnd (trimStart s) |}.

Definition currency : PaymentHelpers.Currency :=
  {| PaymentHelpers.Intl_format := fun _ => "$" |}.

(** An expired reward and a pending one, at time 1500. *)
Definition expiredReward : Reward.t :=
  {| Reward.id := "reward-2";
     Reward.status := RewardStatus.PENDING;
     Reward.expires_at := Some "1200";
     Reward.discount_percentage := Num 20%float |}.

Definition renewalFails : RenewModal.World :=
  {| RenewModal.onConfirm := fun _ =>
       RenewModal.Rejected (RenewModal.ErrorInstance "No se pudo renovar");
     RenewModal.applyReward := fun _ _ _ => RenewModal.Resolved tt |}.

(** The record the server returns for the cancelled subscription, and
    the variables of the mutation. *)
Definition cancelledSubscription : Subscription.t :=
  {| Subscription.id := "sub-1";
     Subscription.client_id := "client-1";
     Subscription.plan_id := "5";
     Subscription.start_date := "1000";
     Subscription.end_date := "2000";
     Subscription.status := SubscriptionStatus.CANCELED;
     Subscription.final_price := None |}.

Definition cancelVariables : SubscriptionCache.CancelVariables :=
  {| SubscriptionCache.clientId := "client-1";
     SubscriptionCache.subscriptionId := "sub-1" |}.

Definition emptyStorage : MembershipReminder.Storage := fun _ => None.

Definition freshDashboard : MembershipReminder.Dashboard :=
  {| MembershipReminder.hook := MembershipReminder.mount true emptyStorage;
     MembershipReminder.hasAttemptedToShowReminder := false;
     MembershipReminder.isReminderModalOpen := false |}.

Definition loaded : MembershipReminder.Load :=
  {| MembershipReminder.isDashboardLoading := false;
     MembershipReminder.isDashboardRefetching := false;
     MembershipReminder.hasDashboardData := true |}.

End MoreScenario.

(* ================================================================= *)
(** * Properties *)

(* ----------------------------------------------------------------- *)
(** ** Reward eligibility evaluator *)

Section Evaluator.
Context {host : Host}.

Lemma includes_In (xs : list string) (x : string) :
  includes xs x = true <-> In x xs.
Proof.
  unfold includes. rewrite existsb_exists. split.
  - intros [y [Hin Heq]]. apply String.eqb_eq in Heq. now subst.
  - intros Hin. exists x. split; [assumption | apply String.eqb_refl].
Qed.

Lemma includes_not_In (xs : list string) (x : string) :
  ~ In x xs -> includes xs x = false.
Proof.
  intros Hnot. destruct (includes xs x) eqn:E; [|reflexivity].
  apply includes_In in E. contradiction.
Qed.

(** The [length === 0] shortcut of [calculateCycleAttendances] agrees
    with the filter it guards. *)
Lemma calculateCycleAttendances_filter
  (atts : list Attendance.t) (startDate endDate : string) :
  calculateCycleAttendances (Some atts) startDate endDate
  = Z.of_nat (List.length
      (filter (inCycle (Date_new startDate) (Date_new endDate)) atts)).
Proof.
  unfold calculateCycleAttendances. destruct atts; reflexivity.
Qed.

(** An attendance passes the filter exactly when the three dates are
    valid and its check-in lies in the closed interval. *)
Lemma inCycle_closed_interval (start end_ : Date) (att : Attendance.t) :
  inCycle start end_ att = true <->
  exists t s e,
    Date_new (Attendance.check_in att) = Some t /\ start = Some s /\ end_ = Some e
    /\ s <= t <= e.
Proof.
  unfold inCycle, Date_ge, Date_le.
  destruct (Date_new (Attendance.check_in att)) as [t|];
    destruct start as [s|]; destruct end_ as [e|]; simpl;
    try (split; [discriminate | intros (t' & s' & e' & Ht & Hs & He & _); discriminate]).
  rewrite andb_true_iff, !Z.leb_le. split.
  - intros [H1 H2]. exists t, s, e. repeat split; assumption.
  - intros (t' & s' & e' & Ht & Hs & He & H1 & H2).
    injection Ht as <-. injection Hs as <-. injection He as <-. split; assumption.
  - split; [rewrite andb_false_r; discriminate|].
    intros (t' & s' & e' & _ & _ & He & _). discriminate.
Qed.

End Evaluator.

Section EvaluatorClaims.
Context {host : Host}.

(** C5. With a plan that takes part in the reward program, the renewal
    helper reports eligibility exactly when the attendance count reaches
    the threshold, the two integers compared as they are: a count equal
    to the threshold is eligible and one below it by one is not. The
    progress card computes the same comparison on the attendances of the
    cycle, and its remaining-attendances signal is
    [max 0 (threshold - count)]: 0 at the threshold and 1 one below. *)
Theorem threshold_eligibility
  (data : option RewardConfig.t)
  (subscription : SubscriptionInfo) (p : Plan) (unit : string)
  (attendanceCount : Z)
  (activeSubscription : RewardProgress.ActiveSubscription)
  (subscriptionPlan : RewardProgress.SubscriptionPlan)
  (att : Attendance.t) (atts : list Attendance.t)
  (Hplan : plan subscription = Some p)
  (Hunit : truthy (duration_unit p) = Some unit)
  (Heligible : isPlanEligibleForRewards unit data = true)
  (HeligiblePlan :
     isPlanEligibleForRewards
       (RewardProgress.duration_unit subscriptionPlan)
       (Some (getRewardConfigData data)) = true) :
  let config := getRewardConfigData data in
  let threshold := RewardConfig.attendance_threshold config in
  let count :=
    calculateCycleAttendances (Some (att :: atts))
      (RewardProgress.start_date activeSubscription)
      (RewardProgress.end_date activeSubscription) in
  (canCalculateRewardForRenewal (Some subscription) attendanceCount data = true
   <-> attendanceCount >= threshold)
  /\ canCalculateRewardForRenewal (Some subscription) threshold data = true
  /\ canCalculateRewardForRenewal (Some subscription) (threshold - 1) data = false
  /\ exists pr,
       RewardProgress.progress config (Some activeSubscription)
         (Some subscriptionPlan) (Some (att :: atts)) = Some pr
       /\ RewardProgress.cycleAttendances pr = count
       /\ RewardProgress.threshold pr = threshold
       /\ (RewardProgress.isComplete pr = true <-> count >= threshold)
       /\ RewardProgress.remaining pr = Z.max 0 (threshold - count)
       /\ (count = threshold ->
           RewardProgress.isComplete pr = true /\ RewardProgress.remaining pr = 0)
       /\ (count = threshold - 1 ->
           RewardProgress.isComplete pr = false /\ RewardProgress.remaining pr = 1).
Proof.
  intros config threshold count.
  assert (Hcan : forall n,
    canCalculateRewardForRenewal (Some subscription) n data = (n >=? threshold)).
  { intro n. unfold canCalculateRewardForRenewal.
    rewrite Hplan, Hunit, Heligible. simpl.
    subst threshold config. destruct data; reflexivity. }
  split; [rewrite Hcan, Z.geb_le; lia|].
  split; [rewrite Hcan; apply Z.geb_le; lia|].
  split; [rewrite Hcan, Z.geb_leb; apply Z.leb_gt; lia|].
  unfold RewardProgress.progress.
  change (Nat.eqb (List.length (att :: atts)) 0) with false. cbv iota.
  fold config in HeligiblePlan. rewrite HeligiblePlan. simpl negb. cbv iota.
  eexists. split; [reflexivity|]. cbn [RewardProgress.cycleAttendances
    RewardProgress.threshold RewardProgress.isComplete RewardProgress.remaining].
  fold threshold. fold count.
  repeat split.
  - rewrite Z.geb_le. lia.
  - rewrite Z.geb_le. lia.
  - apply Z.geb_le. lia.
  - lia.
  - rewrite Z.geb_leb. apply Z.leb_gt. lia.
  - lia.
Qed.

(** C6. An attendance is counted toward the cycle exactly when its
    check-in lies in the closed interval between the start and the end of
    the cycle: the count of a list is the sum of the contributions of its
    records, and a record contributes 1 when the three dates are valid
    and [start <= check_in <= end], and 0 otherwise. *)
Theorem cycle_attendances_closed_interval
  (att : Attendance.t) (atts : list Attendance.t) (startDate endDate : string) :
  let counted :=
    exists t s e,
      Date_new (Attendance.check_in att) = Some t
      /\ Date_new startDate = Some s /\ Date_new endDate = Some e
      /\ s <= t <= e in
  calculateCycleAttendances (Some (att :: atts)) startDate endDate
  = calculateCycleAttendances (Some [att]) startDate endDate
    + calculateCycleAttendances (Some atts) startDate endDate
  /\ (calculateCycleAttendances (Some [att]) startDate endDate = 1 <-> counted)
  /\ (calculateCycleAttendances (Some [att]) startDate endDate = 0 <-> ~ counted).
Proof.
  intros counted. rewrite !calculateCycleAttendances_filter.
  pose proof (inCycle_closed_interval (Date_new startDate) (Date_new endDate) att)
    as Hspec.
  fold counted in Hspec. simpl filter.
  destruct (inCycle (Date_new startDate) (Date_new endDate) att) eqn:E;
    cbn [List.length]; rewrite ?Nat2Z.inj_succ; change (Z.of_nat 0) with 0.
  - assert (Hc : counted) by (apply Hspec; reflexivity).
    split; [lia|]. split; split.
    + intros _. exact Hc.
    + intros _. reflexivity.
    + intros Hone. discriminate Hone.
    + intros Hn. contradiction.
  - assert (Hc : ~ counted) by (intros Hc; apply Hspec in Hc; discriminate).
    split; [lia|]. split; split.
    + intros Hzero. discriminate Hzero.
    + intros Hc'. contradiction.
    + intros _. exact Hc.
    + intros _. reflexivity.
Qed.

(** Both ends of the cycle are counted. *)
Lemma cycle_bounds_counted (att : Attendance.t) (startDate endDate : string) (s e : Z) :
  Date_new startDate = Some s -> Date_new endDate = Some e -> s <= e ->
  Date_new (Attendance.check_in att) = Some s
  \/ Date_new (Attendance.check_in att) = Some e ->
  calculateCycleAttendances (Some [att]) startDate endDate = 1.
Proof.
  intros Hs He Hle Hin. rewrite calculateCycleAttendances_filter. simpl filter.
  replace (inCycle (Date_new startDate) (Date_new endDate) att) with true;
    [reflexivity|].
  symmetry. apply inCycle_closed_interval.
  destruct Hin as [Ht|Ht]; [exists s, s, e | exists e, s, e];
    repeat split; try assumption; lia.
Qed.

(** A check-in before the start or after the end is not counted. *)
Lemma outside_cycle_not_counted
  (att : Attendance.t) (startDate endDate : string) (t s e : Z) :
  Date_new startDate = Some s -> Date_new endDate = Some e ->
  Date_new (Attendance.check_in att) = Some t ->
  t < s \/ e < t ->
  calculateCycleAttendances (Some [att]) startDate endDate = 0.
Proof.
  intros Hs He Ht Hout. rewrite calculateCycleAttendances_filter. simpl filter.
  destruct (inCycle (Date_new startDate) (Date_new endDate) att) eqn:E;
    [|reflexivity].
  apply inCycle_closed_interval in E.
  destruct E as (t' & s' & e' & Ht' & Hs' & He' & Hle).
  rewrite Ht in Ht'. rewrite Hs in Hs'. rewrite He in He'.
  injection Ht' as <-. injection Hs' as <-. injection He' as <-. lia.
Qed.

(** C7. A plan whose duration unit is not, as an exact string, among the
    eligible plan units of the configuration is not applicable: the
    membership test fails, the progress card yields no progress object
    for any subscription and any attendances, and the renewal helper
    reports false at every attendance count. *)
Theorem ineligible_plan_not_applicable
  (config : RewardConfig.t) (unit : string)
  (Hnot : ~ In unit (RewardConfig.eligible_plan_units config)) :
  isPlanEligibleForRewards unit (Some config) = false
  /\ (forall activeSubscription attendances,
        RewardProgress.progress config activeSubscription
          (Some {| RewardProgress.duration_unit := unit |}) attendances = None)
  /\ (forall subscription attendanceCount,
        plan subscription = Some {| duration_unit := Some unit |} ->
        canCalculateRewardForRenewal (Some subscription) attendanceCount
          (Some config) = false).
Proof.
  assert (Hinel : isPlanEligibleForRewards unit (Some config) = false).
  { unfold isPlanEligibleForRewards. now apply includes_not_In. }
  split; [exact Hinel|]. split.
  - intros activeSubscription attendances. unfold RewardProgress.progress.
    destruct activeSubscription; [|reflexivity].
    destruct attendances as [atts|]; [|reflexivity].
    destruct (Nat.eqb (List.length atts) 0); [reflexivity|].
    cbn [RewardProgress.duration_unit]. rewrite Hinel. reflexivity.
  - intros subscription attendanceCount Hplan.
    unfold canCalculateRewardForRenewal. rewrite Hplan.
    cbn [duration_unit]. unfold truthy.
    destruct (String.eqb unit ""); [reflexivity|].
    rewrite Hinel. reflexivity.
Qed.

End EvaluatorClaims.

(* ----------------------------------------------------------------- *)
(** ** Reward lifecycle tracker and renewal gating *)

Section DialogClaims.
Import RenewModal.
Context {host : Host} {filters : SubscriptionFilters}.

Lemma filter_nonempty_existsb {A : Type} (f : A -> bool) (l : list A) :
  existsb f l = match filter f l with [] => false | _ :: _ => true end.
Proof.
  induction l as [|x l IH]; [reflexivity|].
  simpl. destruct (f x); [reflexivity | exact IH].
Qed.

Lemma existsb_pointwise {A : Type} (f g : A -> bool) (l : list A) :
  (forall x, f x = g x) -> existsb f l = existsb g l.
Proof.
  intros Hfg. induction l as [|x l IH]; [reflexivity|].
  simpl. now rewrite Hfg, IH.
Qed.

(** The expiry test of the code is the test of the specification: a
    reward is expired exactly when it is past its [expires_at], in a host
    for which the empty text is not a date. *)
Lemma isRewardExpired_pastExpiresAt (now : Z) (reward : Reward.t) :
  Date_new "" = None ->
  isRewardExpired now reward = pastExpiresAt now reward.
Proof.
  intros Hempty. unfold isRewardExpired, pastExpiresAt, truthy.
  destruct (Reward.expires_at reward) as [text|]; [|reflexivity].
  destruct (String.eqb text "") eqn:E.
  - apply String.eqb_eq in E. subst text. now rewrite Hempty.
  - unfold Date_lt. destruct (Date_new text); reflexivity.
Qed.

(** C3. Once the rewards of the subscription are fetched, the state the
    reward panel shows is the one the derivation rule gives: Calculated
    if some reward is pending and not past its [expires_at], otherwise
    Applied if some reward is applied, otherwise NotEligible if the last
    local calculation returned [eligible = false], otherwise
    NotCalculated. A reward is past its [expires_at] when the field
    holds a date earlier than the present; the empty text is not a date
    ([new Date('')] is an invalid date). In particular a list holding
    one applied reward shows Applied for every last result. *)
Theorem reward_state_precedence
  (now : Z) (rewards : list Reward.t)
  (lastCalculationResult : option RewardEligibilityResponse.t)
  (Hempty : Date_new "" = None) :
  stateOfView (rewardStatus now false false (Some rewards) lastCalculationResult)
  = Some (deriveRewardState now rewards lastCalculationResult)
  /\ (deriveRewardState now rewards lastCalculationResult = Calculated
      <-> exists r, In r rewards
                    /\ Reward.status r = RewardStatus.PENDING
                    /\ ~ (exists text expiry,
                            Reward.expires_at r = Some text
                            /\ Date_new text = Some expiry
                            /\ expiry < now))
  /\ (forall r : Reward.t,
        Reward.status r = RewardStatus.APPLIED ->
        rewardStatus now false false (Some [r]) lastCalculationResult
        = applied "La recompensa ya fue aplicada").
Proof.
  assert (Hsame : forall r,
            isRewardAvailable now r
            = match Reward.status r with
              | RewardStatus.PENDING => negb (pastExpiresAt now r)
              | _ => false
              end).
  { intros r. unfold isRewardAvailable.
    rewrite (isRewardExpired_pastExpiresAt now r Hempty).
    destruct (Reward.status r); reflexivity. }
  assert (Happlied : forall r,
            RewardStatus.eqb (Reward.status r) RewardStatus.APPLIED
            = match Reward.status r with
              | RewardStatus.APPLIED => true
              | _ => false
              end).
  { intros r. destruct (Reward.status r); reflexivity. }
  split; [|split].
  - unfold rewardStatus, deriveRewardState, filterAvailableRewards.
    rewrite <- (existsb_pointwise _ _ rewards Hsame).
    rewrite <- (existsb_pointwise _ _ rewards Happlied).
    rewrite !filter_nonempty_existsb.
    destruct (filter (isRewardAvailable now) rewards) as [|r1 l1]; [|reflexivity].
    destruct (filter _ rewards) as [|r2 l2]; [|reflexivity].
    destruct lastCalculationResult as [result|]; [|reflexivity].
    destruct (RewardEligibilityResponse.eligible result); reflexivity.
  - unfold deriveRewardState.
    destruct (existsb (fun r0 =>
                match Reward.status r0 with
                | RewardStatus.PENDING => negb (pastExpiresAt now r0)
                | _ => false
                end) rewards) eqn:Epending.
    + split; [intros _ | reflexivity].
      apply existsb_exists in Epending as [r [Hin Hr]].
      exists r. split; [assumption|].
      destruct (Reward.status r); try discriminate.
      split; [reflexivity|].
      intros (text & expiry & Htext & Hdate & Hlt).
      unfold pastExpiresAt in Hr. rewrite Htext, Hdate in Hr.
      apply negb_true_iff, Z.ltb_ge in Hr. lia.
    + split.
      * destruct (existsb (fun r0 =>
                    match Reward.status r0 with
                    | RewardStatus.APPLIED => true
                    | _ => false
                    end) rewards); [discriminate|].
        destruct lastCalculationResult as [result|]; [|discriminate].
        destruct (RewardEligibilityResponse.eligible result); discriminate.
      * intros (r & Hin & Hstatus & Hnot). exfalso.
        rewrite <- not_true_iff_false in Epending. apply Epending.
        { apply existsb_exists. exists r. split; [assumption|].
          rewrite Hstatus. apply negb_true_iff. unfold pastExpiresAt.
          destruct (Reward.expires_at r) as [text|] eqn:Htext; [|reflexivity].
          destruct (Date_new text) as [expiry|] eqn:Hdate; [|reflexivity].
          apply Z.ltb_ge. destruct (Z.lt_ge_cases expiry now) as [Hlt|Hge];
            [|lia].
          exfalso. apply Hnot. now exists text, expiry. }
  - intros r Hr. unfold rewardStatus, filterAvailableRewards, isRewardAvailable.
    simpl filter. rewrite Hr. reflexivity.
Qed.

(** C4. An expired subscription is renewable whatever the days-remaining
    policy says; for an active one the check is the policy's answer; any
    other status is not renewable; and whenever the check says not
    renewable the confirm button is disabled. *)
Theorem renewal_gating
  (subscription : Subscription.t) (st : State) (isLoading : bool) :
  let check := renewalCheck (Some subscription) in
  match Subscription.status subscription with
  | SubscriptionStatus.EXPIRED => canRenew check = true
  | SubscriptionStatus.ACTIVE => check = canRenewByDaysRemaining subscription
  | SubscriptionStatus.CANCELED
  | SubscriptionStatus.PENDING_PAYMENT
  | SubscriptionStatus.SCHEDULED => canRenew check = false
  end
  /\ (canRenew check = false -> confirmDisabled st isLoading check = true).
Proof.
  intros check. split.
  - subst check. unfold renewalCheck.
    destruct (Subscription.status subscription); reflexivity.
  - intros Hno. unfold confirmDisabled. rewrite Hno.
    simpl. apply orb_true_r.
Qed.

End DialogClaims.

(* ----------------------------------------------------------------- *)
(** ** Renewal orchestrator *)

Section OrchestratorClaims.
Import RenewModal.
Context {host : Host} {filters : SubscriptionFilters}.

Lemma resolveDiscount_valid (selected : option Reward.t) (discount : number) :
  resolveDiscount selected = Some discount -> isNaN discount = false.
Proof.
  unfold resolveDiscount. destruct selected as [reward|]; [|discriminate].
  destruct (Reward.discount_percentage reward) as [n|s].
  - destruct (isNaN n) eqn:E; [discriminate|]. intros [= <-]. exact E.
  - destruct (isNaN (parseFloat s)) eqn:E; [discriminate|]. intros [= <-]. exact E.
Qed.

Lemma truthy_Some (s : option string) (v : string) :
  truthy s = Some v -> s = Some v /\ v <> "".
Proof.
  unfold truthy. destruct s as [u|]; [|discriminate].
  destruct (String.eqb u "") eqn:E; [discriminate|].
  intros [= <-]. split; [reflexivity|]. now apply String.eqb_neq.
Qed.

(** The runs of [handleConfirm], by what was selected and how the two
    calls settle. *)
Lemma run_handleConfirm
  (subscription : Subscription.t) (st : State) (w : World) :
  let discountPercentage := resolveDiscount (selectedReward st) in
  let enter := [EvEffect (setError None); EvEffect (setIsSubmitting true);
                EvRenew discountPercentage] in
  let close := [EvEffect (setError None); EvEffect (setIsSubmitting false);
                EvEffect (setSelectedReward None); EvEffect onClose;
                EvEffect (setIsSubmitting false)] in
  run w (handleConfirm (Some subscription) st) =
  match onConfirm w discountPercentage with
  | Rejected err =>
    enter ++ [EvEffect (setError (Some
                match err with
                | ErrorInstance m => m
                | OtherValue => "Error al renovar la suscripción"
                end));
              EvEffect (setIsSubmitting false)]
  | Resolved newSubscriptionId =>
    match selectedReward st, truthy newSubscriptionId, discountPercentage with
    | Some reward, Some newId, Some discount =>
      enter ++ EvApply (Reward.id reward) newId discount ::
      match applyReward w (Reward.id reward) newId discount with
      | Resolved _ => close
      | Rejected rewardError =>
        EvEffect (logger_error "Error applying reward:"
                    match rewardError with
                    | ErrorInstance m => m
                    | OtherValue => "Error desconocido"
                    end)
        :: EvEffect (setError (Some rewardNotMarkedWarning)) :: close
      end
    | _, _, _ => enter ++ close
    end
  end%list.
Proof.
  intros discountPercentage enter close. unfold handleConfirm.
  fold discountPercentage. cbn [run app enter].
  destruct (onConfirm w discountPercentage) as [newSubscriptionId|err];
    [|reflexivity].
  destruct (selectedReward st) as [reward|]; [|reflexivity].
  destruct (truthy newSubscriptionId) as [newId|]; [|reflexivity].
  destruct discountPercentage as [discount|]; [|reflexivity].
  cbn [run]. destruct (applyReward w (Reward.id reward) newId discount);
    reflexivity.
Qed.

(** Settles the three statements about apply-reward calls for a run
    that contains none. *)
Ltac no_apply_call :=
  split;
  [ unfold applyCalls; simpl; lia
  | split;
    [ intros ? ? ? Hin; simpl in Hin; exfalso; intuition discriminate
    | intros _; reflexivity ] ].

(** C2. In [handleConfirm] apply-reward is started only once the renewal
    call has resolved with a subscription id, and only when a reward was
    selected and its discount resolved to a number: the handler never
    reaches the apply-reward call without having awaited the renewal, an
    apply-reward call in a run comes right after the renewal call that
    returned the id it binds, there is at most one, and there is none when
    no reward is selected, the discount is not a number, or the renewal
    fails or returns no id. *)
Theorem apply_reward_after_renewal
  (subscription : option Subscription.t) (st : State) (w : World) :
  let handler := handleConfirm subscription st in
  let trace := run w handler in
  ~ appliesBeforeRenewal handler
  /\ (applyCalls trace <= 1)%nat
  /\ (forall rewardId newId discount,
        In (EvApply rewardId newId discount) trace ->
        exists reward pre post,
          selectedReward st = Some reward
          /\ rewardId = Reward.id reward
          /\ resolveDiscount (selectedReward st) = Some discount
          /\ isNaN discount = false
          /\ onConfirm w (Some discount) = Resolved (Some newId)
          /\ newId <> ""
          /\ trace = (pre ++ EvRenew (Some discount)
                          :: EvApply rewardId newId discount :: post)%list
          /\ applyCalls pre = 0%nat)
  /\ (selectedReward st = None
      \/ resolveDiscount (selectedReward st) = None
      \/ (forall newId,
            onConfirm w (resolveDiscount (selectedReward st)) = Resolved newId ->
            truthy newId = None) ->
      applyCalls trace = 0%nat).
Proof.
  intros handler trace. split.
  { subst handler. unfold handleConfirm.
    destruct subscription; simpl; tauto. }
  subst trace handler. destruct subscription as [s|].
  2:{ simpl. split; [unfold applyCalls; simpl; lia|].
      split; [intros ? ? ? [] | reflexivity]. }
  rewrite run_handleConfirm.
  remember (resolveDiscount (selectedReward st)) as dp eqn:Hdp.
  destruct (onConfirm w dp) as [newSubscriptionId|err] eqn:Hrenew.
  2:{ no_apply_call. }
  destruct (selectedReward st) as [reward|] eqn:Hsel.
  2:{ no_apply_call. }
  destruct (truthy newSubscriptionId) as [newId|] eqn:Hid.
  2:{ no_apply_call. }
  destruct dp as [discount|].
  2:{ no_apply_call. }
  apply truthy_Some in Hid as [-> Hne].
  assert (Hvalid : isNaN discount = false)
    by (apply (resolveDiscount_valid (Some reward)); now symmetry).
  split; [|split].
  - destruct (applyReward w (Reward.id reward) newId discount);
      unfold applyCalls; simpl; lia.
  - intros rewardId newId' discount' Hin.
    assert (Heq : EvApply (Reward.id reward) newId discount
                  = EvApply rewardId newId' discount').
    { destruct (applyReward w (Reward.id reward) newId discount);
        simpl in Hin; intuition discriminate. }
    injection Heq as <- <- <-.
    exists reward, [EvEffect (setError None); EvEffect (setIsSubmitting true)].
    eexists. repeat split; try eassumption; try reflexivity.
  - intros [Hnone | [Hnone | Hnoid]]; [discriminate | discriminate |].
    specialize (Hnoid (Some newId) eq_refl). simpl in Hnoid.
    destruct (String.eqb newId "") eqn:E; [|discriminate].
    apply String.eqb_eq in E. contradiction.
Qed.

(** Every confirmation on a subscription issues exactly one renewal
    call: nothing in the handler retries it. *)
Lemma renewal_called_once (subscription : Subscription.t) (st : State) (w : World) :
  renewCalls (run w (handleConfirm (Some subscription) st)) = 1%nat.
Proof.
  rewrite run_handleConfirm.
  destruct (onConfirm w _); [|reflexivity].
  destruct (selectedReward st); [|reflexivity].
  destruct (truthy value); [|reflexivity].
  destruct (resolveDiscount _); [|reflexivity].
  destruct (applyReward w _ _ _); reflexivity.
Qed.

(** When the renewal resolves, the handler ends in [handleClose]: the
    dialog is closed and the error cell is empty once the handler has
    run, also on the path that had set the reward warning. *)
Lemma renewal_resolved_closes_dialog
  (subscription : Subscription.t) (st : State) (w : World)
  (newSubscriptionId : option string) :
  onConfirm w (resolveDiscount (selectedReward st)) = Resolved newSubscriptionId ->
  let trace := run w (handleConfirm (Some subscription) st) in
  In (EvEffect onClose) trace
  /\ error (finalState st trace) = None
  /\ isSubmitting (finalState st trace) = false.
Proof.
  intros Hrenew trace. subst trace. rewrite run_handleConfirm, Hrenew.
  destruct (selectedReward st); [|simpl; tauto].
  destruct (truthy newSubscriptionId); [|simpl; tauto].
  destruct (resolveDiscount _); [|simpl; tauto].
  destruct (applyReward w _ _ _); simpl; tauto.
Qed.

(** While the renewal is awaited the submitting flag is set: the handler
    sets it before it issues the call. *)
Lemma renewal_awaited_while_submitting (subscription : Subscription.t) (st : State) :
  exists k,
    handleConfirm (Some subscription) st
    = Do (setError None)
        (Do (setIsSubmitting true)
           (AwaitOnConfirm (resolveDiscount (selectedReward st)) k))
    /\ isSubmitting
         (applyEffect (applyEffect st (setError None)) (setIsSubmitting true))
       = true.
Proof. eexists. split; reflexivity. Qed.

End OrchestratorClaims.

(* ----------------------------------------------------------------- *)
(** ** The submission guard *)

Section GuardClaims.
Import RenewModal RenewSession.
Context {host : Host} {filters : SubscriptionFilters}.


(** While the flag is set, a click on the confirm or on the cancel
    button changes nothing. *)
Lemma click_while_submitting
  (subscription : option Subscription.t) (s : Session) (isLoading : bool) :
  isSubmitting (state s) = true ->
  step subscription s (ClickConfirm isLoading) = s
  /\ step subscription s (ClickCancel isLoading) = s.
Proof.
  intros Hflag.
  unfold step, after, clickConfirm, Button_onClick, confirmDisabled.
  rewrite Hflag. cbn. rewrite !app_nil_r. destruct s; split; reflexivity.
Qed.


Lemma flagAfter_applyEffect (st : State) (e : Effect) :
  isSubmitting (applyEffect st e) = flagAfter (isSubmitting st) e.
Proof. destruct e; reflexivity. Qed.

(** [handleConfirm] and [handleClose] hold the flag. *)
Lemma handleClose_holds (flag : bool) : HoldsFlag flag (handleClose Return).
Proof. unfold handleClose. repeat constructor. Qed.

Lemma handleConfirm_holds (subscription : Subscription.t) (st : State) (flag : bool) :
  HoldsFlag flag (handleConfirm (Some subscription) st).
Proof.
  unfold handleConfirm, handleClose.
  constructor. constructor. cbn [flagAfter]. constructor.
  intros [newSubscriptionId|err]; [|repeat constructor].
  destruct (selectedReward st); [|repeat constructor].
  destruct (truthy newSubscriptionId); [|repeat constructor].
  destruct (resolveDiscount _); [|repeat constructor].
  constructor. intros [u|rewardError]; repeat constructor.
Qed.

Lemma advance_holds (p : Prog) (st : State) :
  HoldsFlag (isSubmitting st) p ->
  match advance st p with
  | (st', _, None) => isSubmitting st' = false
  | (st', _, Some x) => isSubmitting st' = true /\ resumesHolding x
  end.
Proof.
  revert st. induction p as [|e k IH|d k _|r sub d k _]; intros st Hp.
  - inversion Hp as [Hflag| | |]. cbn. now symmetry.
  - inversion Hp as [|flag e' k' Hk| |]; subst.
    rewrite <- flagAfter_applyEffect in Hk. specialize (IH _ Hk).
    cbn. destruct (advance (applyEffect st e) k) as [[st' events] [x|]]; exact IH.
  - inversion Hp as [| |d' k' Hk Hflag|]; subst. cbn. split; [now symmetry | exact Hk].
  - inversion Hp as [| | |r' sub' d' k' Hk Hflag]; subst. cbn.
    split; [now symmetry | exact Hk].
Qed.

Lemma after_guarded (s : Session) (p : Prog) :
  HoldsFlag (isSubmitting (state s)) p -> guarded (after s [] p).
Proof.
  intros Hp. apply advance_holds in Hp. unfold after, guarded.
  destruct (advance (state s) p) as [[st' events] [x|]]; cbn.
  - right. exists x. destruct Hp as [Hflag Hx]. repeat split; assumption.
  - now left.
Qed.

(** As long as the dialog is not closed through the Modal, at most one
    handler is in flight and the flag is set while it is: the confirm
    button is then disabled, and a click on it changes nothing. *)
Lemma guarded_unless_closed
  (subscription : option Subscription.t) (s : Session) (a : Action) :
  guarded s -> isModalClose a = false -> guarded (step subscription s a).
Proof.
  intros Hs Ha.
  destruct a as [isLoading|isLoading| |hasExisting|n outcome|n outcome];
    try discriminate Ha.
  - destruct (isSubmitting (state s)) eqn:Hflag.
    + now rewrite (proj1 (click_while_submitting subscription s isLoading Hflag)).
    + destruct Hs as [Hnone | (x & _ & Hset & _)]; [|congruence].
      unfold step. rewrite Hnone. apply after_guarded. rewrite Hflag.
      unfold clickConfirm, Button_onClick.
      destruct (confirmDisabled _ _ _); [constructor|].
      destruct subscription as [sub|]; [apply handleConfirm_holds | constructor].
  - destruct (isSubmitting (state s)) eqn:Hflag.
    + now rewrite (proj2 (click_while_submitting subscription s isLoading Hflag)).
    + destruct Hs as [Hnone | (x & _ & Hset & _)]; [|congruence].
      unfold step. rewrite Hnone, Hflag. cbn [orb Button_onClick].
      apply after_guarded.
      destruct isLoading; [rewrite Hflag; constructor | apply handleClose_holds].
  - unfold step. destruct subscription; exact Hs.
  - unfold step. destruct Hs as [Hnone | (x & Hone & Hset & Hx)].
    + rewrite Hnone. destruct n; cbn; now left.
    + rewrite Hone. destruct n as [|n]; cbn [nth_error].
      * destruct x as [k|k]; [|right; now exists (AwaitingApplyReward k)].
        cbn [removeNth]. apply after_guarded. rewrite Hset. apply Hx.
      * destruct n; cbn; right; now exists x.
  - unfold step. destruct Hs as [Hnone | (x & Hone & Hset & Hx)].
    + rewrite Hnone. destruct n; cbn; now left.
    + rewrite Hone. destruct n as [|n]; cbn [nth_error].
      * destruct x as [k|k]; [right; now exists (AwaitingRenewal k)|].
        cbn [removeNth]. apply after_guarded. rewrite Hset. apply Hx.
      * destruct n; cbn; right; now exists x.
Qed.

Lemma one_renewal_in_flight_unless_closed
  (subscription : option Subscription.t) (st : State) (actions : list Action) :
  forallb (fun a => negb (isModalClose a)) actions = true ->
  let s := steps subscription (atRest st) actions in
  (renewalsInFlight s <= 1)%nat
  /\ (suspended s <> [] ->
      isSubmitting (state s) = true
      /\ forall isLoading,
           step subscription s (ClickConfirm isLoading) = s).
Proof.
  intros Hactions s.
  assert (Hs : guarded s).
  { subst s. unfold steps.
    assert (Hstart : guarded (atRest st)) by now left.
    revert Hactions Hstart. generalize (atRest st).
    induction actions as [|a actions IH]; intros s0 Hall Hs0; [exact Hs0|].
    cbn in Hall. apply andb_true_iff in Hall as [Ha Hall].
    apply negb_true_iff in Ha. cbn [fold_left].
    apply IH; [exact Hall|]. now apply guarded_unless_closed. }
  destruct Hs as [Hnone | (x & Hone & Hset & _)].
  - unfold renewalsInFlight. rewrite Hnone. split; [cbn; lia | congruence].
  - split.
    + unfold renewalsInFlight. rewrite Hone. cbn. destruct x; cbn; lia.
    + intros _. split; [exact Hset|].
      intros isLoading. now apply click_while_submitting.
Qed.


End GuardClaims.

(** C1. The renewal succeeds and returns the id of the new subscription,
    then apply-reward fails. The renewal stands: it is called once and
    nothing is undone. The handler sets the warning that the subscription
    was renewed but the reward could not be marked as applied, and then
    runs [handleClose], which empties the error cell and closes the
    dialog: once the handler has run no warning is shown. *)
Theorem reward_marking_failure_run :
  let trace :=
    RenewModal.run Scenario.rewardMarkingFails
      (RenewModal.handleConfirm (host := DigitsHost.host)
         (Some Scenario.subscription) Scenario.rewardSelected) in
  trace =
    [ RenewModal.EvEffect (RenewModal.setError None);
      RenewModal.EvEffect (RenewModal.setIsSubmitting true);
      RenewModal.EvRenew (Some 20%float);
      RenewModal.EvApply "reward-1" "sub-2" 20%float;
      RenewModal.EvEffect
        (RenewModal.logger_error "Error applying reward:" "Request failed");
      RenewModal.EvEffect
        (RenewModal.setError (Some RenewModal.rewardNotMarkedWarning));
      RenewModal.EvEffect (RenewModal.setError None);
      RenewModal.EvEffect (RenewModal.setIsSubmitting false);
      RenewModal.EvEffect (RenewModal.setSelectedReward None);
      RenewModal.EvEffect RenewModal.onClose;
      RenewModal.EvEffect (RenewModal.setIsSubmitting false) ]
  /\ RenewModal.renewCalls trace = 1%nat
  /\ RenewModal.error (RenewModal.finalState Scenario.rewardSelected trace) = None
  /\ RenewModal.errorShown (RenewModal.finalState Scenario.rewardSelected trace)
     = None.
Proof. vm_compute. repeat split. Qed.

(* ----------------------------------------------------------------- *)
(** ** Cache synchronisation *)

Section CacheClaims.
Import SubscriptionCache SubscriptionMutations QueryCache.








End CacheClaims.

(* ----------------------------------------------------------------- *)
(** ** Discount arithmetic *)

(** Facts of binary64 arithmetic the discount helpers rest on. *)
Section Binary64.
Import Exact.

Lemma bounded_fexp (m : positive) (e : Z) :
  bounded prec emax m e = true ->
  fexp prec emax (Zpos (digits2_pos m) + e) = e /\ e <= emax - prec.
Proof.
  unfold bounded, canonical_mantissa. intros Hb.
  apply andb_true_iff in Hb as [Hc He].
  apply Z.eqb_eq in Hc. apply Z.leb_le in He. split; assumption.
Qed.

(** Rounding the product of a mantissa by the mantissa of 1 gives the
    mantissa back: the 52 low bits shifted out are all zero. *)
Lemma round_aux_times_one (s : bool) (m : positive) (e : Z) :
  bounded prec emax m e = true ->
  binary_round_aux prec emax s (Zpos (m * 4503599627370496)) (e + -52) loc_Exact
  = S754_finite s m e.
Proof.
  intros Hb. apply bounded_fexp in Hb as [Hf He].
  unfold binary_round_aux, shr_fexp.
  rewrite Pos.mul_comm. cbn [Pos.mul Zdigits2 digits2_pos shr_record_of_loc].
  rewrite !Pos2Z.inj_succ.
  replace (_ + (e + -52)) with (Zpos (digits2_pos m) + e) by lia.
  rewrite Hf. replace (e - (e + -52)) with 52 by lia.
  cbn [shr iter_pos shr_1 orb].
  cbn [shr_m loc_of_shr_record round_nearest_even Zdigits2].
  replace (e + -52 + 52) with e by lia.
  rewrite Hf, Z.sub_diag. cbn [shr shr_m].
  apply Z.leb_le in He. rewrite He. reflexivity.
Qed.

Lemma mul_one (x : float) : (x * 1)%float = x.
Proof.
  apply Prim2SF_inj. rewrite mul_spec.
  change (Prim2SF 1) with (S754_finite false 4503599627370496 (-52)).
  pose proof (Prim2SF_valid x) as Hv.
  destruct (Prim2SF x) as [s|s| |s m e]; cbn [SF64mul SFmul];
    try (destruct s; reflexivity); try reflexivity.
  unfold SF64mul, SFmul. rewrite xorb_false_r. now apply round_aux_times_one.
Qed.

Lemma SFeqb_refl (x : spec_float) : x <> S754_nan -> SFeqb x x = true.
Proof.
  intros Hx. unfold SFeqb.
  destruct x as [s|s| |s m e]; try (destruct s; reflexivity); [contradiction|].
  cbn [SFcompare]. rewrite Z.compare_refl, Pos.compare_cont_refl.
  destruct s; reflexivity.
Qed.

Lemma is_finite_cases (x : float) :
  is_finite x = true ->
  (exists s, Prim2SF x = S754_zero s)
  \/ (exists s m e, Prim2SF x = S754_finite s m e).
Proof.
  unfold is_finite, is_nan, is_infinity.
  rewrite !eqb_spec, abs_spec.
  change (Prim2SF infinity) with (S754_infinity false).
  destruct (Prim2SF x) as [s|s| |s m e].
  - intros _. left. now exists s.
  - destruct s; discriminate.
  - discriminate.
  - intros _. right. now exists s, m, e.
Qed.

Lemma sub_diag_finite (x : float) :
  is_finite x = true -> (x - x)%float = 0%float.
Proof.
  intros Hfin. apply Prim2SF_inj. rewrite sub_spec.
  change (Prim2SF 0) with (S754_zero false).
  destruct (is_finite_cases x Hfin) as [[s Hx] | (s & m & e & Hx)]; rewrite Hx.
  - destruct s; reflexivity.
  - unfold SF64sub, SFsub. rewrite Z.sub_diag. reflexivity.
Qed.

Lemma add_zero_finite (x : float) :
  is_finite x = true -> (x + 0 =? x)%float = true.
Proof.
  intros Hfin. rewrite eqb_spec, add_spec.
  change (Prim2SF 0) with (S754_zero false).
  destruct (is_finite_cases x Hfin) as [[s Hx] | (s & m & e & Hx)]; rewrite Hx.
  - destruct s; reflexivity.
  - cbn [SF64add SFadd]. apply SFeqb_refl. discriminate.
Qed.

Lemma eqb_refl_finite (x : float) :
  is_finite x = true -> (x =? x)%float = true.
Proof.
  intros Hfin. rewrite eqb_spec.
  destruct (is_finite_cases x Hfin) as [[s Hx] | (s & m & e & Hx)]; rewrite Hx;
    apply SFeqb_refl; discriminate.
Qed.

(** *** Sums and differences that do not round *)

Lemma digits2_log2 (m : positive) :
  Zpos (digits2_pos m) = Z.log2 (Zpos m) + 1.
Proof.
  assert (Hsize : forall p, digits2_pos p = Pos.size p).
  { induction p as [p IH|p IH|]; cbn; now rewrite ?IH. }
  rewrite Hsize. destruct m as [p|p|]; cbn; try reflexivity; lia.
Qed.

Lemma digits2_scaled (m : positive) (k : Z) :
  0 <= k -> Z.log2 (Zpos m * 2 ^ k) + 1 = Zpos (digits2_pos m) + k.
Proof.
  intros Hk. rewrite Z.log2_mul_pow2 by lia. rewrite digits2_log2. lia.
Qed.

Lemma iter_xO_value (m d : positive) :
  Zpos (Pos.iter xO m d) = Zpos m * 2 ^ Zpos d.
Proof.
  induction d as [|d IH] using Pos.peano_ind.
  - cbn. lia.
  - rewrite Pos.iter_succ, Pos2Z.inj_xO, IH, Pos2Z.inj_succ, Z.pow_succ_r by lia.
    lia.
Qed.

Lemma bounded_emin (m : positive) (e : Z) :
  bounded prec emax m e = true -> -1074 <= e.
Proof.
  unfold bounded, canonical_mantissa, fexp. intros Hb.
  apply andb_true_iff in Hb as [Hc _]. apply Z.eqb_eq in Hc.
  change (SpecFloat.emin prec emax) with (-1074) in Hc. lia.
Qed.

(** Two canonical representations of one value are the same. *)
Lemma canonical_unique (m1 m2 : positive) (e1 e2 : Z) :
  bounded prec emax m1 e1 = true -> bounded prec emax m2 e2 = true ->
  Zpos m1 * 2 ^ (e1 + 1074) = Zpos m2 * 2 ^ (e2 + 1074) ->
  m1 = m2 /\ e1 = e2.
Proof.
  intros H1 H2 Hv.
  pose proof (bounded_emin _ _ H1) as Hmin1.
  pose proof (bounded_emin _ _ H2) as Hmin2.
  apply bounded_fexp in H1 as [Hc1 _].
  apply bounded_fexp in H2 as [Hc2 _].
  assert (Hd : Zpos (digits2_pos m1) + e1 = Zpos (digits2_pos m2) + e2).
  { pose proof (digits2_scaled m1 (e1 + 1074)) as D1.
    pose proof (digits2_scaled m2 (e2 + 1074)) as D2.
    rewrite Hv in D1. lia. }
  assert (He : e1 = e2) by (rewrite <- Hc1, <- Hc2, Hd; reflexivity).
  split; [|exact He]. subst e2.
  apply Z.mul_cancel_r in Hv; [congruence|].
  apply Z.pow_nonzero; lia.
Qed.

(** Rounding a canonical mantissa leaves it alone. *)
Lemma round_aux_canonical (s : bool) (m : positive) (e : Z) :
  bounded prec emax m e = true ->
  binary_round_aux prec emax s (Zpos m) e loc_Exact = S754_finite s m e.
Proof.
  intros Hb. apply bounded_fexp in Hb as [Hf He].
  unfold binary_round_aux, shr_fexp.
  cbn [Zdigits2 shr_record_of_loc]. rewrite Hf, Z.sub_diag.
  cbn [shr shr_m loc_of_shr_record round_nearest_even Zdigits2 shr_record_of_loc].
  rewrite Hf, Z.sub_diag. cbn [shr shr_m].
  apply Z.leb_le in He. rewrite He. reflexivity.
Qed.

(** Shifting out bits that are all zero is exact. *)
Lemma shr_zero_bits (p : positive) (m : positive) :
  iter_pos shr_1 p (Build_shr_record (Zpos (Pos.iter xO m p)) false false)
  = Build_shr_record (Zpos m) false false.
Proof.
  revert m. induction p as [p IH|p IH|]; intros m.
  - cbn [iter_pos]. 
    replace (Pos.iter xO m p~1) with (xO (Pos.iter xO (Pos.iter xO m p) p)).
    + cbn [shr_1 orb]. rewrite IH. apply IH.
    + cbn [Pos.iter]. rewrite <- !Pos.iter_swap. reflexivity.
  - cbn [iter_pos Pos.iter]. rewrite IH. apply IH.
  - reflexivity.
Qed.

Lemma binary_round_exact (s : bool) (m mz : positive) (e ez : Z) :
  -1074 <= e ->
  bounded prec emax mz ez = true ->
  Zpos m * 2 ^ (e + 1074) = Zpos mz * 2 ^ (ez + 1074) ->
  binary_round prec emax s m e = S754_finite s mz ez.
Proof.
  intros He Hb Hv.
  pose proof (bounded_emin _ _ Hb) as Hez.
  pose proof (bounded_fexp _ _ Hb) as [Hc Hmax].
  assert (Hd : Zpos (digits2_pos m) + e = Zpos (digits2_pos mz) + ez).
  { pose proof (digits2_scaled m (e + 1074)) as D1.
    pose proof (digits2_scaled mz (ez + 1074)) as D2.
    rewrite Hv in D1. lia. }
  unfold binary_round. rewrite Hd, Hc. unfold shl_align.
  destruct (ez - e) as [|d|d] eqn:Hdiff.
  - assert (ez = e) by lia. subst ez.
    apply Z.mul_cancel_r in Hv; [|apply Z.pow_nonzero; lia].
    injection Hv as ->. now apply round_aux_canonical.
  - assert (Hm : m = Pos.iter xO mz d).
    { apply Pos2Z.inj. rewrite iter_xO_value.
      assert (Hp : 2 ^ (ez + 1074) = 2 ^ Zpos d * 2 ^ (e + 1074)).
      { rewrite <- Z.pow_add_r by lia. f_equal. lia. }
      apply Z.mul_cancel_r with (p := 2 ^ (e + 1074));
        [apply Z.pow_nonzero; lia|].
      rewrite Hv, Hp. ring. }
    unfold binary_round_aux, shr_fexp.
    cbn [Zdigits2 shr_record_of_loc]. rewrite Hd, Hc, Hdiff.
    cbn [shr]. rewrite Hm, shr_zero_bits.
    cbn [shr_m loc_of_shr_record round_nearest_even Zdigits2 shr_record_of_loc].
    replace (e + Zpos d) with ez by lia.
    rewrite Hc, Z.sub_diag. cbn [shr shr_m].
    apply Z.leb_le in Hmax. rewrite Hmax. reflexivity.
  - assert (Hm : Pos.iter xO m d = mz).
    { apply Pos2Z.inj. rewrite iter_xO_value.
      assert (Hp : 2 ^ (e + 1074) = 2 ^ Zpos d * 2 ^ (ez + 1074)).
      { rewrite <- Z.pow_add_r by lia. f_equal. lia. }
      apply Z.mul_cancel_r with (p := 2 ^ (ez + 1074));
        [apply Z.pow_nonzero; lia|].
      rewrite <- Hv, Hp. ring. }
    rewrite Hm. now apply round_aux_canonical.
Qed.

Lemma Some_eq {A : Type} (a b : A) : Some a = Some b -> a = b.
Proof. now intros [= ->]. Qed.

(** Rounding a value that is a binary64 number gives that number, up to
    the sign of zero. *)
Lemma normalize_exact (M e : Z) (z : spec_float) :
  -1074 <= e ->
  valid_binary z = true ->
  SFunits z = Some (M * 2 ^ (e + 1074)) ->
  SFeqb (binary_normalize prec emax M e false) z = true.
Proof.
  intros He Hvalid Hz.
  assert (Hpow : 0 < 2 ^ (e + 1074)) by (apply Z.pow_pos_nonneg; lia).
  destruct z as [sz|sz| |sz mz ez]; try discriminate Hz.
  - apply Some_eq in Hz.
    assert (M = 0) by nia. subst M. reflexivity.
  - unfold valid_binary, SpecFloat.valid_binary in Hvalid.
    unfold SFunits in Hz. apply Some_eq in Hz.
    pose proof (bounded_emin _ _ Hvalid) as Hez.
    assert (Hpz : 0 < 2 ^ (ez + 1074)) by (apply Z.pow_pos_nonneg; lia).
    destruct M as [|m|m]; destruct sz; unfold cond_Zopp in Hz;
      try (exfalso; nia).
    + cbn [binary_normalize].
      rewrite (binary_round_exact false m mz e ez He Hvalid) by lia.
      apply SFeqb_refl; discriminate.
    + cbn [binary_normalize].
      rewrite (binary_round_exact true m mz e ez He Hvalid) by lia.
      apply SFeqb_refl; discriminate.
Qed.

Lemma shl_align_value (m : positive) (e ez : Z) :
  ez <= e -> -1074 <= ez ->
  Zpos (fst (shl_align m e ez)) * 2 ^ (ez + 1074) = Zpos m * 2 ^ (e + 1074).
Proof.
  intros Hle Hmin. unfold shl_align.
  destruct (ez - e) as [|d|d] eqn:Hdiff; cbn [fst].
  - replace ez with e by lia. reflexivity.
  - lia.
  - rewrite iter_xO_value. replace (e + 1074) with (Zpos d + (ez + 1074)) by lia.
    rewrite (Z.pow_add_r 2 (Zpos d) (ez + 1074)) by lia. ring.
Qed.

Lemma cond_Zopp_mul (s : bool) (a b : Z) : cond_Zopp s a * b = cond_Zopp s (a * b).
Proof. destruct s; cbn; lia. Qed.

Lemma same_units_eqb (x z : spec_float) (u : Z) :
  valid_binary x = true -> valid_binary z = true ->
  SFunits x = Some u -> SFunits z = Some u -> SFeqb x z = true.
Proof.
  intros Hx Hz Ux Uz.
  destruct x as [sx|sx| |sx mx ex]; try discriminate Ux;
    destruct z as [sz|sz| |sz mz ez]; try discriminate Uz;
    unfold valid_binary, SpecFloat.valid_binary, SFunits in *.
  - reflexivity.
  - apply Some_eq in Ux; subst. apply Some_eq in Uz.
    pose proof (bounded_emin _ _ Hz).
    assert (0 < 2 ^ (ez + 1074)) by (apply Z.pow_pos_nonneg; lia).
    destruct sz; unfold cond_Zopp in Uz; nia.
  - apply Some_eq in Uz; subst. apply Some_eq in Ux.
    pose proof (bounded_emin _ _ Hx).
    assert (0 < 2 ^ (ex + 1074)) by (apply Z.pow_pos_nonneg; lia).
    destruct sx; unfold cond_Zopp in Ux; nia.
  - apply Some_eq in Ux. apply Some_eq in Uz.
    pose proof (bounded_emin _ _ Hx). pose proof (bounded_emin _ _ Hz).
    assert (0 < 2 ^ (ex + 1074)) by (apply Z.pow_pos_nonneg; lia).
    assert (0 < 2 ^ (ez + 1074)) by (apply Z.pow_pos_nonneg; lia).
    assert (Hs : sx = sz /\ Zpos mx * 2 ^ (ex + 1074) = Zpos mz * 2 ^ (ez + 1074)).
    { destruct sx, sz; unfold cond_Zopp in *; split; try reflexivity; nia. }
    destruct Hs as [-> Hv].
    destruct (canonical_unique mx mz ex ez Hx Hz Hv) as [-> ->].
    apply SFeqb_refl; discriminate.
Qed.

Lemma SFadd_exact (x y z : spec_float) (ux uy : Z) :
  valid_binary x = true -> valid_binary y = true ->
  valid_binary z = true ->
  SFunits x = Some ux -> SFunits y = Some uy -> SFunits z = Some (ux + uy) ->
  SFeqb (SFadd prec emax x y) z = true.
Proof.
  intros Hx Hy Hz Ux Uy Uz.
  destruct x as [sx|sx| |sx mx ex]; try discriminate Ux;
    destruct y as [sy|sy| |sy my ey]; try discriminate Uy.
  - unfold SFunits in Ux, Uy. apply Some_eq in Ux; subst. apply Some_eq in Uy; subst.
    apply (same_units_eqb _ z 0); try assumption.
    + destruct sx, sy; reflexivity.
    + destruct sx, sy; reflexivity.
  - unfold SFunits in Ux. apply Some_eq in Ux; subst. cbn [SFadd].
    now apply (same_units_eqb _ z uy).
  - unfold SFunits in Uy. apply Some_eq in Uy; subst. cbn [SFadd].
    apply (same_units_eqb _ z ux); try assumption.
    now rewrite Z.add_0_r in Uz.
  - unfold valid_binary, SpecFloat.valid_binary in Hx, Hy.
    unfold SFunits in Ux, Uy.
    apply Some_eq in Ux; subst. apply Some_eq in Uy; subst.
    pose proof (bounded_emin _ _ Hx). pose proof (bounded_emin _ _ Hy).
    cbn [SFadd]. apply normalize_exact; [lia | assumption|].
    rewrite Uz. f_equal.
    rewrite Z.mul_add_distr_r, !cond_Zopp_mul.
    rewrite !shl_align_value by lia. reflexivity.
Qed.

Lemma SFsub_exact (x y z : spec_float) (ux uy : Z) :
  valid_binary x = true -> valid_binary y = true ->
  valid_binary z = true ->
  SFunits x = Some ux -> SFunits y = Some uy -> SFunits z = Some (ux - uy) ->
  SFeqb (SFsub prec emax x y) z = true.
Proof.
  intros Hx Hy Hz Ux Uy Uz.
  destruct x as [sx|sx| |sx mx ex]; try discriminate Ux;
    destruct y as [sy|sy| |sy my ey]; try discriminate Uy.
  - unfold SFunits in Ux, Uy. apply Some_eq in Ux; subst. apply Some_eq in Uy; subst.
    apply (same_units_eqb _ z 0); try assumption.
    + destruct sx, sy; reflexivity.
    + destruct sx, sy; reflexivity.
  - unfold SFunits in Ux. apply Some_eq in Ux; subst. cbn [SFsub].
    apply (same_units_eqb _ z (0 - uy)); try assumption.
    unfold SFunits in *. apply Some_eq in Uy; subst. f_equal.
    destruct sy; unfold cond_Zopp, negb; lia.
  - unfold SFunits in Uy. apply Some_eq in Uy; subst. cbn [SFsub].
    apply (same_units_eqb _ z ux); try assumption.
    now rewrite Z.sub_0_r in Uz.
  - unfold valid_binary, SpecFloat.valid_binary in Hx, Hy.
    unfold SFunits in Ux, Uy.
    apply Some_eq in Ux; subst. apply Some_eq in Uy; subst.
    pose proof (bounded_emin _ _ Hx). pose proof (bounded_emin _ _ Hy).
    cbn [SFsub]. apply normalize_exact; [lia | assumption|].
    rewrite Uz. f_equal.
    rewrite Z.mul_sub_distr_r, !cond_Zopp_mul.
    rewrite !shl_align_value by lia. reflexivity.
Qed.

Lemma SFeqb_units (x z : spec_float) :
  SFeqb x z = true -> SFunits x = SFunits z.
Proof.
  unfold SFeqb.
  destruct x as [sx|sx| |sx mx ex]; destruct z as [sz|sz| |sz mz ez];
    cbn [SFcompare SFunits]; try discriminate; try reflexivity;
    try (destruct sx; discriminate); try (destruct sz; discriminate).
  destruct sx, sz; try discriminate;
    destruct (Z.compare ex ez) eqn:Ee; try discriminate;
    destruct (Pos.compare_cont Eq mx mz) eqn:Em; try discriminate;
    intros _; apply Z.compare_eq in Ee; apply Pos.compare_eq in Em;
    subst; reflexivity.
Qed.

Lemma add_exact (x y z : float) (ux uy : Z) :
  units x = Some ux -> units y = Some uy -> units z = Some (ux + uy) ->
  (x + y =? z)%float = true.
Proof.
  unfold units. intros Ux Uy Uz. rewrite eqb_spec, add_spec.
  apply (SFadd_exact _ _ _ ux uy); try assumption; apply Prim2SF_valid.
Qed.

Lemma sub_exact (x y z : float) (ux uy : Z) :
  units x = Some ux -> units y = Some uy -> units z = Some (ux - uy) ->
  (x - y =? z)%float = true.
Proof.
  unfold units. intros Ux Uy Uz. rewrite eqb_spec, sub_spec.
  apply (SFsub_exact _ _ _ ux uy); try assumption; apply Prim2SF_valid.
Qed.

Lemma eqb_units (x z : float) : (x =? z)%float = true -> units x = units z.
Proof. rewrite eqb_spec. apply SFeqb_units. Qed.

(** *** Differences of nearby numbers *)

Lemma pos_lt_pow_digits (m : positive) : Zpos m < 2 ^ Zpos (digits2_pos m).
Proof.
  rewrite digits2_log2.
  pose proof (Z.log2_spec (Zpos m) ltac:(lia)) as [_ Hlt].
  replace (Z.log2 (Zpos m) + 1) with (Z.succ (Z.log2 (Zpos m))) by lia.
  exact Hlt.
Qed.

Lemma pow_digits_le_pos (m : positive) : 2 ^ (Zpos (digits2_pos m) - 1) <= Zpos m.
Proof.
  rewrite digits2_log2.
  pose proof (Z.log2_spec (Zpos m) ltac:(lia)) as [Hle _].
  replace (Z.log2 (Zpos m) + 1 - 1) with (Z.log2 (Zpos m)) by lia.
  exact Hle.
Qed.

Lemma bounded_mantissa (m : positive) (e : Z) :
  bounded prec emax m e = true -> Zpos m < 2 ^ 53.
Proof.
  intros Hb. apply bounded_fexp in Hb as [Hc _].
  unfold fexp in Hc. change prec with 53 in Hc.
  pose proof (pos_lt_pow_digits m) as Hlt.
  assert (Hd : Zpos (digits2_pos m) <= 53) by lia.
  apply Z.lt_le_trans with (1 := Hlt).
  apply Z.pow_le_mono_r; lia.
Qed.

Lemma bounded_normal (m : positive) (e : Z) :
  bounded prec emax m e = true -> -1074 < e -> 2 ^ 52 <= Zpos m.
Proof.
  intros Hb He. apply bounded_fexp in Hb as [Hc _].
  unfold fexp in Hc. change prec with 53 in Hc.
  change (SpecFloat.emin 53 emax) with (-1074) in Hc.
  assert (Hd : Zpos (digits2_pos m) = 53) by lia.
  pose proof (pow_digits_le_pos m) as Hle. rewrite Hd in Hle. exact Hle.
Qed.

(** The smaller of two numbers has the smaller exponent. *)
Lemma exponent_le (m1 m2 : positive) (e1 e2 : Z) :
  bounded prec emax m1 e1 = true -> bounded prec emax m2 e2 = true ->
  Zpos m1 * 2 ^ (e1 + 1074) <= Zpos m2 * 2 ^ (e2 + 1074) ->
  e1 <= e2.
Proof.
  intros H1 H2 Hle.
  destruct (Z.le_gt_cases e1 e2) as [Hok|Hgt]; [exact Hok|exfalso].
  pose proof (bounded_emin _ _ H2) as Hmin.
  pose proof (bounded_normal m1 e1 H1 ltac:(lia)) as Hlow.
  pose proof (bounded_mantissa m2 e2 H2) as Hhigh.
  assert (Hp : 2 ^ (e1 + 1074) = 2 ^ (e1 - e2 - 1) * 2 * 2 ^ (e2 + 1074)).
  { replace (e1 + 1074) with ((e1 - e2 - 1) + (1 + (e2 + 1074))) by lia.
    rewrite (Z.pow_add_r 2 (e1 - e2 - 1)) by lia.
    rewrite (Z.pow_add_r 2 1 (e2 + 1074)) by lia.
    change (2 ^ 1) with 2. ring. }
  assert (H1' : 0 < 2 ^ (e1 - e2 - 1)) by (apply Z.pow_pos_nonneg; lia).
  assert (Hpos : 0 < 2 ^ (e2 + 1074)) by (apply Z.pow_pos_nonneg; lia).
  change (2 ^ 53) with (2 * 2 ^ 52) in Hhigh.
  rewrite Hp in Hle. nia.
Qed.

(** A small whole number of units of an exponent in range is a binary64
    number. *)
Lemma small_mantissa_representable (M e : Z) :
  -1074 <= e <= emax - prec -> Z.abs M < 2 ^ 53 ->
  exists z, valid_binary z = true /\ SFunits z = Some (M * 2 ^ (e + 1074)).
Proof.
  intros He HM.
  assert (Hpos : forall (s : bool) (m : positive), Zpos m < 2 ^ 53 ->
            exists z, valid_binary z = true
                      /\ SFunits z = Some (cond_Zopp s (Zpos m * 2 ^ (e + 1074)))).
  { intros s m Hm.
    assert (Hd : Zpos (digits2_pos m) <= 53).
    { destruct (Z.le_gt_cases (Zpos (digits2_pos m)) 53) as [Hok|Hgt]; [exact Hok|].
      pose proof (pow_digits_le_pos m) as Hle.
      assert (2 ^ 53 <= 2 ^ (Zpos (digits2_pos m) - 1))
        by (apply Z.pow_le_mono_r; lia).
      lia. }
    set (e' := fexp prec emax (Zpos (digits2_pos m) + e)).
    assert (He' : -1074 <= e' <= e).
    { subst e'. unfold fexp. change prec with 53.
      change (SpecFloat.emin 53 emax) with (-1074). lia. }
    destruct (Z.eq_dec e' e) as [Heq|Hne].
    - exists (S754_finite s m e). split.
      + unfold valid_binary, SpecFloat.valid_binary, bounded, canonical_mantissa.
        fold e'. rewrite Heq, Z.eqb_refl. apply Z.leb_le. lia.
      + reflexivity.
    - assert (Hshift : exists d, e - e' = Zpos d).
      { destruct (e - e') as [|d|d] eqn:E; try lia. now exists d. }
      destruct Hshift as [d Hdiff].
      exists (S754_finite s (Pos.iter xO m d) e'). split.
      + unfold valid_binary, SpecFloat.valid_binary, bounded, canonical_mantissa.
        assert (Hdig : Zpos (digits2_pos (Pos.iter xO m d)) + e'
                       = Zpos (digits2_pos m) + e).
        { pose proof (digits2_scaled m (Zpos d) ltac:(lia)) as D.
          rewrite <- iter_xO_value in D. rewrite <- digits2_log2 in D. lia. }
        rewrite Hdig. fold e'. rewrite Z.eqb_refl. apply Z.leb_le. lia.
      + unfold SFunits. f_equal. f_equal. rewrite iter_xO_value.
        replace (e + 1074) with (Zpos d + (e' + 1074)) by lia.
        rewrite (Z.pow_add_r 2 (Zpos d) (e' + 1074)) by lia. ring. }
  destruct M as [|m|m].
  - exists (S754_zero false). split; reflexivity.
  - destruct (Hpos false m) as [z Hz]; [lia|]. exists z. exact Hz.
  - destruct (Hpos true m) as [z [Hv Hz]]; [lia|]. exists z. split; [exact Hv|].
    rewrite Hz. unfold cond_Zopp. f_equal. lia.
Qed.

(** Sterbenz: the difference of two numbers of which neither is more
    than twice the other is a binary64 number. *)
Lemma nearby_difference_representable (x y : spec_float) (ux uy : Z) :
  valid_binary x = true -> valid_binary y = true ->
  SFunits x = Some ux -> SFunits y = Some uy ->
  0 <= uy <= ux -> ux <= 2 * uy ->
  exists z, valid_binary z = true /\ SFunits z = Some (ux - uy).
Proof.
  intros Hx Hy Ux Uy Hle Htwice.
  destruct y as [sy|sy| |sy my ey]; try discriminate Uy.
  - apply Some_eq in Uy. subst uy. assert (ux = 0) by lia. subst ux.
    exists (S754_zero false). split; reflexivity.
  - destruct x as [sx|sx| |sx mx ex]; try discriminate Ux.
    + apply Some_eq in Ux. subst ux.
      exists (S754_zero false). split; [reflexivity|].
      unfold SFunits. f_equal. lia.
    + unfold valid_binary, SpecFloat.valid_binary in Hx, Hy.
      unfold SFunits in Ux, Uy. apply Some_eq in Ux. apply Some_eq in Uy.
      pose proof (bounded_emin _ _ Hx) as Hminx.
      pose proof (bounded_emin _ _ Hy) as Hminy.
      assert (Hpx : 0 < 2 ^ (ex + 1074)) by (apply Z.pow_pos_nonneg; lia).
      assert (Hpy : 0 < 2 ^ (ey + 1074)) by (apply Z.pow_pos_nonneg; lia).
      assert (Hsy : sy = false).
      { destruct sy; [|reflexivity]. unfold cond_Zopp in Uy. nia. }
      assert (Hsx : sx = false).
      { destruct sx; [|reflexivity]. unfold cond_Zopp in Ux. nia. }
      subst sx sy. unfold cond_Zopp in Ux, Uy. subst ux uy.
      assert (Hexp : ey <= ex) by (apply (exponent_le my mx); assumption || lia).
      pose proof (bounded_mantissa my ey Hy) as Hmy.
      pose proof (bounded_fexp _ _ Hy) as [_ Hmaxy].
      assert (Hp : 2 ^ (ex + 1074) = 2 ^ (ex - ey) * 2 ^ (ey + 1074)).
      { rewrite <- Z.pow_add_r by lia. f_equal. lia. }
      destruct (small_mantissa_representable
                  (Zpos mx * 2 ^ (ex - ey) - Zpos my) ey) as [z [Hv Hz]].
      * lia.
      * rewrite Hp in Hle, Htwice. nia.
      * exists z. split; [exact Hv|]. rewrite Hz. f_equal. rewrite Hp. ring.
Qed.

Lemma nearby_difference_is_a_number (x y : float) (ux uy : Z) :
  units x = Some ux -> units y = Some uy ->
  0 <= uy <= ux -> ux <= 2 * uy ->
  exists difference : float, units difference = Some (ux - uy).
Proof.
  unfold units. intros Ux Uy Hle Htwice.
  destruct (nearby_difference_representable (Prim2SF x) (Prim2SF y) ux uy)
    as [z [Hvalid Hz]]; try assumption; try apply Prim2SF_valid.
  exists (SF2Prim z). now rewrite Prim2SF_SF2Prim.
Qed.

End Binary64.

Section DiscountClaims.
Import Exact.
Context {host : Host}.

Lemma toNumber_notANumber (d : NumberOrString) :
  notANumber d = true -> toNumber d = 0%float.
Proof.
  unfold notANumber, toNumber. destruct d as [n|s]; intros ->; reflexivity.
Qed.

Lemma discounted_price_zero_discount (p : number) (d : NumberOrString) :
  toNumber d = 0%float -> calculateDiscountedPrice p d = p.
Proof.
  intros Hd. unfold calculateDiscountedPrice. rewrite Hd.
  change (1 - 0 / 100)%float with 1%float. apply mul_one.
Qed.

Lemma discount_amount_zero_discount (p : number) (d : NumberOrString) :
  isFinite p = true -> toNumber d = 0%float -> calculateDiscountAmount p d = 0%float.
Proof.
  intros Hp Hd. unfold calculateDiscountAmount. rewrite Hd.
  rewrite discounted_price_zero_discount by reflexivity.
  now apply sub_diag_finite.
Qed.

(** [toNumber] never returns NaN, so applying it twice changes nothing:
    the inner call of [calculateDiscountAmount] sees the same discount as
    the outer one. *)
Lemma toNumber_not_NaN (d : NumberOrString) : isNaN (toNumber d) = false.
Proof.
  unfold toNumber. destruct d as [n|s].
  - destruct (isNaN n) eqn:E; [reflexivity | exact E].
  - cbv zeta. destruct (isNaN (parseFloat s)) eqn:E; [reflexivity | exact E].
Qed.

Lemma toNumber_idempotent (d : NumberOrString) :
  toNumber (Num (toNumber d)) = toNumber d.
Proof.
  unfold toNumber at 1. rewrite toNumber_not_NaN. reflexivity.
Qed.

(** C10, as amended. The amount saved is the binary64 difference between
    the price and the discounted price, for every price and discount.
    Whenever the exact difference of the two is itself a binary64 number,
    so that the subtraction does not round, the amount saved is that
    number and the discounted price and the amount saved add up to the
    price exactly. This is so whenever the price is not negative and the
    discounted price lies between half the price and the price. A
    discount that is NaN or non-numeric text counts as 0, and then, for
    every finite price, the discounted price is the price, the amount
    saved is 0, and the two add up to the price. *)
Theorem discount_split (p : number) (d : NumberOrString) :
  let price := calculateDiscountedPrice p d in
  let amount := calculateDiscountAmount p d in
  amount = (p - price)%float
  /\ (forall (up uprice : Z) (difference : number),
        units p = Some up ->
        units price = Some uprice ->
        units difference = Some (up - uprice) ->
        strict_eq amount difference = true
        /\ units amount = Some (up - uprice)
        /\ strict_eq (price + amount)%float p = true)
  /\ (forall up uprice : Z,
        units p = Some up ->
        units price = Some uprice ->
        0 <= uprice <= up -> up <= 2 * uprice ->
        units amount = Some (up - uprice)
        /\ strict_eq (price + amount)%float p = true)
  /\ (notANumber d = true ->
      toNumber d = 0%float
      /\ price = p
      /\ (isFinite p = true ->
          amount = 0%float
          /\ strict_eq price p = true
          /\ strict_eq amount 0%float = true
          /\ strict_eq (price + amount)%float p = true)).
Proof.
  intros price amount.
  assert (Hamount : amount = (p - price)%float).
  { subst amount price. unfold calculateDiscountAmount, calculateDiscountedPrice.
    rewrite toNumber_idempotent. reflexivity. }
  assert (Hexact : forall (up uprice : Z) (difference : number),
            units p = Some up ->
            units price = Some uprice ->
            units difference = Some (up - uprice) ->
            strict_eq amount difference = true
            /\ units amount = Some (up - uprice)
            /\ strict_eq (price + amount)%float p = true).
  { intros up uprice difference Hp Hprice Hdifference.
    assert (Hsub : strict_eq amount difference = true).
    { rewrite Hamount. unfold strict_eq.
      exact (sub_exact p price difference up uprice Hp Hprice Hdifference). }
    assert (Hunits : units amount = Some (up - uprice)).
    { rewrite <- Hdifference. apply eqb_units. exact Hsub. }
    split; [exact Hsub|]. split; [exact Hunits|].
    unfold strict_eq. apply (add_exact price amount p uprice (up - uprice));
      [exact Hprice | exact Hunits |].
    rewrite Hp. f_equal. lia. }
  split; [exact Hamount|]. split; [exact Hexact|]. split.
  { intros up uprice Hp Hprice Hle Htwice.
    destruct (nearby_difference_is_a_number p price up uprice Hp Hprice Hle Htwice)
      as [difference Hdifference].
    destruct (Hexact up uprice difference Hp Hprice Hdifference)
      as (_ & Hunits & Hsum).
    split; assumption. }
  intros Hd. subst price amount.
  pose proof (toNumber_notANumber d Hd) as Hzero.
  pose proof (discounted_price_zero_discount p d Hzero) as Hprice.
  split; [exact Hzero|]. split; [exact Hprice|]. intros Hp.
  pose proof (discount_amount_zero_discount p d Hp Hzero) as Hzeroamount.
  split; [exact Hzeroamount|].
  unfold strict_eq. rewrite Hprice, Hzeroamount. repeat split.
  - now apply eqb_refl_finite.
  - now apply add_zero_finite.
Qed.

End DiscountClaims.

(** C10, as stated, fails: with a price of 49.99 and a discount of 65 the
    discounted price and the amount saved add up to 49.989999999999995. *)
Lemma discount_split_not_exact :
  ~ (forall (host : Host) (p : number) (d : NumberOrString),
       strict_eq
         (calculateDiscountedPrice p d + calculateDiscountAmount p d)%float p
       = true).
Proof.
  intros Hexact.
  specialize (Hexact DigitsHost.host (4999 / 100)%float (Num 65%float)).
  vm_compute in Hexact. discriminate Hexact.
Qed.

(** With an infinite discount the two parts are infinities of opposite
    sign and their sum is NaN. *)
Lemma infinite_discount_sum_is_nan :
  isNaN (calculateDiscountedPrice (host := DigitsHost.host) 100%float (Num infinity)
         + calculateDiscountAmount (host := DigitsHost.host) 100%float (Num infinity))%float
  = true.
Proof. vm_compute. reflexivity. Qed.

(** At a price of 49.99 and a discount of 65 the exact difference between
    the price and the discounted price is not a binary64 number: the
    subtraction rounds there. *)
Example difference_rounds_at_65_percent :
  let p := (4999 / 100)%float in
  let price := calculateDiscountedPrice (host := DigitsHost.host) p (Num 65%float) in
  ~ exists (difference : number) (up uprice : Z),
      Exact.units p = Some up
      /\ Exact.units price = Some uprice
      /\ Exact.units difference = Some (up - uprice).
Proof.
  intros p price (difference & up & uprice & Hp & Hprice & Hdifference).
  pose proof (sub_exact p price difference up uprice Hp Hprice Hdifference) as Hsub.
  apply eqb_units in Hsub. rewrite Hdifference in Hsub.
  assert (Hsum : (price + (p - price) =? p)%float = true).
  { apply (add_exact price (p - price)%float p uprice (up - uprice));
      [exact Hprice | exact Hsub |].
    rewrite Hp. f_equal. lia. }
  vm_compute in Hsum. discriminate Hsum.
Qed.

(** A price of 100 with a discount of 20 percent sent as text: the exact
    difference, 20, is a binary64 number, so the parts are 80 and 20 and
    add up to 100. A price of 49.99 with a discount of 20 percent: the
    discounted price lies between half the price and the price, and the
    parts add up to 49.99. With text that is not a number the discount
    is 0. *)
Lemma discount_split_witness :
  strict_eq
    (calculateDiscountedPrice (host := DigitsHost.host) 100%float (Str "20")
     + calculateDiscountAmount (host := DigitsHost.host) 100%float (Str "20"))%float
    100%float = true
  /\ strict_eq
       (calculateDiscountAmount (host := DigitsHost.host) 100%float (Str "20"))
       20%float = true
  /\ strict_eq
       (calculateDiscountedPrice (host := DigitsHost.host) (4999 / 100)%float
          (Num 20%float)
        + calculateDiscountAmount (host := DigitsHost.host) (4999 / 100)%float
            (Num 20%float))%float
       (4999 / 100)%float = true
  /\ calculateDiscountedPrice (host := DigitsHost.host) 100%float (Str "abc") = 100%float
  /\ calculateDiscountAmount (host := DigitsHost.host) 100%float (Str "abc") = 0%float.
Proof.
  destruct (discount_split (host := DigitsHost.host) 100%float (Str "20"))
    as (_ & Hexact & _).
  destruct (Hexact _ _ 20%float eq_refl eq_refl ltac:(vm_compute; reflexivity))
    as (Hamount & _ & Hsum).
  destruct (discount_split (host := DigitsHost.host) (4999 / 100)%float (Num 20%float))
    as (_ & _ & Hnear & _).
  destruct (Hnear _ _ eq_refl eq_refl
              ltac:(split; apply Z.leb_le; vm_compute; reflexivity)
              ltac:(apply Z.leb_le; vm_compute; reflexivity))
    as (_ & Hsum').
  destruct (discount_split (host := DigitsHost.host) 100%float (Str "abc"))
    as (_ & _ & _ & Hzero).
  destruct (Hzero eq_refl) as (_ & Hprice & Hfinite).
  destruct (Hfinite eq_refl) as (Hzeroamount & _).
  repeat split; assumption.
Defined.

(* ----------------------------------------------------------------- *)
(** ** The statements on concrete data *)

Lemma reward_state_precedence_witness :
  @Date_new DigitsHost.host "" = None
  /\ RenewModal.stateOfView
       (RenewModal.rewardStatus (host := DigitsHost.host) 1500 false false
          (Some [MoreScenario.expiredReward; Scenario.appliedReward]) None)
     = Some RenewModal.Applied.
Proof.
  split; [reflexivity|].
  destruct (reward_state_precedence (host := DigitsHost.host) 1500
              [MoreScenario.expiredReward; Scenario.appliedReward] None eq_refl)
    as (Hview & _).
  rewrite Hview. reflexivity.
Defined.


(** The same cache, evaluated: the list is invalidated by the second
    call and written by the fourth. *)
Example cancelled_list_is_left_valid :
  QueryCache.applyCalls
    (firstn 3 (SubscriptionCache.cancel_onSuccess MoreScenario.cancelledSubscription
                 MoreScenario.cancelVariables))
    (QueryCache.onlyList "client-1" [Scenario.subscription])
    (SubscriptionCache.subscriptionKeys.list "client-1")
  = Some {| QueryCache.data := Some (QueryCache.Subscriptions [Scenario.subscription]);
            QueryCache.isInvalidated := true |}
  /\ QueryCache.applyCalls
       (SubscriptionCache.cancel_onSuccess MoreScenario.cancelledSubscription
          MoreScenario.cancelVariables)
       (QueryCache.onlyList "client-1" [Scenario.subscription])
       (SubscriptionCache.subscriptionKeys.list "client-1")
     = Some {| QueryCache.data :=
                 Some (QueryCache.Subscriptions [MoreScenario.cancelledSubscription]);
               QueryCache.isInvalidated := false |}.
Proof. split; reflexivity. Qed.


Lemma threshold_eligibility_witness :
  canCalculateRewardForRenewal (Some Scenario.monthlyInfo) 20 None = true
  /\ canCalculateRewardForRenewal (Some Scenario.monthlyInfo) 19 None = false.
Proof.
  pose proof (threshold_eligibility (host := DigitsHost.host) None
                Scenario.monthlyInfo {| duration_unit := Some "month" |} "month"
                20 Scenario.activeSubscription Scenario.monthlyPlan
                Scenario.atStart [] eq_refl eq_refl eq_refl eq_refl)
    as (_ & Hat & Hbelow & _).
  split; assumption.
Defined.

Lemma ineligible_plan_not_applicable_witness :
  isPlanEligibleForRewards "week" (Some DEFAULT_REWARD_CONFIG) = false
  /\ RewardProgress.progress (host := DigitsHost.host) DEFAULT_REWARD_CONFIG
       (Some Scenario.activeSubscription)
       (Some {| RewardProgress.duration_unit := "week" |})
       (Some [Scenario.atStart; Scenario.atEnd]) = None.
Proof.
  assert (Hnot : ~ In "week" (RewardConfig.eligible_plan_units DEFAULT_REWARD_CONFIG)).
  { simpl. intros [E|[]]. discriminate E. }
  destruct (ineligible_plan_not_applicable (host := DigitsHost.host)
              DEFAULT_REWARD_CONFIG "week" Hnot) as (Hunit & Hprogress & _).
  split; [exact Hunit | apply Hprogress].
Defined.

(** The membership test is an exact match: a unit that differs from an
    eligible one in case only is not eligible. *)
Example eligible_unit_is_case_sensitive :
  isPlanEligibleForRewards "month" (Some DEFAULT_REWARD_CONFIG) = true
  /\ isPlanEligibleForRewards "Month" (Some DEFAULT_REWARD_CONFIG) = false.
Proof. split; reflexivity. Qed.

(** The cycle from 1000 to 2000: check-ins at both ends are counted, the
    ones just outside are not. *)
Example cycle_boundaries :
  calculateCycleAttendances (host := DigitsHost.host)
    (Some [Scenario.before; Scenario.atStart; Scenario.atEnd; Scenario.after])
    "1000" "2000" = 2
  /\ calculateCycleAttendances (host := DigitsHost.host)
       (Some [Scenario.atStart]) "1000" "2000" = 1
  /\ calculateCycleAttendances (host := DigitsHost.host)
       (Some [Scenario.atEnd]) "1000" "2000" = 1
  /\ calculateCycleAttendances (host := DigitsHost.host)
       (Some [Scenario.before]) "1000" "2000" = 0
  /\ calculateCycleAttendances (host := DigitsHost.host)
       (Some [Scenario.after]) "1000" "2000" = 0.
Proof. vm_compute. repeat split. Qed.

(** An applied reward next to a fresh calculation that says eligible:
    the panel shows Applied. *)
Example applied_takes_precedence :
  RenewModal.rewardStatus (host := DigitsHost.host) 1500 false false
    (Some [Scenario.appliedReward])
    (Some {| RewardEligibilityResponse.eligible := true;
             RewardEligibilityResponse.attendance_count := 25 |})
  = RenewModal.applied "La recompensa ya fue aplicada".
Proof. reflexivity. Qed.

(** Renewal gating with a policy of seven days: at ten days remaining
    the confirm button is disabled, at five it is not. *)
Example renewal_gating_by_days :
  let tenDays :=
    {| Subscription.id := "sub-3"; Subscription.client_id := "client-1";
       Subscription.plan_id := "10"; Subscription.start_date := "1000";
       Subscription.end_date := "2000";
       Subscription.status := SubscriptionStatus.ACTIVE;
       Subscription.final_price := None |} in
  let idle :=
    {| RenewModal.isSubmitting := false; RenewModal.error := None;
       RenewModal.selectedReward := None;
       RenewModal.hasCalculatedReward := false |} in
  RenewModal.confirmDisabled idle false
    (RenewModal.renewalCheck (filters := DigitsHost.filters) (Some tenDays)) = true
  /\ RenewModal.confirmDisabled idle false
       (RenewModal.renewalCheck (filters := DigitsHost.filters)
          (Some Scenario.subscription)) = false.
Proof. split; reflexivity. Qed.

(* ================================================================= *)
(** * Further properties *)

(* ----------------------------------------------------------------- *)
(** ** Query keys and the cache handlers of the other mutations *)

Section MutationProperties.
Import SubscriptionCache SubscriptionMutations.

Lemma keyMatches_refl (k : QueryKey) : keyMatches k k = true.
Proof.
  induction k as [|x k IH]; [reflexivity|].
  simpl. now rewrite String.eqb_refl.
Qed.

Lemma keyMatches_app (k rest : QueryKey) :
  keyMatches k (k ++ rest)%list = true.
Proof.
  induction k as [|x k IH]; [reflexivity|].
  simpl. now rewrite String.eqb_refl.
Qed.

Lemma keyMatches_prefix (filter key : QueryKey) :
  keyMatches filter key = true <-> exists rest, key = (filter ++ rest)%list.
Proof.
  revert key. induction filter as [|f filter IH]; intros key.
  - split; [intros _; now exists key | reflexivity].
  - destruct key as [|k key]; simpl.
    + split; [discriminate | intros [rest Hrest]; discriminate].
    + rewrite andb_true_iff, String.eqb_eq, IH. split.
      * intros [-> [rest ->]]. now exists rest.
      * intros [rest [= -> ->]]. split; [reflexivity | now exists rest].
Qed.


(** X2. Invalidating [subscriptionKeys.all()], as the handlers of the
    bulk expire and activate mutations do, reaches every key the factory
    makes for subscription queries and none it makes for payment queries:
    payments and payment statistics are not refreshed by a bulk
    operation. *)
Theorem bulk_invalidation_reach (key : QueryKey) :
  invalidated bulk_onSuccess = [subscriptionKeys.all]
  /\ written bulk_onSuccess = []
  /\ (SubscriptionKey key -> covered (invalidated bulk_onSuccess) key = true)
  /\ (PaymentKey key -> covered (invalidated bulk_onSuccess) key = false).
Proof.
  split; [reflexivity|]. split; [reflexivity|]. split.
  - intros Hk. destruct Hk; reflexivity.
  - intros Hk. destruct Hk; reflexivity.
Qed.

Lemma id_present_existsb (id : string) (l : list Subscription.t) :
  existsb (fun s => String.eqb (Subscription.id s) id) l = true
  <-> In id (map Subscription.id l).
Proof.
  rewrite existsb_exists, in_map_iff. split.
  - intros [s [Hin Heq]]. apply String.eqb_eq in Heq. now exists s.
  - intros [s [Heq Hin]]. exists s. split; [assumption|].
    now apply String.eqb_eq.
Qed.

(** X3. The optimistic update of the list cache after a subscription is
    created keeps the ids of the list free of repetition: a record whose
    id is already cached is not added again (the cached list is kept as it
    is), a new one is put in front, and doing the update twice is the same
    as doing it once. *)
Theorem create_updater_adds_once (data : Subscription.t) (old : list Subscription.t) :
  let ids := map Subscription.id in
  In (Subscription.id data) (ids (prependNew data (Some old)))
  /\ (NoDup (ids old) -> NoDup (ids (prependNew data (Some old))))
  /\ (In (Subscription.id data) (ids old) -> prependNew data (Some old) = old)
  /\ (~ In (Subscription.id data) (ids old) ->
      prependNew data (Some old) = data :: old)
  /\ prependNew data (Some (prependNew data (Some old))) = prependNew data (Some old)
  /\ prependNew data None = [data].
Proof.
  intros ids. unfold prependNew.
  destruct (existsb _ old) eqn:E.
  - pose proof (proj1 (id_present_existsb _ _) E) as Hin.
    rewrite E. repeat split; tauto.
  - assert (Hnot : ~ In (Subscription.id data) (ids old)).
    { intros Hin. apply id_present_existsb in Hin.
      rewrite Hin in E. discriminate. }
    cbn [existsb]. rewrite String.eqb_refl. cbn [orb].
    repeat split; try tauto.
    + left. reflexivity.
    + intros Hnd. subst ids. cbn [map]. now constructor.
Qed.

Lemma replaceById_ids (sid : string) (data : Subscription.t)
  (old : list Subscription.t) :
  Subscription.id data = sid ->
  map Subscription.id (replaceById sid data (Some old)) = map Subscription.id old.
Proof.
  intros Hid. unfold replaceById. rewrite map_map. apply map_ext_in.
  intros s _. destruct (String.eqb (Subscription.id s) sid) eqn:E; [|reflexivity].
  apply String.eqb_eq in E. congruence.
Qed.

(** X4. The optimistic update of the list cache after a renewal or a
    cancellation: a list in which no entry has the id of the subscription
    is left as it is; doing the update twice is the same as doing it once;
    when the returned record carries the id it replaces, the ids of the
    list and their order are unchanged; when it carries another id (the
    renewal made a new subscription) no entry with the old id is left. *)
Theorem replace_updater_behaviour
  (sid : string) (data : Subscription.t) (old : list Subscription.t) :
  let ids := map Subscription.id in
  (~ In sid (ids old) -> replaceById sid data (Some old) = old)
  /\ replaceById sid data (Some (replaceById sid data (Some old)))
     = replaceById sid data (Some old)
  /\ (Subscription.id data = sid ->
      ids (replaceById sid data (Some old)) = ids old)
  /\ (Subscription.id data <> sid ->
      ~ In sid (ids (replaceById sid data (Some old))))
  /\ (forall s, In s (replaceById sid data (Some old)) ->
        s = data \/ (In s old /\ Subscription.id s <> sid)).
Proof.
  intros ids. split; [|split; [|split; [|split]]].
  - intros Hnot. unfold replaceById.
    rewrite <- (map_id old) at 2. apply map_ext_in.
    intros s Hin. destruct (String.eqb (Subscription.id s) sid) eqn:E; [|reflexivity].
    apply String.eqb_eq in E. exfalso. apply Hnot. subst ids.
    apply in_map_iff. now exists s.
  - unfold replaceById. rewrite map_map. apply map_ext.
    intros s. destruct (String.eqb (Subscription.id s) sid) eqn:E.
    + destruct (String.eqb (Subscription.id data) sid); reflexivity.
    + rewrite E. reflexivity.
  - apply replaceById_ids.
  - intros Hne Hin. subst ids. unfold replaceById in Hin.
    rewrite map_map in Hin. apply in_map_iff in Hin as [s [Heq _]].
    destruct (String.eqb (Subscription.id s) sid) eqn:E.
    + contradiction.
    + apply String.eqb_neq in E. contradiction.
  - intros s Hin. unfold replaceById in Hin.
    apply in_map_iff in Hin as [s0 [Heq Hin]].
    destruct (String.eqb (Subscription.id s0) sid) eqn:E.
    + left. now symmetry.
    + right. subst s0. split; [assumption | now apply String.eqb_neq].
Qed.

Lemma keyMatches_list_other (a b : string) :
  a <> b ->
  keyMatches (subscriptionKeys.list a) (subscriptionKeys.list b) = false
  /\ keyMatches (subscriptionKeys.list a) (subscriptionKeys.active b) = false
  /\ keyMatches (subscriptionKeys.active a) (subscriptionKeys.list b) = false
  /\ keyMatches (subscriptionKeys.active a) (subscriptionKeys.active b) = false.
Proof.
  intros Hne. apply String.eqb_neq in Hne.
  cbn. rewrite Hne. repeat split; reflexivity.
Qed.

(** X5. Cancelling does to the cache what renewing does and, after it,
    invalidates the payment statistics of the subscription. Each of the
    two handlers writes under the detail key of the subscription and the
    list key of the client only; the invalidations of each reach the list
    and the active subscription of that client, and reach neither the
    list or the active subscription of another client, nor any detail
    entry, nor any payments entry. Renewing reaches no payment
    statistics; cancelling reaches those of the cancelled subscription
    and of no other. *)
Theorem cancel_extends_renew
  (data : Subscription.t) (variables : CancelVariables)
  (other id : string) :
  let client := clientId variables in
  let sid := subscriptionId variables in
  let renew := renew_onSuccess data variables in
  let cancel := cancel_onSuccess data variables in
  cancel = (renew ++ [invalidateQueries (subscriptionKeys.paymentStats sid)])%list
  /\ written renew = [subscriptionKeys.detail sid; subscriptionKeys.list client]
  /\ written cancel = [subscriptionKeys.detail sid; subscriptionKeys.list client]
  /\ covered (invalidated renew) (subscriptionKeys.list client) = true
  /\ covered (invalidated cancel) (subscriptionKeys.list client) = true
  /\ covered (invalidated renew) (subscriptionKeys.active client) = true
  /\ covered (invalidated cancel) (subscriptionKeys.active client) = true
  /\ covered (invalidated renew) (subscriptionKeys.detail id) = false
  /\ covered (invalidated cancel) (subscriptionKeys.detail id) = false
  /\ covered (invalidated renew) (subscriptionKeys.payments id) = false
  /\ covered (invalidated cancel) (subscriptionKeys.payments id) = false
  /\ covered (invalidated renew) (subscriptionKeys.paymentStats id) = false
  /\ (covered (invalidated cancel) (subscriptionKeys.paymentStats id) = true
      <-> id = sid)
  /\ (other <> client ->
      covered (invalidated renew) (subscriptionKeys.list other) = false
      /\ covered (invalidated renew) (subscriptionKeys.active other) = false
      /\ covered (invalidated cancel) (subscriptionKeys.list other) = false
      /\ covered (invalidated cancel) (subscriptionKeys.active other) = false).
Proof.
  intros client sid renew cancel. subst renew cancel.
  split; [reflexivity|]. split; [reflexivity|]. split; [reflexivity|].
  split; [cbn; now rewrite String.eqb_refl|].
  split; [cbn; now rewrite String.eqb_refl|].
  split; [cbn; now rewrite String.eqb_refl|].
  split; [cbn; now rewrite String.eqb_refl|].
  split; [reflexivity|]. split; [reflexivity|].
  split; [reflexivity|]. split; [reflexivity|]. split; [reflexivity|].
  split.
  { unfold cancel_onSuccess, invalidated, covered.
    cbn. fold sid. rewrite !andb_true_r, !orb_false_r.
    rewrite String.eqb_eq. split; intros H; now symmetry. }
  intros Hne.
  assert (Hne' : client <> other) by congruence.
  destruct (keyMatches_list_other client other Hne') as (H1 & H2 & H3 & H4).
  unfold renew_onSuccess, cancel_onSuccess, invalidated, covered.
  cbn [flat_map app existsb].
  fold client. rewrite H1, H2, H3, H4. repeat split; reflexivity.
Qed.

Lemma covered_lists_of_client (clientId : option string) (key : QueryKey) :
  covered (invalidateForClient clientId) key = true ->
  keyMatches subscriptionKeys.lists key = true.
Proof.
  unfold invalidateForClient, covered.
  destruct (truthy clientId) as [c|]; cbn [existsb]; rewrite ?orb_false_r.
  - rewrite orb_true_iff, !keyMatches_prefix.
    intros [[rest ->] | [rest ->]].
    + exists (c :: rest). reflexivity.
    + exists (c :: "active" :: rest). reflexivity.
  - trivial.
Qed.

(** X6. Update and delete invalidate the list and the active
    subscription of the client when its id is given, and every list
    otherwise; an empty client id counts as none. Whatever the targeted
    invalidation reaches, the fallback reaches too. Update writes under
    the detail key only, and delete writes no data: it removes the detail
    entry and invalidates. *)
Theorem update_delete_invalidation
  (data : Subscription.t) (variables : ById.Variables) (key : QueryKey) :
  let sid := ById.subscriptionId variables in
  let filters := invalidateForClient (ById.clientId variables) in
  written (update_onSuccess data variables) = [subscriptionKeys.detail sid]
  /\ invalidated (update_onSuccess data variables) = filters
  /\ delete_onSuccess variables
     = removeQueries (subscriptionKeys.detail sid)
       :: map (fun k => call (invalidateQueries k)) filters
  /\ invalidateForClient (Some "") = invalidateForClient None
  /\ invalidateForClient None = [subscriptionKeys.lists]
  /\ (covered filters key = true ->
      covered (invalidateForClient None) key = true)
  /\ (forall c, truthy (ById.clientId variables) = Some c ->
        covered filters (subscriptionKeys.list c) = true
        /\ covered filters (subscriptionKeys.active c) = true).
Proof.
  intros sid filters. subst filters.
  split.
  { unfold update_onSuccess, written. cbn [flat_map app].
    induction (invalidateForClient _) as [|k l IH]; [reflexivity | exact IH]. }
  split.
  { unfold update_onSuccess, invalidated. cbn [flat_map app].
    induction (invalidateForClient _) as [|k l IH]; [reflexivity|].
    cbn [map flat_map app]. now f_equal. }
  split; [reflexivity|]. split; [reflexivity|]. split; [reflexivity|]. split.
  - intros Hcov. apply covered_lists_of_client in Hcov.
    unfold covered, invalidateForClient. cbn [truthy existsb].
    now rewrite Hcov.
  - intros c Hc. unfold invalidateForClient. rewrite Hc.
    unfold covered. cbn [existsb]. rewrite keyMatches_refl.
    split; [reflexivity|].
    unfold subscriptionKeys.active. rewrite keyMatches_app. reflexivity.
Qed.

(** X7. Refreshing the subscriptions tab of the client page invalidates
    every key the factory makes, for subscriptions and for payments
    alike; a tab that is neither the subscriptions nor the attendance tab
    refreshes the client and its dashboard. *)
Theorem subscriptions_tab_refresh_reach
  (attendanceClientKey clientDetailKey clientDashboardKey : QueryKey)
  (tab : string) (key : QueryKey) :
  let refresh :=
    getRefreshQueriesForTab attendanceClientKey clientDetailKey clientDashboardKey in
  (SubscriptionKey key \/ PaymentKey key ->
   covered (refresh "subscriptions") key = true)
  /\ refresh "attendance" = [attendanceClientKey]
  /\ (tab <> "subscriptions" -> tab <> "attendance" ->
      refresh tab = [clientDetailKey; clientDashboardKey]).
Proof.
  intros refresh. split; [|split].
  - intros [Hk | Hk]; destruct Hk; reflexivity.
  - reflexivity.
  - intros Hs Ha. subst refresh. unfold getRefreshQueriesForTab.
    apply String.eqb_neq in Hs, Ha. now rewrite Hs, Ha.
Qed.

End MutationProperties.

(* ----------------------------------------------------------------- *)
(** ** The renewal dialog *)

Section DialogProperties.
Import RenewModal RewardCalculation.
Context {host : Host}.

(** X8. However the two calls settle, a confirmation on a subscription
    issues exactly one renewal call, and once the handler has run the
    submitting flag is down again, so the confirm button is never left
    disabled by a failure. *)
Theorem submitting_flag_released
  (subscription : Subscription.t) (st : State) (w : World) :
  let trace := run w (handleConfirm (Some subscription) st) in
  renewCalls trace = 1%nat
  /\ isSubmitting (finalState st trace) = false
  /\ hasCalculatedReward (finalState st trace) = hasCalculatedReward st.
Proof.
  intros trace. subst trace. rewrite run_handleConfirm.
  destruct (onConfirm w _) as [newId|err]; [|repeat split].
  destruct (selectedReward st); [|repeat split].
  destruct (truthy newId); [|repeat split].
  destruct (resolveDiscount _); [|repeat split].
  destruct (applyReward w _ _ _); repeat split.
Qed.

(** X9. When the renewal call fails the dialog stays open: the handler
    does not call [onClose] and does not start apply-reward, it shows the
    message of the error (a fixed text when what was thrown is not an
    [Error]), keeps the selected reward, and lowers the submitting flag. *)
Theorem renewal_failure_keeps_dialog_open
  (subscription : Subscription.t) (st : State) (w : World) (err : Thrown)
  (Hfail : onConfirm w (resolveDiscount (selectedReward st)) = Rejected err) :
  let trace := run w (handleConfirm (Some subscription) st) in
  applyCalls trace = 0%nat
  /\ List.length (filter isClose trace) = 0%nat
  /\ RenewModal.error (finalState st trace)
     = Some match err with
            | ErrorInstance m => m
            | OtherValue => "Error al renovar la suscripción"
            end
  /\ selectedReward (finalState st trace) = selectedReward st
  /\ isSubmitting (finalState st trace) = false.
Proof.
  intros trace. subst trace. rewrite run_handleConfirm, Hfail.
  repeat split.
Qed.

(** X10. When the renewal call succeeds the handler closes the dialog
    exactly once, whether or not a reward was applied and whether or not
    applying it failed; it leaves no selected reward, no error and the
    submitting flag down. *)
Theorem renewal_success_closes_once
  (subscription : Subscription.t) (st : State) (w : World)
  (newSubscriptionId : option string)
  (Hok : onConfirm w (resolveDiscount (selectedReward st))
         = Resolved newSubscriptionId) :
  let trace := run w (handleConfirm (Some subscription) st) in
  List.length (filter isClose trace) = 1%nat
  /\ selectedReward (finalState st trace) = None
  /\ RenewModal.error (finalState st trace) = None
  /\ isSubmitting (finalState st trace) = false.
Proof.
  intros trace. subst trace. rewrite run_handleConfirm, Hok.
  destruct (selectedReward st); [|repeat split].
  destruct (truthy newSubscriptionId); [|repeat split].
  destruct (resolveDiscount _); [|repeat split].
  destruct (applyReward w _ _ _); repeat split.
Qed.

Lemma filter_first {A : Type} (f : A -> bool) (l : list A) (x : A) (rest : list A) :
  filter f l = x :: rest ->
  exists pre post,
    l = (pre ++ x :: post)%list /\ f x = true /\ forall y, In y pre -> f y = false.
Proof.
  induction l as [|a l IH]; [discriminate|].
  simpl. destruct (f a) eqn:E.
  - intros [= -> <-]. exists [], l. repeat split; [assumption | intros y []].
  - intros Hf. destruct (IH Hf) as (pre & post & -> & Hx & Hpre).
    exists (a :: pre), post. repeat split; [assumption|].
    intros y [<- | Hy]; [assumption | now apply Hpre].
Qed.

(** X12. The reward the panel shows as calculated is one of the fetched
    rewards, it is pending and not expired, and it is the first such
    reward of the list. *)
Theorem calculated_reward_is_first_available
  (now : Z) (isLoading error : bool) (rewards : option (list Reward.t))
  (lastCalculationResult : option RewardEligibilityResponse.t)
  (reward : Reward.t) (message : string)
  (Hview : rewardStatus now isLoading error rewards lastCalculationResult
           = calculated reward message) :
  exists fetched pre post,
    rewards = Some fetched
    /\ fetched = (pre ++ reward :: post)%list
    /\ Reward.status reward = RewardStatus.PENDING
    /\ isRewardExpired now reward = false
    /\ (forall r, In r pre -> isRewardAvailable now r = false)
    /\ message = "¡Recompensa obtenida! "
                 ++ interpolate (Reward.discount_percentage reward)
                 ++ "% de descuento".
Proof.
  unfold rewardStatus in Hview.
  destruct isLoading; [discriminate|]. destruct error; [discriminate|].
  destruct rewards as [fetched|].
  2:{ cbn in Hview. destruct lastCalculationResult as [result|];
        [destruct (RewardEligibilityResponse.eligible result)|];
        discriminate. }
  unfold filterAvailableRewards in Hview.
  destruct (filter (isRewardAvailable now) fetched) as [|r l] eqn:Hf.
  { destruct (filter (fun r => RewardStatus.eqb (Reward.status r) RewardStatus.APPLIED)
                fetched);
      [destruct lastCalculationResult as [result|];
         [destruct (RewardEligibilityResponse.eligible result)|]|];
      cbn in Hview; discriminate. }
  injection Hview as -> <-.
  destruct (filter_first _ _ _ _ Hf) as (pre & post & Hsplit & Hav & Hpre).
  exists fetched, pre, post. unfold isRewardAvailable in Hav.
  apply andb_true_iff in Hav as [Hst Hexp].
  repeat split; try assumption.
  - destruct (Reward.status reward); try discriminate. reflexivity.
  - now apply negb_true_iff in Hexp.
Qed.

(** X13. The dialog and the discount helper read a reward's discount
    the same way: the dialog sends no discount with the renewal exactly
    when the helper would count the discount as 0 for not being a number,
    and a discount it does send is the helper's reading of it. *)
Theorem dialog_discount_agrees_with_helper (reward : Reward.t) :
  (resolveDiscount (Some reward) = None
   <-> notANumber (Reward.discount_percentage reward) = true)
  /\ (forall discount,
        resolveDiscount (Some reward) = Some discount ->
        toNumber (Reward.discount_percentage reward) = discount
        /\ isNaN discount = false).
Proof.
  unfold resolveDiscount, notANumber, toNumber.
  destruct (Reward.discount_percentage reward) as [n|s]; cbv zeta.
  - destruct (isNaN n) eqn:E.
    + split; [split; reflexivity | intros d Hd; discriminate Hd].
    + split; [split; discriminate|].
      intros d [= <-]. split; [reflexivity | exact E].
  - destruct (isNaN (parseFloat s)) eqn:E.
    + split; [split; reflexivity | intros d Hd; discriminate Hd].
    + split; [split; discriminate|].
      intros d [= <-]. split; [reflexivity | exact E].
Qed.

(** X14. One click on the calculate button of the reward panel, for a
    subscription id that is not empty, sends one eligibility request and
    shows one toast: a success toast when the result is eligible, an
    informative one when it is not, an error toast when the request
    fails. The result is stored when the request succeeds. An eligible
    result refetches the rewards and notifies the dialog, twice each (once
    from the result callback, once from the success callback); any other
    outcome does neither. *)
Theorem calculate_click_effects
  (config : RewardConfig.t) (subscriptionId : string)
  (settled : Settled RewardEligibilityResponse.t ApiError)
  (Hid : subscriptionId <> "") :
  let trace := panelCalculate config subscriptionId true settled in
  count isRequest trace = 1%nat
  /\ count isToast trace = 1%nat
  /\ match settled with
     | Fulfilled result =>
       storedResults trace = [result]
       /\ if RewardEligibilityResponse.eligible result
          then map type (toasts trace) = [success]
               /\ count isRefetch trace = 2%nat
               /\ count isNotify trace = 2%nat
          else map type (toasts trace) = [info]
               /\ count isRefetch trace = 0%nat
               /\ count isNotify trace = 0%nat
     | Failed err =>
       storedResults trace = []
       /\ map type (toasts trace) = [error]
       /\ map message (toasts trace)
          = [firstTruthy (detail err) (errorMessage err)
               "Error al calcular la recompensa"]
       /\ count isRefetch trace = 0%nat
       /\ count isNotify trace = 0%nat
     end.
Proof.
  intros trace. subst trace. unfold panelCalculate, handleCalculate.
  apply String.eqb_neq in Hid. rewrite Hid.
  destruct settled as [result|err].
  - unfold handleCalculationResult.
    destruct (RewardEligibilityResponse.eligible result); repeat split.
  - repeat split.
Qed.

End DialogProperties.

(* ----------------------------------------------------------------- *)
(** ** Reward helpers: expiry and availability *)

Section ExpiryProperties.
Context {host : Host}.

Lemma truthy_Some_iff (s : option string) (v : string) :
  truthy s = Some v <-> s = Some v /\ v <> "".
Proof.
  unfold truthy. destruct s as [u|].
  - destruct (String.eqb u "") eqn:E.
    + apply String.eqb_eq in E. subst u. split; [discriminate|].
      intros [[= <-] Hne]. contradiction.
    + apply String.eqb_neq in E. split.
      * intros [= <-]. split; [reflexivity | assumption].
      * intros [[= <-] _]. reflexivity.
  - split; [discriminate | intros [Hs _]; discriminate].
Qed.

Lemma isRewardExpired_true (now : Z) (reward : Reward.t) :
  isRewardExpired now reward = true
  <-> exists expires_at t,
        Reward.expires_at reward = Some expires_at
        /\ expires_at <> ""
        /\ Date_new expires_at = Some t
        /\ t < now.
Proof.
  unfold isRewardExpired.
  destruct (truthy (Reward.expires_at reward)) as [s|] eqn:E.
  - apply truthy_Some_iff in E as [Hs Hne]. unfold Date_lt.
    destruct (Date_new s) as [t|] eqn:Ht.
    + rewrite Z.ltb_lt. split.
      * intros Hlt. now exists s, t.
      * intros (s' & t' & Hs' & _ & Ht' & Hlt).
        rewrite Hs in Hs'. injection Hs' as <-.
        rewrite Ht in Ht'. injection Ht' as <-. exact Hlt.
    + split; [discriminate|].
      intros (s' & t' & Hs' & _ & Ht' & _).
      rewrite Hs in Hs'. injection Hs' as <-.
      rewrite Ht in Ht'. discriminate.
  - split; [discriminate|].
    intros (s' & t' & Hs' & Hne & _).
    assert (Ht : truthy (Reward.expires_at reward) = Some s')
      by (apply truthy_Some_iff; split; assumption).
    rewrite E in Ht. discriminate.
Qed.

(** X15. A reward is expired exactly when it has an expiry text that is
    not empty, that text is a valid date, and that date is strictly before
    the present: a reward with no expiry, an empty one or one that is not
    a date never expires, and a reward is still valid at the very instant
    of its expiry. *)
Theorem reward_expired_iff (now : Z) (reward : Reward.t) :
  (isRewardExpired now reward = true
   <-> exists expires_at t,
         Reward.expires_at reward = Some expires_at
         /\ expires_at <> ""
         /\ Date_new expires_at = Some t
         /\ t < now)
  /\ (Reward.expires_at reward = None -> isRewardExpired now reward = false)
  /\ (Reward.expires_at reward = Some "" -> isRewardExpired now reward = false)
  /\ (forall expires_at,
        Reward.expires_at reward = Some expires_at ->
        Date_new expires_at = None -> isRewardExpired now reward = false)
  /\ (forall expires_at,
        Reward.expires_at reward = Some expires_at ->
        Date_new expires_at = Some now -> isRewardExpired now reward = false).
Proof.
  split; [apply isRewardExpired_true|].
  unfold isRewardExpired. repeat split.
  - intros ->. reflexivity.
  - intros ->. reflexivity.
  - intros s -> Hd. cbn [truthy]. destruct (String.eqb s ""); [reflexivity|].
    rewrite Hd. reflexivity.
  - intros s -> Hd. cbn [truthy]. destruct (String.eqb s ""); [reflexivity|].
    rewrite Hd. cbn. apply Z.ltb_irrefl.
Qed.

Lemma reward_expired_later (now later : Z) (reward : Reward.t) :
  now <= later ->
  isRewardExpired now reward = true -> isRewardExpired later reward = true.
Proof.
  intros Hle Hexp. apply isRewardExpired_true in Hexp.
  destruct Hexp as (s & t & Hs & Hne & Ht & Hlt).
  unfold isRewardExpired.
  replace (truthy (Reward.expires_at reward)) with (Some s)
    by (symmetry; apply truthy_Some_iff; split; assumption).
  rewrite Ht. apply Z.ltb_lt. lia.
Qed.

(** X16. Time only takes rewards away: a reward that is expired stays
    expired at every later time, and the rewards available at a later time
    were all available before, in the same order. *)
Theorem available_rewards_shrink_with_time
  (now later : Z) (rewards : list Reward.t)
  (Htime : now <= later) :
  (forall r, isRewardExpired now r = true -> isRewardExpired later r = true)
  /\ filterAvailableRewards later rewards
     = filterAvailableRewards later (filterAvailableRewards now rewards)
  /\ (List.length (filterAvailableRewards later rewards)
      <= List.length (filterAvailableRewards now rewards))%nat.
Proof.
  assert (Himp : forall r, isRewardAvailable later r = true ->
                           isRewardAvailable now r = true).
  { intros r. unfold isRewardAvailable. rewrite !andb_true_iff, !negb_true_iff.
    intros [Hst Hexp]. split; [assumption|].
    destruct (isRewardExpired now r) eqn:E; [|reflexivity].
    apply (reward_expired_later now later r Htime) in E. congruence. }
  assert (Heq : filterAvailableRewards later rewards
                = filterAvailableRewards later (filterAvailableRewards now rewards)).
  { unfold filterAvailableRewards.
    induction rewards as [|r l IH]; [reflexivity|].
    simpl. destruct (isRewardAvailable later r) eqn:El.
    - rewrite (Himp r El). simpl. rewrite El. now f_equal.
    - destruct (isRewardAvailable now r); [simpl; rewrite El|]; exact IH. }
  split; [intros r; now apply reward_expired_later|].
  split; [exact Heq|].
  rewrite Heq. unfold filterAvailableRewards at 1. apply filter_length_le.
Qed.


End ExpiryProperties.

(* ----------------------------------------------------------------- *)
(** ** Order of binary64 numbers *)

Section Binary64Order.

Lemma SFcompare_antisym (x y : spec_float) :
  SFcompare y x = option_map CompOpp (SFcompare x y).
Proof.
  destruct x as [sx|sx| |sx mx ex], y as [sy|sy| |sy my ey];
    try reflexivity;
    try (destruct sx; reflexivity);
    try (destruct sy; reflexivity);
    try (destruct sx, sy; reflexivity).
  cbn [SFcompare option_map].
  destruct sx, sy; try reflexivity;
    rewrite (Z.compare_antisym ex ey); destruct (ex ?= ey); cbn [CompOpp];
    try reflexivity;
    rewrite (Pos.compare_cont_antisym mx my Eq); reflexivity.
Qed.

Lemma SFcompare_defined (x y : spec_float) :
  x <> S754_nan -> y <> S754_nan -> exists c, SFcompare x y = Some c.
Proof.
  intros Hx Hy.
  destruct x as [sx|sx| |sx mx ex], y as [sy|sy| |sy my ey];
    try contradiction; cbn [SFcompare]; eexists; reflexivity.
Qed.

Lemma is_nan_spec (x : float) :
  is_nan x = false <-> Prim2SF x <> S754_nan.
Proof.
  unfold is_nan. rewrite eqb_spec. split.
  - intros Hn Hx. rewrite Hx in Hn. discriminate.
  - intros Hx. now rewrite SFeqb_refl.
Qed.

(** A comparison that holds has two numbers as its operands. *)
Lemma leb_not_nan (x y : float) :
  (x <=? y)%float = true -> is_nan x = false /\ is_nan y = false.
Proof.
  rewrite leb_spec, !is_nan_spec. unfold SFleb. intros Hle.
  split; intros Hn; rewrite Hn in Hle;
    [|destruct (Prim2SF x)]; discriminate.
Qed.

Lemma leb_ltb_false (x y : float) :
  (x <=? y)%float = true -> (y <? x)%float = false.
Proof.
  rewrite leb_spec, ltb_spec. unfold SFleb, SFltb.
  rewrite (SFcompare_antisym (Prim2SF x) (Prim2SF y)).
  destruct (SFcompare (Prim2SF x) (Prim2SF y)) as [[]|];
    cbn; intros H; try discriminate; reflexivity.
Qed.

Lemma not_ltb_leb (x y : float) :
  is_nan x = false -> is_nan y = false ->
  (y <? x)%float = false -> (x <=? y)%float = true.
Proof.
  rewrite !is_nan_spec, leb_spec, ltb_spec. unfold SFleb, SFltb.
  intros Hx Hy. rewrite (SFcompare_antisym (Prim2SF x) (Prim2SF y)).
  destruct (SFcompare_defined _ _ Hx Hy) as [c ->].
  destruct c; cbn; intros H; try discriminate; reflexivity.
Qed.

(** A number that is at least the least discount is not negative. *)
Lemma min_discount_not_negative (x : float) :
  (RewardValidation.MIN_DISCOUNT <=? x)%float = true -> (x <? 0)%float = false.
Proof.
  rewrite leb_spec, ltb_spec.
  change (Prim2SF 0) with (S754_zero false).
  set (c := Prim2SF RewardValidation.MIN_DISCOUNT). vm_compute in c. subst c.
  destruct (Prim2SF x) as [s|s| |s m e]; try discriminate;
    destruct s; try discriminate; reflexivity.
Qed.

End Binary64Order.

(* ----------------------------------------------------------------- *)
(** ** Reward helpers: discounts and prices *)

Section ValidationProperties.
Import RewardValidation.
Context {host : Host} {text : Text}.

(** X17. A discount that is not a number is not a valid discount
    percentage (it is read as 0, below the least discount of 0.01), and a
    number the validity check accepts passes the discount checks of
    [validateRewardApplyInput]: with ids that are not blank the input is
    accepted. *)
Theorem valid_discount_passes_validation
  (percentage : NumberOrString) (n : number) (rewardId sid : string) :
  (notANumber percentage = true -> isValidDiscountPercentage percentage = false)
  /\ (isValidDiscountPercentage (Num n) = true ->
      trim rewardId <> "" -> rewardId <> "" ->
      trim sid <> "" -> sid <> "" ->
      validateRewardApplyInput rewardId
        (Some {| subscription_id := Some sid; discount_percentage := Some n |})
      = None).
Proof.
  split.
  - intros Hnan. unfold isValidDiscountPercentage.
    rewrite (toNumber_notANumber _ Hnan). reflexivity.
  - unfold isValidDiscountPercentage, toNumber.
    intros Hvalid Hr1 Hr2 Hs1 Hs2.
    destruct (isNaN n) eqn:Hn; [discriminate Hvalid|].
    apply andb_true_iff in Hvalid as [Hmin Hmax].
    unfold validateRewardApplyInput.
    apply String.eqb_neq in Hr1, Hr2, Hs1, Hs2.
    rewrite Hr1, Hr2. cbn [orb truthy subscription_id discount_percentage].
    rewrite Hs2, Hs1, Hn.
    rewrite (min_discount_not_negative n Hmin).
    unfold MAX_DISCOUNT in Hmax. rewrite (leb_ltb_false n 100 Hmax).
    reflexivity.
Qed.

(** X18. [validateRewardApplyInput] returns without an error exactly
    when the reward id and the subscription id are given and not blank and
    the discount is a number from 0 to 100, both ends included; it never
    accepts NaN or a missing discount. *)
Theorem reward_apply_input_accepted_iff
  (rewardId : string) (data : option RewardApplyInput) :
  validateRewardApplyInput rewardId data = None
  <-> rewardId <> "" /\ trim rewardId <> ""
      /\ exists sid d,
           data = Some {| subscription_id := Some sid;
                          discount_percentage := Some d |}
           /\ sid <> "" /\ trim sid <> ""
           /\ isNaN d = false
           /\ (0 <=? d)%float = true /\ (d <=? 100)%float = true.
Proof.
  unfold validateRewardApplyInput. split.
  - destruct (String.eqb rewardId "") eqn:Hr2; [discriminate|].
    destruct (String.eqb (trim rewardId) "") eqn:Hr1; [discriminate|].
    cbn [orb]. destruct data as [[sid d]|]; [|discriminate].
    cbn [subscription_id discount_percentage].
    destruct (truthy sid) as [s|] eqn:Hs; [|discriminate].
    apply truthy_Some_iff in Hs as [-> Hs2].
    destruct (String.eqb (trim s) "") eqn:Hs1; [discriminate|].
    destruct d as [d|]; [|discriminate].
    destruct (isNaN d) eqn:Hn; [discriminate|].
    destruct (PrimFloat.ltb d 0) eqn:Hlo; [discriminate|].
    destruct (PrimFloat.ltb 100 d) eqn:Hhi; [discriminate|].
    intros _. apply String.eqb_neq in Hr1, Hr2, Hs1.
    repeat split; try assumption.
    exists s, d. repeat split; try assumption.
    + apply not_ltb_leb; [reflexivity | exact Hn | exact Hlo].
    + apply not_ltb_leb; [exact Hn | reflexivity | exact Hhi].
  - intros (Hr2 & Hr1 & sid & d & -> & Hs2 & Hs1 & Hn & Hlo & Hhi).
    apply String.eqb_neq in Hr1, Hr2, Hs1, Hs2.
    rewrite Hr1, Hr2. cbn [orb truthy subscription_id discount_percentage].
    rewrite Hs2, Hs1, Hn.
    rewrite (leb_ltb_false 0 d Hlo), (leb_ltb_false d 100 Hhi). reflexivity.
Qed.

(** X19. The price of a subscription is its final price whenever it has
    one, be it 0, and whatever the plan costs; without a final price a plan
    price given as text never yields NaN (text that is not a number counts
    as 0), and a missing plan price is 0. *)
Theorem subscription_price_precedence
  (subscription : Subscription.t) (planPrice : option NumberOrString)
  (text_price : string) :
  (forall final_price,
     Subscription.final_price subscription = Some final_price ->
     getSubscriptionPrice (Some subscription) planPrice = final_price)
  /\ (Subscription.final_price subscription = None ->
      getSubscriptionPrice (Some subscription) planPrice
      = getSubscriptionPrice None planPrice)
  /\ isNaN (getSubscriptionPrice None (Some (Str text_price))) = false
  /\ getSubscriptionPrice None (Some (Str text_price)) = toNumber (Str text_price)
  /\ getSubscriptionPrice None None = 0%float.
Proof.
  unfold getSubscriptionPrice. repeat split.
  - intros fp ->. reflexivity.
  - intros ->. reflexivity.
  - cbv zeta. destruct (isNaN (parseFloat text_price)) eqn:E;
      [reflexivity | exact E].
Qed.

End ValidationProperties.

(* ----------------------------------------------------------------- *)
(** ** Attendance counting and the progress card *)

Section CountingProperties.
Context {host : Host}.

Lemma ltb_asym (x y : float) :
  (x <? y)%float = true -> (y <? x)%float = false.
Proof.
  rewrite !ltb_spec. unfold SFltb.
  rewrite (SFcompare_antisym (Prim2SF x) (Prim2SF y)).
  destruct (SFcompare (Prim2SF x) (Prim2SF y)) as [[]|];
    cbn; intros Hlt; try discriminate; reflexivity.
Qed.

(** [Math.min(x, 100)] is NaN or at most 100. *)
Lemma Math_min_100 (x : float) :
  is_nan (Math_min x 100%float) = true
  \/ (Math_min x 100 <=? 100)%float = true.
Proof.
  unfold Math_min. destruct (is_nan x) eqn:Hn; [left; reflexivity|].
  right. cbn [orb]. change (is_nan 100%float) with false. cbv iota.
  destruct (x <? 100)%float eqn:Hlt.
  - apply not_ltb_leb; [exact Hn | reflexivity | now apply ltb_asym].
  - destruct (100 <? x)%float eqn:Hgt; [reflexivity|].
    destruct (get_sign x); [|reflexivity].
    apply not_ltb_leb; [exact Hn | reflexivity | exact Hgt].
Qed.

Lemma cycle_count_cons (att : Attendance.t) (atts : list Attendance.t)
  (startDate endDate : string) :
  calculateCycleAttendances (Some (att :: atts)) startDate endDate
  = (if inCycle (Date_new startDate) (Date_new endDate) att then 1 else 0)
    + calculateCycleAttendances (Some atts) startDate endDate.
Proof.
  rewrite !calculateCycleAttendances_filter. simpl filter.
  destruct (inCycle _ _ att); cbn [List.length]; lia.
Qed.

Lemma cycle_count_bounds (atts : list Attendance.t) (startDate endDate : string) :
  0 <= calculateCycleAttendances (Some atts) startDate endDate <= Z.of_nat (List.length atts).
Proof.
  induction atts as [|att atts IH].
  - simpl. lia.
  - rewrite cycle_count_cons. cbn [List.length].
    destruct (inCycle _ _ att); lia.
Qed.

(** X20. Whatever progress object the card computes, its fields fit
    together: the cycle's attendances are between 0 and the number of
    attendance records, the remaining count is never negative, the cycle
    is complete exactly when nothing remains, the threshold and the
    discount are the configuration's, and the percentage is NaN or at most
    100. *)
Theorem progress_fields_are_consistent
  (config : RewardConfig.t)
  (activeSubscription : option RewardProgress.ActiveSubscription)
  (subscriptionPlan : option RewardProgress.SubscriptionPlan)
  (attendances : option (list Attendance.t))
  (pr : RewardProgress.Progress)
  (Hpr : RewardProgress.progress config activeSubscription subscriptionPlan
           attendances = Some pr) :
  (exists atts, attendances = Some atts /\ atts <> []
     /\ 0 <= RewardProgress.cycleAttendances pr <= Z.of_nat (List.length atts))
  /\ 0 <= RewardProgress.remaining pr
  /\ (RewardProgress.isComplete pr = true <-> RewardProgress.remaining pr = 0)
  /\ RewardProgress.threshold pr = RewardConfig.attendance_threshold config
  /\ RewardProgress.discountPercentage pr = RewardConfig.discount_percentage config
  /\ (is_nan (RewardProgress.progressPercentage pr) = true
      \/ (RewardProgress.progressPercentage pr <=? 100)%float = true).
Proof.
  unfold RewardProgress.progress in Hpr.
  destruct activeSubscription as [sub|]; [|discriminate].
  destruct subscriptionPlan as [plan|]; [|discriminate].
  destruct attendances as [atts|]; [|discriminate].
  destruct atts as [|att atts]; [discriminate|].
  change (Nat.eqb (List.length (att :: atts)) 0) with false in Hpr. cbv iota in Hpr.
  destruct (negb _); [discriminate|].
  injection Hpr as <-.
  cbn [RewardProgress.cycleAttendances RewardProgress.remaining
       RewardProgress.isComplete RewardProgress.threshold
       RewardProgress.discountPercentage RewardProgress.progressPercentage].
  pose proof (cycle_count_bounds (att :: atts) (RewardProgress.start_date sub)
                (RewardProgress.end_date sub)) as Hb.
  split; [exists (att :: atts); split; [reflexivity | split; [discriminate | exact Hb]]|].
  split; [lia|]. split; [rewrite Z.geb_le; lia|].
  split; [reflexivity|]. split; [reflexivity|].
  apply Math_min_100.
Qed.

Lemma inCycle_valid (s e t : Z) (startDate endDate : string) (att : Attendance.t) :
  Date_new startDate = Some s -> Date_new endDate = Some e ->
  Date_new (Attendance.check_in att) = Some t ->
  inCycle (Date_new startDate) (Date_new endDate) att
  = (s <=? t) && (t <=? e).
Proof.
  intros -> -> Ht. unfold inCycle, Date_ge, Date_le. rewrite Ht. reflexivity.
Qed.

Lemma inCycle_invalid_start (end_ : Date) (att : Attendance.t) :
  inCycle None end_ att = false.
Proof.
  unfold inCycle, Date_ge, Date_le.
  destruct (Date_new (Attendance.check_in att)); reflexivity.
Qed.

Lemma inCycle_invalid_end (start : Date) (att : Attendance.t) :
  inCycle start None att = false.
Proof.
  unfold inCycle, Date_ge, Date_le.
  destruct (Date_new (Attendance.check_in att)); [apply andb_false_r|];
    destruct start; reflexivity.
Qed.

Lemma inCycle_invalid_checkin (start end_ : Date) (att : Attendance.t) :
  Date_new (Attendance.check_in att) = None -> inCycle start end_ att = false.
Proof.
  intros Hnone. unfold inCycle, Date_ge, Date_le. rewrite Hnone.
  destruct start; reflexivity.
Qed.

(** X21. Counting over cycles. A cycle whose start or end is not a valid
    date counts no attendance at all. With valid dates, a cycle that
    contains another counts at least as many attendances; and when one
    cycle ends at the instant [m] at which the next one starts, an
    attendance checked in exactly at [m] counts in both, so the two counts
    add up to the count of the whole span plus the attendances at [m]. *)
Theorem cycle_counts_compose
  (atts : list Attendance.t)
  (startDate midDate endDate : string) (s m e : Z)
  (Hs : Date_new startDate = Some s)
  (Hm : Date_new midDate = Some m)
  (He : Date_new endDate = Some e)
  (Hsm : s <= m) (Hme : m <= e) :
  (forall bad other,
     Date_new bad = None ->
     calculateCycleAttendances (Some atts) bad other = 0 /\ calculateCycleAttendances (Some atts) other bad = 0)
  /\ calculateCycleAttendances (Some atts) startDate midDate <= calculateCycleAttendances (Some atts) startDate endDate
  /\ calculateCycleAttendances (Some atts) midDate endDate <= calculateCycleAttendances (Some atts) startDate endDate
  /\ calculateCycleAttendances (Some atts) startDate midDate + calculateCycleAttendances (Some atts) midDate endDate
     = calculateCycleAttendances (Some atts) startDate endDate + calculateCycleAttendances (Some atts) midDate midDate.
Proof.
  split.
  { intros bad other Hbad.
    rewrite !calculateCycleAttendances_filter, Hbad.
    rewrite (filter_ext _ (fun _ => false) (inCycle_invalid_start _)).
    rewrite (filter_ext _ (fun _ => false) (inCycle_invalid_end _)).
    assert (Hnone : filter (fun _ : Attendance.t => false) atts = [])
      by (induction atts; [reflexivity | assumption]).
    rewrite Hnone. split; reflexivity. }
  induction atts as [|att atts (IH1 & IH2 & IH3)].
  { simpl. lia. }
  rewrite !cycle_count_cons.
  destruct (Date_new (Attendance.check_in att)) as [t|] eqn:Ht.
  - rewrite (inCycle_valid s m t), (inCycle_valid s e t),
      (inCycle_valid m e t), (inCycle_valid m m t) by assumption.
    destruct (s <=? t) eqn:E1; destruct (t <=? m) eqn:E2;
      destruct (m <=? t) eqn:E3; destruct (t <=? e) eqn:E4;
      cbn [andb];
      try apply Z.leb_le in E1; try apply Z.leb_le in E2;
      try apply Z.leb_le in E3; try apply Z.leb_le in E4;
      try apply Z.leb_gt in E1; try apply Z.leb_gt in E2;
      try apply Z.leb_gt in E3; try apply Z.leb_gt in E4; lia.
  - rewrite !(inCycle_invalid_checkin _ _ att Ht). lia.
Qed.

End CountingProperties.

(* ----------------------------------------------------------------- *)
(** ** Pagination of the subscriptions table *)

Section PaginationProperties.
Import SubscriptionsTable.





End PaginationProperties.

(* ----------------------------------------------------------------- *)
(** ** The membership reminder *)

Section ReminderProperties.
Import MembershipReminder.

(** X23. The reminder flag in the session storage: once marked as shown,
    a component that mounts reads it as shown; once cleared, as not shown;
    marking twice is marking once; marking and clearing leave every other
    key of the storage as it was; and where there is no [window] neither
    does anything. *)
Theorem reminder_flag_round_trip (h : Hook) (key : string) :
  hasShownReminder (mount true (storage (markAsShown true h))) = true
  /\ hasShownReminder (mount true (storage (clearReminderState true h))) = false
  /\ hasShownReminder
       (mount true (storage (clearReminderState true (markAsShown true h))))
     = false
  /\ (forall k, storage (markAsShown true (markAsShown true h)) k
                = storage (markAsShown true h) k)
  /\ (key <> STORAGE_KEY ->
      getItem (storage (markAsShown true h)) key = getItem (storage h) key
      /\ getItem (storage (clearReminderState true h)) key
         = getItem (storage h) key)
  /\ markAsShown false h = h
  /\ clearReminderState false h = h.
Proof.
  split; [reflexivity|]. split; [reflexivity|]. split; [reflexivity|].
  split.
  { intros k. cbn. unfold setItem.
    destruct (String.eqb k STORAGE_KEY); reflexivity. }
  split; [|split; reflexivity].
  intros Hkey. apply String.eqb_neq in Hkey.
  cbn. unfold getItem, setItem, removeItem. rewrite Hkey. split; reflexivity.
Qed.

Lemma storedFlag_kept (d : Dashboard) (s : Step) :
  storedFlag true (storage (hook d)) = true ->
  storedFlag true (storage (hook (step true d s))) = true.
Proof.
  intros Hflag. destruct s as [load| |]; cbn [step].
  - unfold reminderEffect, shouldShowReminder. rewrite Hflag.
    rewrite !andb_false_r. cbn [andb]. exact Hflag.
  - exact Hflag.
  - exact Hflag.
Qed.

Lemma never_shown_when_flagged (d : Dashboard) (steps : list Step) :
  storedFlag true (storage (hook d)) = true ->
  timesShown true d steps = 0%nat.
Proof.
  revert d. induction steps as [|s rest IH]; intros d Hflag; [reflexivity|].
  cbn [timesShown]. rewrite (IH _ (storedFlag_kept d s Hflag)).
  destruct s as [load| |]; try reflexivity.
  unfold shouldShowReminder. rewrite Hflag. rewrite !andb_false_r. reflexivity.
Qed.

(** X24. In a browser session the reminder opens at most once, however
    often the dashboard renders, refetches, is closed or is mounted anew:
    opening it stores the flag, and a page that finds the flag stored
    never opens it. Without the flag, the first render that has the data
    and is neither loading nor refetching opens it. *)
Theorem reminder_shown_at_most_once (d : Dashboard) (steps : list Step) :
  (timesShown true d steps <= 1)%nat
  /\ (storedFlag true (storage (hook d)) = true ->
      timesShown true d steps = 0%nat)
  /\ (forall load,
        shouldShowReminder true load d = true ->
        isReminderModalOpen (reminderEffect true load d) = true
        /\ storedFlag true (storage (hook (reminderEffect true load d))) = true).
Proof.
  split; [|split].
  - revert d. induction steps as [|s rest IH]; intros d; [cbn; lia|].
    cbn [timesShown]. destruct s as [load| |].
    + destruct (shouldShowReminder true load d) eqn:Hshow.
      * rewrite never_shown_when_flagged; [lia|].
        cbn [step]. unfold reminderEffect. rewrite Hshow. reflexivity.
      * specialize (IH (step true d (Render load))). lia.
    + specialize (IH (step true d CloseReminder)). lia.
    + specialize (IH (step true d Remount)). lia.
  - apply never_shown_when_flagged.
  - intros load Hshow. unfold reminderEffect. rewrite Hshow. split; reflexivity.
Qed.

End ReminderProperties.

(* ----------------------------------------------------------------- *)
(** ** Payment helpers *)

Section PaymentProperties.
Import PaymentHelpers.
Context {host : Host} {text : RewardValidation.Text} {currency : Currency}.

Lemma nan_leb_false (x y : float) :
  is_nan x = true -> (x <=? y)%float = false.
Proof.
  intros Hn. destruct (x <=? y)%float eqn:E; [|reflexivity].
  apply leb_not_nan in E as [Hx _]. congruence.
Qed.



(** X25. A payment can be registered exactly when the subscription is
    active, pending payment or expired and is not fully paid. A cancelled
    subscription is refused for being cancelled even when it is fully
    paid; without payment statistics, or with a remaining debt that does
    not parse to a number, a subscription does not count as fully paid. *)
Theorem payment_allowed_iff
  (subscription : Subscription.t) (paymentStats : option PaymentStats) :
  (canPay (canMakePayment subscription paymentStats) = true
   <-> (Subscription.status subscription = SubscriptionStatus.ACTIVE
        \/ Subscription.status subscription = SubscriptionStatus.PENDING_PAYMENT
        \/ Subscription.status subscription = SubscriptionStatus.EXPIRED)
       /\ isSubscriptionFullyPaid paymentStats = false)
  /\ (canPay (canMakePayment subscription paymentStats) = true
      <-> reason (canMakePayment subscription paymentStats) = None)
  /\ (Subscription.status subscription = SubscriptionStatus.CANCELED ->
      reason (canMakePayment subscription paymentStats)
      = Some "No se pueden registrar pagos en suscripciones canceladas")
  /\ isSubscriptionFullyPaid None = false
  /\ (forall stats,
        remaining_debt stats <> "" ->
        isNaN (parseFloat (remaining_debt stats)) = true ->
        isSubscriptionFullyPaid (Some stats) = false).
Proof.
  unfold canMakePayment.
  split; [|split; [|split; [|split]]].
  - destruct (Subscription.status subscription);
      destruct (isSubscriptionFullyPaid paymentStats); cbn [canPay];
      split; try discriminate; try tauto;
      intros [[Hs | [Hs | Hs]] Hp]; discriminate.
  - destruct (Subscription.status subscription);
      destruct (isSubscriptionFullyPaid paymentStats); cbn [canPay reason];
      split; try discriminate; reflexivity.
  - intros ->. reflexivity.
  - reflexivity.
  - intros stats Hne Hnan. unfold isSubscriptionFullyPaid.
    apply String.eqb_neq in Hne. rewrite Hne. now apply nan_leb_false.
Qed.

Lemma alike_add (x y a : float) :
  alike x y -> alike (x + a)%float (y + a)%float.
Proof.
  intros [-> | (s & s' & Hx & Hy)]; [now left|].
  destruct (Prim2SF a) as [sa|sa| |sa ma ea] eqn:Ha.
  - right. exists (match s, sa with true, true => true | _, _ => false end),
                  (match s', sa with true, true => true | _, _ => false end).
    rewrite !add_spec, Hx, Hy, Ha. destruct s, s', sa; split; reflexivity.
  - left. apply Prim2SF_inj. rewrite !add_spec, Hx, Hy, Ha. reflexivity.
  - left. apply Prim2SF_inj. rewrite !add_spec, Hx, Hy, Ha. reflexivity.
  - left. apply Prim2SF_inj. rewrite !add_spec, Hx, Hy, Ha. reflexivity.
Qed.

Lemma alike_add_zero (x y : float) : alike x y -> alike (x + 0)%float y.
Proof.
  intros Hxy.
  assert (Hx0 : alike (x + 0)%float x).
  { destruct (Prim2SF x) as [s|s| |s m e] eqn:Hx.
    - right. exists false, s. rewrite add_spec, Hx.
      change (Prim2SF 0) with (S754_zero false). destruct s; split; reflexivity.
    - left. apply Prim2SF_inj. rewrite add_spec, Hx. reflexivity.
    - left. apply Prim2SF_inj. rewrite add_spec, Hx. reflexivity.
    - left. apply Prim2SF_inj. rewrite add_spec, Hx. reflexivity. }
  destruct Hxy as [<- | (s & s' & Hx & Hy)]; [exact Hx0|].
  right. destruct Hx0 as [-> | (s0 & _ & Hx0 & _)].
  - now exists s, s'.
  - now exists s0, s'.
Qed.

Lemma alike_sameNumber (x y : float) : alike x y -> sameNumber x y = true.
Proof.
  unfold sameNumber. intros [<- | (s & s' & Hx & Hy)].
  - destruct (is_nan x) eqn:Hn; [apply orb_true_r|].
    apply is_nan_spec in Hn. rewrite eqb_spec, SFeqb_refl by assumption.
    reflexivity.
  - rewrite eqb_spec, Hx, Hy. reflexivity.
Qed.

(** X26. A payment whose amount does not parse to a number adds nothing
    to the total: the total of a list of payments is the total of its
    payments with a numeric amount (as far as [===] and [isNaN] can tell),
    and the total of no payments is 0. *)
Theorem total_ignores_unparseable_amounts (payments : list Payment) :
  let numeric p := negb (isNaN (parseFloat (amount p))) in
  sameNumber (calculateTotalPayments payments)
             (calculateTotalPayments (filter numeric payments)) = true
  /\ calculateTotalPayments [] = 0%float
  /\ (forall p, numeric p = false ->
        sameNumber (calculateTotalPayments (payments ++ [p]))
                   (calculateTotalPayments payments) = true).
Proof.
  intros numeric. unfold calculateTotalPayments.
  assert (Hgen : forall ps x y, alike x y ->
    alike
      (fold_left (fun total payment =>
         let a := parseFloat (amount payment) in
         (total + (if isNaN a then 0 else a))%float) ps x)
      (fold_left (fun total payment =>
         let a := parseFloat (amount payment) in
         (total + (if isNaN a then 0 else a))%float) (filter numeric ps) y)).
  { induction ps as [|p ps IH]; intros x y Hxy; [exact Hxy|].
    cbn [fold_left filter]. subst numeric. cbv beta zeta.
    destruct (isNaN (parseFloat (amount p))) eqn:Hn; cbn [negb].
    - apply IH. now apply alike_add_zero.
    - cbn [fold_left]. cbv zeta. rewrite Hn. apply IH. now apply alike_add. }
  split; [apply alike_sameNumber, Hgen; now left|].
  split; [reflexivity|].
  intros p Hp. rewrite fold_left_app. cbn [fold_left]. cbv zeta.
  subst numeric. cbv beta in Hp. apply negb_false_iff in Hp. rewrite Hp.
  apply alike_sameNumber, alike_add_zero. now left.
Qed.

(** X27. The remaining debt is never negative: it is 0 or more, or NaN
    when the difference between the price and what was paid is NaN. *)
Theorem remaining_debt_not_negative (subscriptionPrice totalPaid : number) :
  let debt := calculateRemainingDebt subscriptionPrice totalPaid in
  (debt <? 0)%float = false
  /\ (is_nan debt = true <-> is_nan (subscriptionPrice - totalPaid)%float = true)
  /\ (is_nan debt = false -> (0 <=? debt)%float = true).
Proof.
  intros debt. subst debt. unfold calculateRemainingDebt, Math_max.
  set (diff := (subscriptionPrice - totalPaid)%float).
  change (is_nan 0) with false. cbn [orb].
  destruct (is_nan diff) eqn:Hn.
  - repeat split; try reflexivity; discriminate.
  - destruct (0 <? diff)%float eqn:Hpos.
    + split; [now apply ltb_asym|]. split; [now rewrite Hn|].
      intros _. apply not_ltb_leb; [reflexivity | exact Hn | now apply ltb_asym].
    + destruct (diff <? 0)%float; cbv; repeat split; try discriminate.
Qed.


End PaymentProperties.

(* ----------------------------------------------------------------- *)
(** ** Activating and deactivating a client *)

Section ClientStatusProperties.
Import RenewModal ClientStatus.
Context {text : RewardValidation.Text}.

(** X29. Confirming the activation or the deactivation of a client calls
    the status mutation exactly once, with the flag true for an activation
    and false for a deactivation, and shows exactly one toast: a success
    toast when the mutation succeeds, an error toast when it fails. The
    dialog is closed exactly when the mutation succeeds; the error the
    hook rethrows is logged by the confirmation handler, which changes no
    state. While a mutation is running, closing the dialog does nothing,
    and without a client the confirmation does nothing. *)
Theorem status_confirmation_effects (client : Client) (settled : Settled unit) :
  let activated := handleActivateConfirm (Some client) settled in
  let deactivated := handleDeleteConfirm (Some client) settled in
  mutations activated = [(ClientStatus.id client, true)]
  /\ mutations deactivated = [(ClientStatus.id client, false)]
  /\ toastTypes activated = toastTypes deactivated
  /\ toastTypes activated
     = [match settled with
        | Resolved _ => RewardCalculation.success
        | Rejected _ => RewardCalculation.error
        end]
  /\ closesDialog activated = closesDialog deactivated
  /\ closesDialog activated
     = match settled with Resolved _ => true | Rejected _ => false end
  /\ snd (handleActivate client settled)
     = match settled with Resolved _ => None | Rejected err => Some err end
  /\ snd (handleDeactivate client settled)
     = match settled with Resolved _ => None | Rejected err => Some err end
  /\ handleActivateConfirm None settled = []
  /\ handleDeleteConfirm None settled = []
  /\ handleActivateModalClose true = []
  /\ handleDeleteModalClose true = [].
Proof.
  intros activated deactivated. subst activated deactivated.
  destruct settled as [u|err]; repeat split.
Qed.

End ClientStatusProperties.

(* ----------------------------------------------------------------- *)
(** ** The further statements on concrete data *)

Lemma renewal_failure_keeps_dialog_open_witness :
  let trace :=
    RenewModal.run MoreScenario.renewalFails
      (RenewModal.handleConfirm (host := DigitsHost.host)
         (Some Scenario.subscription) Scenario.rewardSelected) in
  RenewModal.error (RenewModal.finalState Scenario.rewardSelected trace)
  = Some "No se pudo renovar"
  /\ RenewModal.selectedReward (RenewModal.finalState Scenario.rewardSelected trace)
     = Some Scenario.reward.
Proof.
  destruct (renewal_failure_keeps_dialog_open (host := DigitsHost.host)
              Scenario.subscription Scenario.rewardSelected
              MoreScenario.renewalFails
              (RenewModal.ErrorInstance "No se pudo renovar") eq_refl)
    as (_ & _ & Herror & Hselected & _).
  split; assumption.
Defined.

Lemma renewal_success_closes_once_witness :
  List.length
    (filter RenewModal.isClose
       (RenewModal.run Scenario.rewardMarkingFails
          (RenewModal.handleConfirm (host := DigitsHost.host)
             (Some Scenario.subscription) Scenario.rewardSelected))) = 1%nat.
Proof.
  apply (renewal_success_closes_once (host := DigitsHost.host)
           Scenario.subscription Scenario.rewardSelected
           Scenario.rewardMarkingFails (Some "sub-2") eq_refl).
Defined.

Lemma calculated_reward_is_first_available_witness :
  exists fetched pre post,
    Some [MoreScenario.expiredReward; Scenario.reward] = Some fetched
    /\ fetched = (pre ++ Scenario.reward :: post)%list
    /\ Reward.status Scenario.reward = RewardStatus.PENDING
    /\ isRewardExpired (host := DigitsHost.host) 1500 Scenario.reward = false
    /\ (forall r, In r pre ->
          isRewardAvailable (host := DigitsHost.host) 1500 r = false)
    /\ "¡Recompensa obtenida! 20% de descuento"
       = "¡Recompensa obtenida! "
         ++ interpolate (host := DigitsHost.host)
              (Reward.discount_percentage Scenario.reward)
         ++ "% de descuento".
Proof.
  exact (calculated_reward_is_first_available (host := DigitsHost.host)
           1500 false false
           (Some [MoreScenario.expiredReward; Scenario.reward]) None
           Scenario.reward "¡Recompensa obtenida! 20% de descuento" eq_refl).
Defined.

Lemma calculate_click_effects_witness :
  RewardCalculation.count RewardCalculation.isToast
    (RewardCalculation.panelCalculate (host := DigitsHost.host)
       DEFAULT_REWARD_CONFIG "sub-1" true
       (RewardCalculation.Fulfilled
          {| RewardEligibilityResponse.eligible := true;
             RewardEligibilityResponse.attendance_count := 25 |})) = 1%nat.
Proof.
  assert (Hid : "sub-1" <> "") by discriminate.
  apply (calculate_click_effects (host := DigitsHost.host)
           DEFAULT_REWARD_CONFIG "sub-1"
           (RewardCalculation.Fulfilled
              {| RewardEligibilityResponse.eligible := true;
                 RewardEligibilityResponse.attendance_count := 25 |}) Hid).
Defined.

Lemma available_rewards_shrink_with_time_witness :
  (List.length
     (filterAvailableRewards (host := DigitsHost.host) 1500
        [MoreScenario.expiredReward; Scenario.reward])
   <= List.length
        (filterAvailableRewards (host := DigitsHost.host) 1000
           [MoreScenario.expiredReward; Scenario.reward]))%nat.
Proof.
  assert (Htime : 1000 <= 1500) by lia.
  apply (available_rewards_shrink_with_time (host := DigitsHost.host)
           1000 1500 [MoreScenario.expiredReward; Scenario.reward] Htime).
Defined.

Lemma progress_fields_are_consistent_witness :
  exists pr,
    RewardProgress.progress (host := DigitsHost.host) DEFAULT_REWARD_CONFIG
      (Some Scenario.activeSubscription) (Some Scenario.monthlyPlan)
      (Some [Scenario.atStart; Scenario.before]) = Some pr
    /\ 0 <= RewardProgress.remaining pr.
Proof.
  destruct (RewardProgress.progress (host := DigitsHost.host)
              DEFAULT_REWARD_CONFIG
              (Some Scenario.activeSubscription) (Some Scenario.monthlyPlan)
              (Some [Scenario.atStart; Scenario.before])) as [pr|] eqn:E;
    [|vm_compute in E; discriminate E].
  exists pr. split; [reflexivity|].
  apply (progress_fields_are_consistent (host := DigitsHost.host)
           _ _ _ _ pr E).
Defined.

Lemma cycle_counts_compose_witness :
  let atts := [Scenario.atStart; Scenario.atEnd; Scenario.before; Scenario.after] in
  calculateCycleAttendances (host := DigitsHost.host) (Some atts) "1000" "2000"
  + calculateCycleAttendances (host := DigitsHost.host) (Some atts) "2000" "3000"
  = calculateCycleAttendances (host := DigitsHost.host) (Some atts) "1000" "3000"
    + calculateCycleAttendances (host := DigitsHost.host) (Some atts) "2000" "2000".
Proof.
  assert (H1 : 1000 <= 2000) by lia.
  assert (H2 : 2000 <= 3000) by lia.
  apply (cycle_counts_compose (host := DigitsHost.host)
           [Scenario.atStart; Scenario.atEnd; Scenario.before; Scenario.after]
           "1000" "2000" "3000" 1000 2000 3000 eq_refl eq_refl eq_refl H1 H2).
Defined.

(** A reward that expires at 1200: the flag computed at 1000 is set, the
    panel computed at 1500 shows no reward. *)
Example flag_outlives_the_reward :
  RewardCalculation.hasExistingReward (host := DigitsHost.host) 1000
    (Some [MoreScenario.expiredReward]) = true
  /\ RenewModal.rewardStatus (host := DigitsHost.host) 1500 false false
       (Some [MoreScenario.expiredReward]) None
     = RenewModal.not_calculated.
Proof. split; reflexivity. Qed.

(** At time 1500 a reward that expired at 1200 is no longer available. *)
Example expired_reward_is_filtered :
  filterAvailableRewards (host := DigitsHost.host) 1500
    [MoreScenario.expiredReward; Scenario.reward] = [Scenario.reward]
  /\ filterAvailableRewards (host := DigitsHost.host) 1000
       [MoreScenario.expiredReward; Scenario.reward]
     = [MoreScenario.expiredReward; Scenario.reward].
Proof. split; reflexivity. Qed.

(** A session: the dashboard loads, refetches, is closed and mounted
    anew, and loads again; the reminder opens once. *)
Example reminder_session :
  MembershipReminder.timesShown true MoreScenario.freshDashboard
    [ MembershipReminder.Render MoreScenario.loaded;
      MembershipReminder.Render MoreScenario.loaded;
      MembershipReminder.CloseReminder;
      MembershipReminder.Remount;
      MembershipReminder.Render MoreScenario.loaded ] = 1%nat.
Proof. reflexivity. Qed.

(** Amounts against a remaining debt of 50000 in the concrete host. *)
Example payment_amounts :
  PaymentHelpers.isValid
    (PaymentHelpers.validatePaymentAmount (host := DigitsHost.host)
       (text := MoreScenario.text) (currency := MoreScenario.currency)
       "20000" None (Some 50000%float)) = true
  /\ PaymentHelpers.error
       (PaymentHelpers.validatePaymentAmount (host := DigitsHost.host)
          (text := MoreScenario.text) (currency := MoreScenario.currency)
          "   " None (Some 50000%float)) = Some "Debe ingresar un monto"
  /\ PaymentHelpers.error
       (PaymentHelpers.validatePaymentAmount (host := DigitsHost.host)
          (text := MoreScenario.text) (currency := MoreScenario.currency)
          "60000" None (Some 50000%float))
     = Some "El monto no puede exceder $".
Proof. vm_compute. repeat split. Qed.
